(** * Document research chatbot: retrieval core

    A shallow embedding of the retrieval core of the repository
    (document model, document processor, vector store, result ranker and
    theme post-filter) together with the properties its specification
    states about it.

    Conventions of the embedding
    - Python [int] is [Z]; Python [float] (similarity scores, cosine
      distances, confidences) is idealised as an exact rational [Q].
    - Python [str] is [string]; a character is a code point below 256.
    - [Dict[str, str]] metadata is a [gmap string string]; the ranker's
      [docs_map], whose insertion order is observable, is an association
      list.
    - Code that may raise runs in the monad [M]: a trace of events (log
      records and calls to collaborators) and either a value or the
      exception raised. *)

From Stdlib Require Import ZArith QArith Lia Ascii String List Permutation Sorted.
From Stdlib Require PrimFloat.
Import (notations) PrimFloat.
From stdpp Require Import base list strings gmap sorting.

Local Open Scope Z_scope.
Local Open Scope stdpp_scope.

(** * Python built-ins used by the source *)

Module Py.

(** ** Characters *)

Definition LF : ascii := ascii_of_nat 10.
Definition SP : ascii := ascii_of_nat 32.

(** [str.isspace] on one character: TAB..CR, FS..US, SPACE, NEL, NBSP. *)
Definition isspace (c : ascii) : bool :=
  let n := N_of_ascii c in
  (((9 <=? n) && (n <=? 13)) || ((28 <=? n) && (n <=? 32))
   || (n =? 133) || (n =? 160))%N.

(** [str.lower] on one character: A..Z and the Latin-1 capitals
    (U+00C0..U+00DE without the multiplication sign U+00D7). *)
Definition lower_char (c : ascii) : ascii :=
  let n := N_of_ascii c in
  if (((65 <=? n) && (n <=? 90))
      || ((192 <=? n) && (n <=? 222) && negb (n =? 215)))%N
  then ascii_of_N (n + 32) else c.

(** ** Strings *)

Definition len (s : string) : Z := Z.of_nat (String.length s).

(** Truthiness of a string: [if s:]. *)
Definition truthy (s : string) : bool :=
  match s with EmptyString => false | String _ _ => true end.

Fixpoint lower (s : string) : string :=
  match s with
  | EmptyString => EmptyString
  | String c r => String (lower_char c) (lower r)
  end.

Fixpoint lstrip (s : string) : string :=
  match s with
  | EmptyString => EmptyString
  | String c r => if isspace c then lstrip r else s
  end.

Fixpoint rstrip (s : string) : string :=
  match s with
  | EmptyString => EmptyString
  | String c r =>
      match rstrip r with
      | EmptyString => if isspace c then EmptyString else String c EmptyString
      | r' => String c r'
      end
  end.

(** [s.strip()] *)
Definition strip (s : string) : string := rstrip (lstrip s).

(** [s.replace(old, new)] for one-character [old] and [new]. *)
Fixpoint replace_char (old new : ascii) (s : string) : string :=
  match s with
  | EmptyString => EmptyString
  | String c r =>
      String (if Ascii.eqb c old then new else c) (replace_char old new r)
  end.

Fixpoint take (n : nat) (s : string) : string :=
  match n, s with
  | S n', String c r => String c (take n' r)
  | _, _ => EmptyString
  end.

(** [s[:n]]; a negative bound counts from the end. *)
Definition slice_to (n : Z) (s : string) : string :=
  if 0 <=? n then take (Z.to_nat n) s
  else take (Z.to_nat (len s + n)) s.

(** [s.split()]: the maximal runs of non-whitespace characters.
    [cur] is the run being read, kept in reverse. *)
Fixpoint split_from (cur : list ascii) (s : string) : list string :=
  let flush := match cur with
               | [] => []
               | _ => [string_of_list_ascii (rev cur)]
               end in
  match s with
  | EmptyString => flush
  | String c r =>
      if isspace c then flush ++ split_from [] r
      else split_from (c :: cur) r
  end.

Definition split (s : string) : list string := split_from [] s.

(** [sep.join(parts)] *)
Fixpoint join (sep : string) (parts : list string) : string :=
  match parts with
  | [] => EmptyString
  | [p] => p
  | p :: rest => p +:+ sep +:+ join sep rest
  end.

(** [t in s] for strings: [t] occurs in [s] as a substring. *)
Fixpoint startswith (t s : string) : bool :=
  match t, s with
  | EmptyString, _ => true
  | String a t', String b s' => Ascii.eqb a b && startswith t' s'
  | String _ _, EmptyString => false
  end.

Fixpoint contains (t s : string) : bool :=
  startswith t s ||
  match s with
  | EmptyString => false
  | String _ r => contains t r
  end.

(** [any(p(x) for x in xs)] *)
Definition any {A} (p : A → bool) (xs : list A) : bool := existsb p xs.

(** ** Sorting *)

Section Sorted.
Context {A K : Type} (key : A → K) (lt : K → K → bool).

(** Where [x], which preceded every element of the sorted list [l] in
    the input, goes: after the elements with a smaller key and before
    everything else, so that equal keys keep their input order. *)
Fixpoint insert_stable (x : A) (l : list A) : list A :=
  match l with
  | [] => [x]
  | y :: r => if lt (key y) (key x) then y :: insert_stable x r
              else x :: y :: r
  end.

(** [sorted(l, key=key)]: a stable sort that compares keys with [<]. *)
Fixpoint sorted (l : list A) : list A :=
  match l with
  | [] => []
  | x :: r => insert_stable x (sorted r)
  end.

(** [sorted(l, key=key, reverse=True)]: the list is reversed, sorted
    and reversed again, which keeps the input order of equal keys. *)
Definition sorted_reverse (l : list A) : list A := rev (sorted (rev l)).

(** [a] may stand before [b] in a list sorted by [key]: the key of [b] is
    not smaller. *)
Definition key_le (a b : A) : Prop := lt (key b) (key a) = false.
End Sorted.

(** [max(xs, default=d)] on integers. *)
Definition max_default (xs : list Z) (d : Z) : Z :=
  match xs with
  | [] => d
  | x :: r => fold_left Z.max r x
  end.

(** [sum(xs)] on integers. *)
Definition sum (xs : list Z) : Z := fold_left Z.add xs 0.

(** Order on pairs of integers, as Python compares tuples. *)
Definition tuple_lt (a b : Z * Z) : bool :=
  (a.1 <? b.1) || ((a.1 =? b.1) && (a.2 <? b.2)).

(** [a < b] and [a >= b] on numbers of type [float]. *)
Definition float_lt (a b : Q) : bool := negb (Qle_bool b a).
Definition float_ge (a b : Q) : bool := Qle_bool b a.

(** [l[:n]] on a list; a negative bound counts from the end. *)
Definition list_slice_to {A} (n : Z) (l : list A) : list A :=
  if 0 <=? n then firstn (Z.to_nat n) l
  else firstn (Z.to_nat (Z.of_nat (length l) + n)) l.

(** ** [str(n)] and [int(s)] *)

Definition digit_char (d : N) : ascii := ascii_of_N (48 + d).

Definition digit_value (c : ascii) : option Z :=
  let n := N_of_ascii c in
  if ((48 <=? n) && (n <=? 57))%N then Some (Z.of_N (n - 48)) else None.

(** Decimal digits of [n], least significant first.  [fuel] bounds the
    number of digits; the number of binary digits of [n] is always
    enough. *)
Fixpoint digits_le (fuel : nat) (n : N) : list N :=
  match fuel with
  | O => []
  | S f => if (n <? 10)%N then [n]
           else (n mod 10)%N :: digits_le f (n / 10)%N
  end.

Definition digits (n : N) : list N :=
  rev (digits_le (S (N.to_nat (N.size n))) n).

Definition str_of_digits (ds : list N) : string :=
  string_of_list_ascii (map digit_char ds).

(** [str(z)] *)
Definition str (z : Z) : string :=
  if z <? 0 then String "-" (str_of_digits (digits (Z.to_N (- z))))
  else str_of_digits (digits (Z.to_N z)).

(** The digits of an [int] literal: decimal digits, where one underscore
    may stand between two digits.  [after_digit] tells whether the
    previous character was a digit. *)
Fixpoint parse_digits (acc : Z) (after_digit : bool) (s : string)
  : option Z :=
  match s with
  | EmptyString => if after_digit then Some acc else None
  | String c r =>
      match digit_value c with
      | Some d => parse_digits (10 * acc + d) true r
      | None =>
          if Ascii.eqb c "_" && after_digit then parse_digits acc false r
          else None
      end
  end.

(** [int(s)]: surrounding whitespace is dropped and one sign is read;
    [None] stands for the [ValueError] of a malformed literal. *)
Definition int (s : string) : option Z :=
  match strip s with
  | EmptyString => None
  | String c r =>
      if Ascii.eqb c "-" then Z.opp <$> parse_digits 0 false r
      else if Ascii.eqb c "+" then parse_digits 0 false r
      else parse_digits 0 false (String c r)
  end.

End Py.

(** * Exceptions, log records and external collaborators *)

Inductive ExceptionClass :=
| FileNotFoundError
| ValueError
| LibraryError.   (* any other [Exception] raised by a library call *)

Record Exception := { exc_class : ExceptionClass; exc_msg : string }.

Inductive LogLevel := INFO | WARNING | ERROR.

(** The calls to external collaborators that the PDF strategy makes. *)
Inductive Collaborator :=
| PdfReader_open
| page_extract_text (i : Z)
| convert_from_path
| image_to_string (i : Z).

Inductive Event :=
| Log (level : LogLevel) (msg : string)
| Called (c : Collaborator).

(** What running a piece of code gives: the value returned or the
    exception raised. *)
Inductive Outcome (A : Type) :=
| Returned (a : A)
| Raised (e : Exception).
Arguments Returned {A} a.
Arguments Raised {A} e.

(** A computation: the events it emitted, in order, and its outcome. *)
Definition M (A : Type) : Type := list Event * Outcome A.

Definition ret {A} (a : A) : M A := ([], Returned a).

Definition bind {A B} (m : M A) (k : A → M B) : M B :=
  match m with
  | (tr, Returned a) => let '(tr', o) := k a in (tr ++ tr', o)
  | (tr, Raised e) => (tr, Raised e)
  end.

Definition raise {A} (e : Exception) : M A := ([], Raised e).

Definition emit (ev : Event) : M unit := ([ev], Returned tt).

(** [try: body except Exception as e: handler(e)] *)
Definition try_except {A} (body : M A) (handler : Exception → M A) : M A :=
  match body with
  | (tr, Returned a) => (tr, Returned a)
  | (tr, Raised e) => let '(tr', o) := handler e in (tr ++ tr', o)
  end.

(** A call to a collaborator whose behaviour on this input is [o]. *)
Definition call {A} (c : Collaborator) (o : Outcome A) : M A :=
  ([Called c], o).

(** A library call that is not traced. *)
Definition lift {A} (o : Outcome A) : M A := ([], o).

Definition trace {A} (m : M A) : list Event := m.1.
Definition outcome {A} (m : M A) : Outcome A := m.2.

#[export] Instance M_ret : MRet M := @ret.
#[export] Instance M_bind : MBind M := fun A B k m => bind m k.

(** * The document model (app/models/document.py) *)

Inductive DocumentType := PDF | IMAGE | TEXT | DOCX | PPTX.

(** The [value] of a member of the enumeration. *)
Definition DocumentType_value (t : DocumentType) : string :=
  match t with
  | PDF => "pdf" | IMAGE => "image" | TEXT => "text"
  | DOCX => "docx" | PPTX => "pptx"
  end.

Definition DocumentType_members : list DocumentType :=
  [PDF; IMAGE; TEXT; DOCX; PPTX].

(** [DocumentType(v)]: the member whose value is [v], if any. *)
Definition DocumentType_of_value (v : string) : option DocumentType :=
  List.find (fun t => String.eqb (DocumentType_value t) v) DocumentType_members.

(** A [datetime], kept as its ISO 8601 text. *)
Record datetime := { isoformat : string }.

Record DocumentMetadata := {
  doc_id : string;
  title : string;
  doc_type : DocumentType;
  upload_date : option datetime;
  author : option string;
  source : option string;
  page_count : Z;
  word_count : Z;
  language : string;
  custom_metadata : gmap string string
}.

Record DocumentChunk := {
  chunk_id : string;
  chunk_doc_id : string;
  content : string;
  page_number : Z;
  chunk_index : Z;
  metadata : gmap string string;
  embedding : option (list Q)
}.

Record Document := {
  doc_metadata : DocumentMetadata;
  chunks : list DocumentChunk;
  raw_text : option string
}.

Record SearchResult := {
  chunk : DocumentChunk;
  score : Q;
  document : DocumentMetadata
}.

(** [self.chunks.append(chunk)] *)
Definition add_chunk (d : Document) (c : DocumentChunk) : Document :=
  {| doc_metadata := doc_metadata d;
     chunks := chunks d ++ [c];
     raw_text := raw_text d |}.

(** The sort key of [get_full_text]: [(x.page_number, x.chunk_index)]. *)
Definition sort_key (x : DocumentChunk) : Z * Z := (page_number x, chunk_index x).

Definition blank_line : string := String Py.LF (String Py.LF EmptyString).

(** The derived view of the chunks: sorted by [sort_key], joined by a
    blank line. *)
Definition joined_chunks (cs : list DocumentChunk) : string :=
  Py.join blank_line (map content (Py.sorted sort_key Py.tuple_lt cs)).

Definition get_full_text (d : Document) : string :=
  match raw_text d with
  | Some t => if Py.truthy t then t else joined_chunks (chunks d)
  | None => joined_chunks (chunks d)
  end.

(** Adding the chunks of [cs] to [d], one [add_chunk] after the other. *)
Definition add_chunks (d : Document) (cs : list DocumentChunk) : Document :=
  fold_left add_chunk cs d.

(** * The document processor (app/services/document_processor.py) *)

(** How the libraries behave on one PDF file: whether [pdf2image] can be
    imported, what [PdfReader(path).pages] and each [page.extract_text()]
    give, what [convert_from_path(path)] and [image_to_string] on each of
    its images give. *)
Record PdfView := {
  pdf2image_import : Outcome unit;
  reader_pages : Outcome (list (Outcome string));
  rendered_pages : Outcome (list (Outcome string))
}.

(** What the processor can observe of the file at a path. *)
Record FileView := {
  file_path : string;                       (* [str(file_path)] *)
  file_name : string;                       (* [file_path.name] *)
  file_stem : string;                       (* [file_path.stem] *)
  file_suffix : string;                     (* [file_path.suffix] *)
  file_exists : bool;                       (* [file_path.exists()] *)
  mime_guess : Outcome (option string);     (* libmagic, else [mimetypes] *)
  as_pdf : PdfView;
  as_docx : Outcome (list string);          (* text of each paragraph *)
  as_pptx : Outcome (list (list (option string)));
                                            (* per slide, per shape: its text *)
  as_text : Outcome string;                 (* [f.read()], decoded as UTF-8 *)
  as_image : Outcome (option string)        (* [None]: [imread] gave [None] *)
}.

Definition TextChunks : Type := list (Z * string).

(** [if text.strip(): chunks.append((i, text))] *)
Definition keep_nonblank (chunks : TextChunks) (i : Z) (text : string)
  : TextChunks :=
  if Py.truthy (Py.strip text) then chunks ++ [(i, text)] else chunks.

(** The loop shared by both phases of [_process_pdf]:
    [for i, page in enumerate(pages)], reading the text of each page with
    the collaborator [reader] and keeping the non-blank ones. *)
Fixpoint collect_pages (reader : Z → Collaborator) (i : Z)
    (pages : list (Outcome string)) (chunks : TextChunks) : M TextChunks :=
  match pages with
  | [] => mret chunks
  | page :: rest =>
      text ← call (reader i) page;
      collect_pages reader (i + 1) rest (keep_nonblank chunks i text)
  end.

(** The first phase of [_process_pdf]: the text of each page, read
    directly. *)
Definition pdf_direct_phase (v : PdfView) : M TextChunks :=
  pages ← call PdfReader_open (reader_pages v);
  collect_pages page_extract_text 0 pages [].

(** The second phase: each page rendered to an image and read by OCR. *)
Definition pdf_ocr_phase (v : PdfView) : M TextChunks :=
  images ← call convert_from_path (rendered_pages v);
  collect_pages image_to_string 0 images [].

Definition _process_pdf (f : FileView) : M TextChunks :=
  try_except
    (lift (pdf2image_import (as_pdf f));;
     direct ← try_except
       (chunks ← pdf_direct_phase (as_pdf f);
        mret (match chunks with [] => None | _ => Some chunks end))
       (fun e =>
          emit (Log WARNING
             ("Direct PDF text extraction failed, falling back to OCR: "
              +:+ exc_msg e));;
          mret None);
     match direct with
     | Some chunks => mret chunks
     | None => pdf_ocr_phase (as_pdf f)
     end)
    (fun e =>
       emit (Log ERROR ("Error processing PDF " +:+ file_path f +:+ ": "
                        +:+ exc_msg e));;
       mret []).

Definition newline : string := String Py.LF EmptyString.

Definition _process_docx (f : FileView) : M TextChunks :=
  try_except
    (paragraphs ← lift (as_docx f);
     let full_text :=
       List.filter (fun t => Py.truthy (Py.strip t)) paragraphs in
     mret (match full_text with
           | [] => []
           | _ => [(0, Py.join newline full_text)]
           end))
    (fun e =>
       emit (Log ERROR ("Error processing DOCX " +:+ file_path f +:+ ": "
                        +:+ exc_msg e));;
       mret []).

(** The texts of the shapes of one slide that have a non-blank text. *)
Definition slide_texts (shapes : list (option string)) : list string :=
  omap (fun s => match s with
                 | Some t => if Py.truthy (Py.strip t) then Some t else None
                 | None => None
                 end) shapes.

Fixpoint collect_slides (i : Z) (slides : list (list (option string)))
    (slides_text : TextChunks) : TextChunks :=
  match slides with
  | [] => slides_text
  | shapes :: rest =>
      let slide_text := slide_texts shapes in
      collect_slides (i + 1) rest
        (match slide_text with
         | [] => slides_text
         | _ => slides_text ++ [(i, Py.join newline slide_text)]
         end)
  end.

Definition _process_pptx (f : FileView) : M TextChunks :=
  try_except
    (slides ← lift (as_pptx f);
     mret (collect_slides 0 slides []))
    (fun e =>
       emit (Log ERROR ("Error processing PPTX " +:+ file_path f +:+ ": "
                        +:+ exc_msg e));;
       mret []).

Definition _process_text (f : FileView) : M TextChunks :=
  try_except
    (content ← lift (as_text f);
     mret (if Py.truthy (Py.strip content) then [(0, content)] else []))
    (fun e =>
       emit (Log ERROR ("Error processing text file " +:+ file_path f +:+ ": "
                        +:+ exc_msg e));;
       mret []).

Definition _process_image (f : FileView) : M TextChunks :=
  try_except
    (image ← lift (as_image f);
     match image with
     | None =>
         raise {| exc_class := ValueError;
                  exc_msg := "Could not read image: " +:+ file_path f |}
     | Some text =>
         mret (if Py.truthy (Py.strip text) then [(0, text)] else [])
     end)
    (fun e =>
       emit (Log ERROR ("Error processing image " +:+ file_path f +:+ ": "
                        +:+ exc_msg e));;
       mret []).

(** [self.supported_mime_types.get(mime_type)] *)
Definition supported_mime_types (mime_type : string)
  : option (FileView → M TextChunks) :=
  if String.eqb mime_type "application/pdf" then Some _process_pdf
  else if String.eqb mime_type
    "application/vnd.openxmlformats-officedocument.wordprocessingml.document"
  then Some _process_docx
  else if String.eqb mime_type
    "application/vnd.openxmlformats-officedocument.presentationml.presentation"
  then Some _process_pptx
  else if String.eqb mime_type "text/plain" then Some _process_text
  else if String.eqb mime_type "image/jpeg" then Some _process_image
  else if String.eqb mime_type "image/png" then Some _process_image
  else if String.eqb mime_type "image/tiff" then Some _process_image
  else None.

(** [s[1:]] *)
Definition drop_first (s : string) : string :=
  match s with EmptyString => EmptyString | String _ r => r end.

(** [mime_type or 'application/octet-stream'] *)
Definition or_octet_stream (mime_type : option string) : string :=
  match mime_type with
  | Some m => if Py.truthy m then m else "application/octet-stream"
  | None => "application/octet-stream"
  end.

(** [ext[1:] if ext else None] for [ext = Path(file_path).suffix.lower()] *)
Definition extension (f : FileView) : option string :=
  let ext := Py.lower (file_suffix f) in
  if Py.truthy ext then Some (drop_first ext) else None.

Definition get_document_type (f : FileView)
  : M (option string * option string) :=
  try_except
    (mime_type ← lift (mime_guess f);
     mret (Some (or_octet_stream mime_type), extension f))
    (fun e =>
       emit (Log ERROR ("Error determining file type: " +:+ exc_msg e));;
       mret (None, None)).

(** [str(x)] inside an f-string, for an optional string. *)
Definition show_opt (o : option string) : string :=
  match o with Some s => s | None => "None" end.

(** The chunk that [process_document] builds from segment [i]. *)
Definition make_chunk (f : FileView) (md : DocumentMetadata) (i : Z)
    (seg : Z * string) : DocumentChunk :=
  {| chunk_id := doc_id md +:+ "_chunk_" +:+ Py.str i;
     chunk_doc_id := doc_id md;
     content := seg.2;
     page_number := seg.1;
     chunk_index := i;
     metadata := {[ "source" := file_name f; "page" := Py.str (seg.1 + 1) ]};
     embedding := None |}.

(** [for i, (page_num, chunk_text) in enumerate(text_chunks): ...] *)
Fixpoint attach_chunks (f : FileView) (md : DocumentMetadata) (i : Z)
    (text_chunks : TextChunks) (d : Document) : Document :=
  match text_chunks with
  | [] => d
  | seg :: rest =>
      attach_chunks f md (i + 1) rest (add_chunk d (make_chunk f md i seg))
  end.

(** The two assignments to [document.metadata] that end the assembly. *)
Definition set_counts (d : Document) : Document :=
  let m := doc_metadata d in
  {| doc_metadata :=
       {| doc_id := doc_id m; title := title m; doc_type := doc_type m;
          upload_date := upload_date m; author := author m;
          source := source m;
          page_count := Py.max_default (map page_number (chunks d)) 0 + 1;
          word_count :=
            Py.sum (map (fun c => Z.of_nat (length (Py.split (content c))))
                        (chunks d));
          language := language m; custom_metadata := custom_metadata m |};
     chunks := chunks d;
     raw_text := raw_text d |}.

Definition new_metadata (f : FileView) (ext : option string)
    (now : datetime) : DocumentMetadata :=
  {| doc_id := file_stem f;
     title := file_stem f;
     doc_type := match ext with
                 | Some e => default TEXT (DocumentType_of_value e)
                 | None => TEXT
                 end;
     upload_date := Some now;
     author := None; source := None;
     page_count := 0; word_count := 0;
     language := "en"; custom_metadata := ∅ |}.

(** The assembly of the document from the extracted segments. *)
Definition assemble (f : FileView) (ext : option string) (now : datetime)
    (text_chunks : TextChunks) : Document :=
  let md := new_metadata f ext now in
  let document := {| doc_metadata := md; chunks := []; raw_text := None |} in
  set_counts (attach_chunks f md 0 text_chunks document).

(** [if not x] fails for a string that is neither [None] nor empty. *)
Definition opt_truthy (o : option string) : option string :=
  match o with
  | Some s => if Py.truthy s then Some s else None
  | None => None
  end.

(** The body of the [try] of [process_document]. *)
Definition process_document_body (f : FileView) (now : datetime)
  : M Document :=
  (if file_exists f then mret tt
   else raise {| exc_class := FileNotFoundError;
                 exc_msg := "File not found: " +:+ file_path f |});;
  '(mime_type, ext) ← get_document_type f;
  match opt_truthy mime_type with
  | None =>
      raise {| exc_class := ValueError;
               exc_msg := "Could not determine file type for "
                          +:+ file_path f |}
  | Some mime_type =>
      emit (Log INFO ("Processing " +:+ file_path f +:+ " (MIME: "
                      +:+ mime_type +:+ ", Ext: " +:+ show_opt ext +:+ ")"));;
      match supported_mime_types mime_type with
      | None =>
          raise {| exc_class := ValueError;
                   exc_msg := "Unsupported file type: " +:+ mime_type |}
      | Some processor =>
          text_chunks ← processor f;
          match text_chunks with
          | [] =>
              raise {| exc_class := ValueError;
                       exc_msg :=
                         "No text could be extracted from the document" |}
          | _ => mret (assemble f ext now text_chunks)
          end
      end
  end.

Definition process_document (f : FileView) (now : datetime)
  : M (option Document) :=
  try_except
    (document ← process_document_body f now; mret (Some document))
    (fun e =>
       emit (Log ERROR ("Error processing document " +:+ file_path f +:+ ": "
                        +:+ exc_msg e));;
       mret None).

(** * The vector store (app/services/vector_store.py) *)

(** A record of the collection: the text and the metadata stored under
    an id. *)
Definition Collection : Type := gmap string (string * gmap string string).

(** What [collection.query] returns for one query text: parallel lists,
    the distances only when they were asked for. *)
Record QueryResult := {
  r_ids : list string;
  r_documents : list string;
  r_metadatas : list (gmap string string);
  r_distances : option (list Q)
}.

(** The batch that [add_document] fills and hands to [upsert]. *)
Record Batch := {
  ids : list string;
  documents : list string;
  metadatas : list (gmap string string)
}.

Definition empty_batch : Batch :=
  {| ids := []; documents := []; metadatas := [] |}.

(** [collection.upsert(ids, documents, metadatas)]: every record is
    inserted under its id, replacing what the id held. *)
Fixpoint upsert_records (ids : list string) (documents : list string)
    (metadatas : list (gmap string string)) (c : Collection) : Collection :=
  match ids, documents, metadatas with
  | i :: ids', d :: documents', m :: metadatas' =>
      upsert_records ids' documents' metadatas' (<[i := (d, m)]> c)
  | _, _, _ => c
  end.

Definition upsert (b : Batch) (c : Collection) : Collection :=
  upsert_records (ids b) (documents b) (metadatas b) c.

(** The metadata record of one chunk; the chunk's own metadata is spread
    last and wins on every key it has. *)
Definition chunk_record (d : Document) (c : DocumentChunk)
  : gmap string string :=
  let m := doc_metadata d in
  metadata c ∪
  {[ "doc_id" := doc_id m;
     "title" := title m;
     "doc_type" := DocumentType_value (doc_type m);
     "page_number" := Py.str (page_number c + 1);
     "chunk_index" := Py.str (chunk_index c);
     "source" := title m;
     "upload_date" := match upload_date m with
                      | Some t => isoformat t
                      | None => EmptyString
                      end ]}.

Section VectorStore.

(** [uuid4 k] is the [k]-th identifier that [uuid.uuid4()] draws. *)
Variable uuid4 : nat → string.

(** Whether [datetime.fromisoformat] accepts a text. *)
Variable valid_iso : string → bool.

(** The nearest-neighbour engine behind [collection.query]. *)
Variable collection_query :
  Collection → string → Z → gmap string string → Outcome QueryResult.

(** The loop of [add_document] over the chunks still to add; [k]
    identifiers have been drawn so far. *)
Fixpoint add_document_loop (d : Document) (todo : list DocumentChunk)
    (k : nat) (b : Batch) (c : Collection) : Batch * Collection :=
  match todo with
  | [] => (b, c)
  | chunk :: rest =>
      let b' := {| ids := ids b ++ [uuid4 k];
                   documents := documents b ++ [content chunk];
                   metadatas := metadatas b ++ [chunk_record d chunk] |} in
      if (100 <=? length (ids b'))%nat
      then add_document_loop d rest (S k) empty_batch (upsert b' c)
      else add_document_loop d rest (S k) b' c
  end.

(** [add_document]: the collection afterwards and the value returned.
    The collection is a map whose [upsert] cannot fail, so the function
    returns [True]. *)
Definition add_document (d : Document) (c : Collection)
  : Collection * bool :=
  let '(b, c') := add_document_loop d (chunks d) 0 empty_batch c in
  (match ids b with [] => c' | _ => upsert b c' end, true).

Definition FILTER_KEYS : list string :=
  ["doc_id"; "title"; "doc_type"; "page_number"].

(** The filters passed on to the engine. *)
Definition chroma_filters (filter_conditions : gmap string string)
  : gmap string string :=
  filter (fun kv => bool_decide (kv.1 ∈ FILTER_KEYS)) filter_conditions.

(** [1.0 / (1.0 + distance) if distance > 0 else 1.0] *)
Definition similarity (distance : Q) : Q :=
  if Py.float_lt 0 distance then (1 / (1 + distance))%Q else 1.

Definition METADATA_KEYS : list string :=
  ["doc_id"; "title"; "doc_type"; "upload_date"].

(** [list[i]], raising [IndexError] out of range. *)
Definition index {A} (l : list A) (i : nat) : Outcome A :=
  match l !! i with
  | Some a => Returned a
  | None => Raised {| exc_class := LibraryError;
                      exc_msg := "list index out of range" |}
  end.

(** [int(metadata.get(key, default))] *)
Definition int_field (metadata : gmap string string) (key : string)
    (default : Z) : Outcome Z :=
  match metadata !! key with
  | None => Returned default
  | Some s =>
      match Py.int s with
      | Some z => Returned z
      | None => Raised {| exc_class := ValueError;
                          exc_msg := "invalid literal for int()" |}
      end
  end.

(** The [DocumentMetadata] that [search] rebuilds from a stored record. *)
Definition hit_metadata (metadata : gmap string string)
  : Outcome DocumentMetadata :=
  match DocumentType_of_value (default "text" (metadata !! "doc_type")) with
  | None => Raised {| exc_class := LibraryError;
                      exc_msg := "doc_type: not a valid DocumentType" |}
  | Some t =>
      let date := default "1970-01-01" (metadata !! "upload_date") in
      if valid_iso date then
        Returned
          {| doc_id := default EmptyString (metadata !! "doc_id");
             title := default EmptyString (metadata !! "title");
             doc_type := t;
             upload_date := Some {| isoformat := date |};
             author := None; source := None;
             page_count := 0; word_count := 0; language := "en";
             custom_metadata :=
               filter (fun kv => bool_decide (kv.1 ∉ METADATA_KEYS))
                      metadata |}
      else Raised {| exc_class := ValueError;
                     exc_msg := "Invalid isoformat string" |}
  end.

(** The [DocumentChunk] that [search] rebuilds from a stored record. *)
Definition hit_chunk (id content : string) (metadata : gmap string string)
  : M DocumentChunk :=
  page ← lift (int_field metadata "page_number" 1);
  idx ← lift (int_field metadata "chunk_index" 0);
  mret {| chunk_id := id;
          chunk_doc_id := default EmptyString (metadata !! "doc_id");
          content := content;
          page_number := page - 1;
          chunk_index := idx;
          metadata := metadata;
          embedding := None |}.

(** One turn of the loop of [search]: the result built from hit [i]. *)
Definition hit_result (r : QueryResult) (i : nat) : M SearchResult :=
  id ← lift (index (r_ids r) i);
  content ← lift (index (r_documents r) i);
  metadata ← lift (index (r_metadatas r) i);
  distance ← match r_distances r with
             | Some ds => lift (index ds i)
             | None => mret 1%Q
             end;
  doc_metadata ← lift (hit_metadata metadata);
  chunk ← hit_chunk id content metadata;
  mret {| chunk := chunk;
          score := similarity distance;
          document := doc_metadata |}.

(** [for i in range(len(results["ids"][0])): search_results.append(...)] *)
Fixpoint collect_results (r : QueryResult) (indices : list nat)
    (search_results : list SearchResult) : M (list SearchResult) :=
  match indices with
  | [] => mret search_results
  | i :: rest =>
      res ← hit_result r i;
      collect_results r rest (search_results ++ [res])
  end.

Definition search (c : Collection) (query : string) (n_results : Z)
    (filter_conditions : gmap string string) : M (list SearchResult) :=
  try_except
    (results ← lift (collection_query c query n_results
                       (chroma_filters filter_conditions));
     collect_results results (seq 0 (length (r_ids results))) [])
    (fun e =>
       emit (Log ERROR ("Error searching vector store: " +:+ exc_msg e));;
       mret []).

End VectorStore.

(** The same conversion in binary64 arithmetic, as the interpreter runs
    it; it is evaluated at the extreme distances below. *)
Definition similarity_binary64 (distance : PrimFloat.float) : PrimFloat.float :=
  if PrimFloat.ltb 0 distance
  then PrimFloat.div 1 (PrimFloat.add 1 distance)
  else 1%float.

(** * The result ranker (app.py) *)

(** One entry of [documents_list], shown as a card. *)
Record DisplayRecord := {
  id : string;
  filename : string;
  answer : string;
  citation : string;
  relevance : Q
}.

(** The ['answer'] field: the snippet of the chunk shown to the user. *)
Definition answer_snippet (content : string) : string :=
  Py.slice_to 500 (Py.replace_char Py.LF Py.SP (Py.strip content))
  +:+ (if 500 <? Py.len content then "..." else EmptyString).

Definition display_record (res : SearchResult) : DisplayRecord :=
  {| id := doc_id (document res);
     filename := if Py.truthy (title (document res))
                 then title (document res) else "Unnamed Document";
     answer := answer_snippet (content (chunk res));
     citation := "Page " +:+ Py.str (page_number (chunk res) + 1)
                 +:+ ", Chunk " +:+ Py.str (chunk_index (chunk res) + 1);
     relevance := score res |}.

(** [docs_map]: a dictionary from [doc_id] to record, its entries in
    insertion order. *)
Definition DocsMap : Type := list (string * DisplayRecord).

(** [doc_id in docs_map] *)
Definition has_key (doc_id : string) (docs_map : DocsMap) : bool :=
  existsb (fun kv => String.eqb kv.1 doc_id) docs_map.

(** [for res in search_results: if doc_id not in docs_map: ...] *)
Fixpoint fill_docs_map (search_results : list SearchResult)
    (docs_map : DocsMap) : DocsMap :=
  match search_results with
  | [] => docs_map
  | res :: rest =>
      let doc_id := doc_id (document res) in
      fill_docs_map rest
        (if has_key doc_id docs_map then docs_map
         else docs_map ++ [(doc_id, display_record res)])
  end.

(** [docs_map.values()] *)
Definition values (docs_map : DocsMap) : list DisplayRecord :=
  map snd docs_map.

Definition documents_list (search_results : list SearchResult)
  : list DisplayRecord :=
  Py.sorted_reverse relevance Py.float_lt
    (values (fill_docs_map search_results [])).

(** * The theme post-filter (app/services/theme_extractor.py) *)

Record Theme := {
  name : string;
  description : string;
  keywords : list string;
  confidence : Q;
  supporting_docs : list (gmap string string)
}.

Definition data_keywords : list string :=
  ["data"; "database"; "sql"; "nosql"; "analytics"; "pipeline"; "storage";
   "etl"; "warehouse"; "stream"; "kafka"; "spark"; "hadoop"; "postgres";
   "mysql"; "mongodb"; "redis"; "elasticsearch"; "cassandra"; "airflow"].

Definition ai_terms : list string :=
  ["machine learning"; "deep learning"; "artificial intelligence"; "ai";
   "nlp"; "model"; "training"; "inference"; "computer vision"].

(** The loop that fills [final_themes]. *)
Fixpoint fill_final_themes (filtered_themes : list Theme)
    (final_themes : list Theme) : list Theme :=
  match filtered_themes with
  | [] => final_themes
  | theme :: rest =>
      let name_lower := Py.lower (name theme) in
      if Py.any (fun term => Py.contains term name_lower) ai_terms
      then fill_final_themes rest final_themes
      else if Py.any (fun kw => Py.contains kw name_lower) data_keywords
      then fill_final_themes rest (final_themes ++ [theme])
      else fill_final_themes rest final_themes
  end.

Section ThemeExtractor.

Variable max_themes : Z.
Variable min_theme_confidence : Q.

(** The summarizer: what [_extract_themes_with_llm] answers for the
    documents grouped from the search results and the query. *)
Variable _extract_themes_with_llm :
  list SearchResult → option string → list Theme.

Definition extract_themes (search_results : list SearchResult)
    (query : option string) : list Theme :=
  match search_results with
  | [] => []
  | _ =>
      let themes := _extract_themes_with_llm search_results query in
      let filtered_themes :=
        Py.list_slice_to max_themes
          (List.filter
             (fun theme => Py.float_ge (confidence theme) min_theme_confidence)
             themes) in
      fill_final_themes filtered_themes []
  end.

End ThemeExtractor.

(** * Properties: their vocabulary and the inputs of the examples *)

(** ** Document.get_full_text *)

(** Chunks in the order of [get_full_text]. *)
Definition by_sort_key : DocumentChunk → DocumentChunk → Prop :=
  Py.key_le sort_key Py.tuple_lt.

(** No two chunks with the same (page_number, chunk_index) differ in
    their content. *)
Definition key_determines_content (cs : list DocumentChunk) : Prop :=
  ∀ c1 c2, c1 ∈ cs → c2 ∈ cs → sort_key c1 = sort_key c2 →
           content c1 = content c2.

Definition example_chunk (p i : Z) (text : string) : DocumentChunk :=
  {| chunk_id := "c"; chunk_doc_id := "d"; content := text;
     page_number := p; chunk_index := i; metadata := ∅; embedding := None |}.

Definition example_metadata : DocumentMetadata :=
  {| doc_id := "d"; title := "d"; doc_type := TEXT; upload_date := None;
     author := None; source := None; page_count := 0; word_count := 0;
     language := "en"; custom_metadata := ∅ |}.

Definition example_document (raw : option string) : Document :=
  {| doc_metadata := example_metadata; chunks := []; raw_text := raw |}.

(** C2 as it is stated, for one document and two orders of adding. *)
Definition order_independent (d : Document) (cs cs' : list DocumentChunk)
  : Prop :=
  cs ≡ₚ cs' →
  get_full_text (add_chunks d cs) = get_full_text (add_chunks d cs')
  ∧ get_full_text (add_chunks d cs) = joined_chunks (chunks d ++ cs).

(** ** process_document *)

(** The four ways in which [process_document] gives up on a file. *)
Inductive FailureReason :=
| FileNotFound
| UndeterminedType
| UnsupportedType (mime_type : string)
| NoTextExtracted.

Inductive fails (f : FileView) : FailureReason → Prop :=
| fails_not_found :
    file_exists f = false → fails f FileNotFound
| fails_undetermined e :
    file_exists f = true → mime_guess f = Raised e →
    fails f UndeterminedType
| fails_unsupported m :
    file_exists f = true → mime_guess f = Returned m →
    supported_mime_types (or_octet_stream m) = None →
    fails f (UnsupportedType (or_octet_stream m))
| fails_no_text m processor :
    file_exists f = true → mime_guess f = Returned m →
    supported_mime_types (or_octet_stream m) = Some processor →
    outcome (processor f) = Returned [] →
    fails f NoTextExtracted.

(** The message of the exception raised for each reason. *)
Definition failure_message (f : FileView) (r : FailureReason) : string :=
  match r with
  | FileNotFound => "File not found: " +:+ file_path f
  | UndeterminedType => "Could not determine file type for " +:+ file_path f
  | UnsupportedType mime_type => "Unsupported file type: " +:+ mime_type
  | NoTextExtracted => "No text could be extracted from the document"
  end.

(** The record that the handler of [process_document] logs. *)
Definition failure_log (f : FileView) (r : FailureReason) : Event :=
  Log ERROR ("Error processing document " +:+ file_path f +:+ ": "
             +:+ failure_message f r).

Definition failure_exception (f : FileView) (r : FailureReason) : Exception :=
  {| exc_class := match r with FileNotFound => FileNotFoundError
                               | _ => ValueError end;
     exc_msg := failure_message f r |}.

Definition missing_file : FileView :=
  {| file_path := "data/raw/report.pdf"; file_name := "report.pdf";
     file_stem := "report"; file_suffix := ".pdf"; file_exists := false;
     mime_guess := Returned None;
     as_pdf := {| pdf2image_import := Returned tt;
                  reader_pages := Returned [];
                  rendered_pages := Returned [] |};
     as_docx := Returned []; as_pptx := Returned [];
     as_text := Returned EmptyString; as_image := Returned None |}.

Definition epoch : datetime := {| isoformat := "1970-01-01T00:00:00" |}.

(** ** The derived counts *)

(** The page count as the specification words it: one more than the
    greatest page number of a chunk, and 0 for no chunks. *)
Definition page_count_spec (cs : list DocumentChunk) (n : Z) : Prop :=
  match cs with
  | [] => n = 0
  | _ => ∃ c, c ∈ cs ∧ (∀ c', c' ∈ cs → page_number c' ≤ page_number c)
              ∧ n = page_number c + 1
  end.

(** The number of whitespace-separated tokens of a text: the number of
    its characters that are not whitespace and stand first or after
    whitespace.  [after_space] tells what stands before [s]. *)
Fixpoint count_tokens_from (after_space : bool) (s : string) : nat :=
  match s with
  | EmptyString => 0
  | String c r =>
      if Py.isspace c then count_tokens_from true r
      else ((if after_space then 1 else 0) + count_tokens_from false r)%nat
  end.

Definition count_tokens (s : string) : nat := count_tokens_from true s.

Definition word_count_spec (cs : list DocumentChunk) : Z :=
  foldr (fun c n => Z.of_nat (count_tokens (content c)) + n) 0 cs.

Definition notes_file : FileView :=
  {| file_path := "data/raw/notes.txt"; file_name := "notes.txt";
     file_stem := "notes"; file_suffix := ".txt"; file_exists := true;
     mime_guess := Returned (Some "text/plain");
     as_pdf := {| pdf2image_import := Returned tt;
                  reader_pages := Returned [];
                  rendered_pages := Returned [] |};
     as_docx := Returned []; as_pptx := Returned [];
     as_text := Returned "kafka streams  and tables";
     as_image := Returned None |}.

Definition notes_document : Document :=
  assemble notes_file (extension notes_file) epoch
    [(0, "kafka streams  and tables")].

(** ** _process_pdf *)

Definition is_ocr_call (ev : Event) : bool :=
  match ev with
  | Called convert_from_path | Called (image_to_string _) => true
  | _ => false
  end.

(** The OCR fallback ran: a page was rendered or read by OCR. *)
Definition ocr_ran {A} (m : M A) : bool := existsb is_ocr_call (trace m).

(** The pages whose text the direct extraction reads as non-blank, page by
    page, whatever happens on the other pages. *)
Fixpoint nonblank_pages (i : Z) (pages : list (Outcome string)) : TextChunks :=
  match pages with
  | [] => []
  | Returned text :: rest =>
      if Py.truthy (Py.strip text) then (i, text) :: nonblank_pages (i + 1) rest
      else nonblank_pages (i + 1) rest
  | Raised _ :: rest => nonblank_pages (i + 1) rest
  end.

Definition direct_nonblank_pages (f : FileView) : TextChunks :=
  match reader_pages (as_pdf f) with
  | Returned pages => nonblank_pages 0 pages
  | Raised _ => []
  end.

Definition pdf_file (v : PdfView) : FileView :=
  {| file_path := "data/raw/scan.pdf"; file_name := "scan.pdf";
     file_stem := "scan"; file_suffix := ".pdf"; file_exists := true;
     mime_guess := Returned (Some "application/pdf");
     as_pdf := v;
     as_docx := Returned []; as_pptx := Returned [];
     as_text := Returned EmptyString; as_image := Returned None |}.

Definition broken_page : Exception :=
  {| exc_class := LibraryError; exc_msg := "cannot read page" |}.

(** A PDF whose first page has text and whose second page makes the
    direct extraction raise. *)
Definition torn_pdf : FileView :=
  pdf_file {| pdf2image_import := Returned tt;
              reader_pages := Returned [Returned "hello"; Raised broken_page];
              rendered_pages := Returned [Returned "HELLO"; Returned "WORLD"] |}.

(** A PDF of two pages with text, all of it readable directly. *)
Definition text_pdf : FileView :=
  pdf_file {| pdf2image_import := Returned tt;
              reader_pages := Returned [Returned "hello"; Returned "world"];
              rendered_pages := Returned [Returned "HELLO"; Returned "WORLD"] |}.

(** A PDF of one blank page, on a host without [pdf2image]. *)
Definition blank_pdf_no_pdf2image : FileView :=
  pdf_file {| pdf2image_import :=
                Raised {| exc_class := LibraryError;
                          exc_msg := "No module named 'pdf2image'" |};
              reader_pages := Returned [Returned " "];
              rendered_pages := Returned [Returned "SCAN"] |}.

(** What the OCR phase gives to the caller of [_process_pdf]. *)
Definition ocr_chunks (v : PdfView) : TextChunks :=
  match outcome (pdf_ocr_phase v) with
  | Returned chunks => chunks
  | Raised _ => []
  end.

(** C4 as it is stated, for one file: the fallback runs exactly when no
    page has non-blank text to extract directly, and such pages, when there
    are any, are what is returned. *)
Definition ocr_only_without_direct_pages (f : FileView) : Prop :=
  (ocr_ran (_process_pdf f) = true ↔ direct_nonblank_pages f = [])
  ∧ (direct_nonblank_pages f ≠ [] →
     outcome (_process_pdf f) = Returned (direct_nonblank_pages f)).

(** ** The result ranker *)

Definition keys (docs_map : DocsMap) : list string := map fst docs_map.

(** The first result of a document in the list. *)
Definition first_of (doc_id0 : string) (search_results : list SearchResult)
  : option SearchResult :=
  List.find (fun res => String.eqb (doc_id (document res)) doc_id0)
            search_results.

Definition hit (doc_id0 : string) (score0 : Q) (text : string) : SearchResult :=
  {| chunk := example_chunk 0 0 text;
     score := score0;
     document :=
       {| doc_id := doc_id0; title := doc_id0; doc_type := TEXT;
          upload_date := None; author := None; source := None;
          page_count := 0; word_count := 0; language := "en";
          custom_metadata := ∅ |} |}.

Definition example_hits : list SearchResult :=
  [hit "A" (9 # 10) "first of A"; hit "B" (7 # 10) "only of B";
   hit "A" (5 # 10) "second of A"].

(** ** The answer snippet *)

(** C7 as it is stated: the content with its newlines replaced, cut at 500
    characters, and the ellipsis exactly when something was cut. *)
Definition snippet_as_stated (content : string) : string :=
  let s := Py.replace_char Py.LF Py.SP content in
  Py.take 500 s +:+ (if 500 <? Py.len s then "..." else EmptyString).

(** The text that the snippet shows: the content without the whitespace
    around it, every newline replaced by a space. *)
Definition snippet_text (content : string) : string :=
  Py.replace_char Py.LF Py.SP (Py.strip content).

(** 499 letters followed by two spaces: 501 characters, 499 once
    stripped. *)
Definition padded_content : string :=
  string_of_list_ascii (repeat "a"%char 499 ++ [Py.SP; Py.SP]).

Definition two_lines : string := "  kafka" +:+ newline +:+ "streams ".

(** ** The theme post-filter *)

(** A word of the vocabulary occurs in the name of the theme, letter case
    ignored. *)
Definition mentions (vocabulary : list string) (theme : Theme) : Prop :=
  ∃ word before after,
    word ∈ vocabulary ∧ Py.lower (name theme) = before +:+ word +:+ after.

(** The test of the loop of [fill_final_themes]. *)
Definition kept (theme : Theme) : bool :=
  let name_lower := Py.lower (name theme) in
  negb (Py.any (fun term => Py.contains term name_lower) ai_terms)
  && Py.any (fun kw => Py.contains kw name_lower) data_keywords.

Definition theme_named (name0 : string) (confidence0 : Q) : Theme :=
  {| name := name0; description := "about " +:+ name0; keywords := [];
     confidence := confidence0; supporting_docs := [] |}.

(** What a summarizer might answer. *)
Definition example_themes : list Theme :=
  [theme_named "Kafka Stream Processing" (9 # 10);
   theme_named "Machine Learning Pipelines" (9 # 10);
   theme_named "Team Culture" (8 # 10);
   theme_named "Data Retail" (8 # 10);
   theme_named "PostgreSQL Replication" (5 # 10);
   theme_named "Data Warehouse" (95 # 100)].

(** The themes that reach the post-filter: those of enough confidence,
    the first [max_themes] of them. *)
Definition candidate_themes (max_themes : Z) (min_theme_confidence : Q)
    (themes : list Theme) : list Theme :=
  Py.list_slice_to max_themes
    (List.filter
       (fun theme => Py.float_ge (confidence theme) min_theme_confidence)
       themes).

Definition example_summarizer (_ : list SearchResult) (_ : option string)
  : list Theme := example_themes.

(** ** [int(str(n))] *)

(** The number that digits stand for, least significant digit first. *)
Definition value_le (ds : list N) : N :=
  foldr (fun d acc => (d + 10 * acc)%N) 0%N ds.

(** The number that digits stand for, read from the left onto [acc]. *)
Definition value_from (acc : Z) (ds : list N) : Z :=
  fold_left (fun a d => 10 * a + Z.of_N d) ds acc.

(** No character of the text is whitespace. *)
Definition no_space (s : string) : Prop :=
  Forall (fun c => Py.isspace c = false) (list_ascii_of_string s).

(** ** The vector store *)

(** The raw distance of hit [i]: 1.0 when the engine gave no distances. *)
Definition raw_distance (r : QueryResult) (i : nat) : option Q :=
  match r_distances r with
  | Some ds => ds !! i
  | None => Some 1%Q
  end.

Definition example_engine (_ : Collection) (_ : string) (_ : Z)
    (_ : gmap string string) : Outcome QueryResult :=
  Returned
    {| r_ids := ["id-0"; "id-1"];
       r_documents := ["kafka streams"; "data lake"];
       r_metadatas :=
         [{[ "doc_id" := "notes"; "page_number" := "1"; "chunk_index" := "0" ]};
          {[ "doc_id" := "lake"; "page_number" := "3"; "chunk_index" := "2" ]}];
       r_distances := Some [0%Q; (1 # 4)%Q] |}.

Definition any_date (_ : string) : bool := true.

Definition example_results : list SearchResult :=
  match outcome (search any_date example_engine ∅ "streams" 10 ∅) with
  | Returned results => results
  | Raised _ => []
  end.

(** ** add_document *)

Definition StoredRecord : Type := string * (string * gmap string string).

(** The records inserted one after the other, a later one replacing an
    earlier one of the same id. *)
Definition insert_all (records : list StoredRecord) (c : Collection)
  : Collection :=
  fold_left (fun c r => <[r.1 := r.2]> c) records c.

Definition batch_records (b : Batch) : list StoredRecord :=
  zip (ids b) (zip (documents b) (metadatas b)).

(** The three lists of a batch go together. *)
Definition batch_wf (b : Batch) : Prop :=
  length (documents b) = length (ids b)
  ∧ length (metadatas b) = length (ids b).

(** The records that [add_document] makes of the chunks [todo], the first
    of them under the [k]-th identifier drawn. *)
Fixpoint new_records (uuid4 : nat → string) (d : Document)
    (todo : list DocumentChunk) (k : nat) : list StoredRecord :=
  match todo with
  | [] => []
  | chunk :: rest =>
      (uuid4 k, (content chunk, chunk_record d chunk))
      :: new_records uuid4 d rest (S k)
  end.

(** A chunk with an entry of its own under ["page_number"]. *)
Definition relabelled_chunk : DocumentChunk :=
  {| chunk_id := "c"; chunk_doc_id := "d"; content := "appendix";
     page_number := 0; chunk_index := 0;
     metadata := {[ "page_number" := "5" ]}; embedding := None |}.

Definition relabelled_document : Document :=
  {| doc_metadata := example_metadata; chunks := [relabelled_chunk];
     raw_text := None |}.

(** Identifiers for the examples: the text of the draw number. *)
Definition counter_uuid (k : nat) : string := Py.str (Z.of_nat k).

(** ** Page numbers through the index *)

(** C10 as it is stated, for the [j]-th chunk of a document: the record
    stored for it holds the text of its page number plus one, and a chunk
    rebuilt from the record has its page number again. *)
Definition stored_page_round_trip (uuid4 : nat → string) (d : Document)
    (c : Collection) (j : nat) (chunk : DocumentChunk) : Prop :=
  ∃ md,
    (add_document uuid4 d c).1 !! uuid4 j = Some (content chunk, md)
    ∧ md !! "page_number" = Some (Py.str (page_number chunk + 1))
    ∧ ∀ id0 content0 chunk',
        outcome (hit_chunk id0 content0 md) = Returned chunk' →
        page_number chunk' = page_number chunk.

Definition notes_chunk : DocumentChunk :=
  make_chunk notes_file (new_metadata notes_file (extension notes_file) epoch)
    0 (0, "kafka streams  and tables").

(** ** What the processors extract *)

(** The text has a character that is not whitespace: [text.strip()] is
    true. *)
Definition nonblank (s : string) : Prop := Py.truthy (Py.strip s) = true.

(** The segments are in page order, no page twice. *)
Definition pages_increasing (segs : TextChunks) : Prop :=
  StronglySorted (fun a b : Z * string => a.1 < b.1) segs.

(** What a processor may return: non-blank texts, on pages from [from]
    on, in page order. *)
Definition well_extracted (from : Z) (segs : TextChunks) : Prop :=
  Forall (fun seg : Z * string => from ≤ seg.1 ∧ nonblank seg.2) segs
  ∧ pages_increasing segs.

(** A deck of three slides: the second has no text, the third has a blank
    shape and a shape without a text frame. *)
Definition deck_file : FileView :=
  {| file_path := "data/raw/deck.pptx"; file_name := "deck.pptx";
     file_stem := "deck"; file_suffix := ".PPTX"; file_exists := true;
     mime_guess := Returned (Some
       "application/vnd.openxmlformats-officedocument.presentationml.presentation");
     as_pdf := {| pdf2image_import := Returned tt;
                  reader_pages := Returned [];
                  rendered_pages := Returned [] |};
     as_docx := Returned [];
     as_pptx := Returned [[Some "Kafka"; Some "topics and partitions"];
                          [Some "  "; None];
                          [None; Some " "; Some "Data warehouse"]];
     as_text := Returned EmptyString; as_image := Returned None |}.

Definition deck_processor : FileView → M TextChunks := _process_pptx.

(** ** The assembled document *)

(** The identifier that [process_document] gives to chunk [j] of a file. *)
Definition chunk_id_of (f : FileView) (j : nat) : string :=
  file_stem f +:+ "_chunk_" +:+ Py.str (Z.of_nat j).

Definition deck_document : Document :=
  assemble deck_file (extension deck_file) epoch
    [(0, "Kafka" +:+ newline +:+ "topics and partitions");
     (2, "Data warehouse")].

(** ** What search rebuilds *)

(** The keys of a stored record that [add_document] writes and [search]
    reads back. *)
Definition RECORD_KEYS : list string :=
  ["doc_id"; "title"; "doc_type"; "page_number"; "chunk_index"; "upload_date"].

(** Accepts the text of [epoch] only. *)
Definition epoch_only (s : string) : bool := String.eqb s (isoformat epoch).

(** An engine that answers with the records stored for [notes_document],
    at distance 1/4. *)
Definition notes_engine (c : Collection) (_ : string) (_ : Z)
    (_ : gmap string string) : Outcome QueryResult :=
  Returned
    {| r_ids := [counter_uuid 0];
       r_documents := [content notes_chunk];
       r_metadatas := [chunk_record notes_document notes_chunk];
       r_distances := Some [(1 # 4)%Q] |}.

(** ** The collection under add and delete *)





(** ** The best hit of a document *)

(** The results stand in descending order of score, as the engine ranks
    them. *)
Definition by_descending_score (search_results : list SearchResult) : Prop :=
  StronglySorted (fun a b => (score b <= score a)%Q) search_results.

(** ** The failure of a file *)

(** A file that exists and whose type detection raises. *)
Definition unreadable_file : FileView :=
  {| file_path := "data/raw/locked.bin"; file_name := "locked.bin";
     file_stem := "locked"; file_suffix := ".bin"; file_exists := true;
     mime_guess := Raised {| exc_class := LibraryError;
                             exc_msg := "permission denied" |};
     as_pdf := {| pdf2image_import := Returned tt;
                  reader_pages := Returned [];
                  rendered_pages := Returned [] |};
     as_docx := Returned []; as_pptx := Returned [];
     as_text := Returned EmptyString; as_image := Returned None |}.

(** ** Records that search cannot read *)

(** A stored record from which [search] cannot rebuild a result: a page
    number or a chunk index that is no integer literal, a type that is no
    [DocumentType], or an upload date that [fromisoformat] rejects. *)
Definition unreadable_record (valid_iso : string → bool)
    (md : gmap string string) : Prop :=
  (∃ s, md !! "page_number" = Some s ∧ Py.int s = None)
  ∨ (∃ s, md !! "chunk_index" = Some s ∧ Py.int s = None)
  ∨ DocumentType_of_value (default "text" (md !! "doc_type")) = None
  ∨ valid_iso (default "1970-01-01" (md !! "upload_date")) = false.

(** A document like [notes_document], without upload date. *)
Definition undated_document : Document :=
  {| doc_metadata :=
       {| doc_id := "notes"; title := "notes"; doc_type := TEXT;
          upload_date := None; author := None; source := None;
          page_count := 1; word_count := 4; language := "en";
          custom_metadata := ∅ |};
     chunks := [notes_chunk]; raw_text := None |}.

(** An engine whose second hit is the record of a chunk of
    [undated_document]. *)
Definition undated_engine (_ : Collection) (_ : string) (_ : Z)
    (_ : gmap string string) : Outcome QueryResult :=
  Returned
    {| r_ids := ["id-0"; "id-1"];
       r_documents := ["data lake"; content notes_chunk];
       r_metadatas :=
         [{[ "doc_id" := "lake"; "page_number" := "3"; "chunk_index" := "2";
             "upload_date" := isoformat epoch ]};
          chunk_record undated_document notes_chunk];
       r_distances := Some [(1 # 10)%Q; (1 # 4)%Q] |}.

(** ** The documents handed to the summarizer
    (app/services/theme_extractor.py, extract_themes) *)

(** One entry of [doc_groups[doc_id]['chunks']]. *)
Record GroupChunk := {
  gc_content : string;
  gc_page_number : Z;
  gc_score : Q
}.

(** [doc_groups[doc_id]['metadata']] *)
Record GroupMetadata := {
  gm_doc_id : string;
  gm_title : string;
  gm_source : string;
  gm_doc_type : DocumentType;
  gm_upload_date : string
}.

Record Group := {
  g_chunks : list GroupChunk;
  g_metadata : GroupMetadata
}.

(** [doc_groups]: a dictionary from [doc_id] to group, its entries in
    insertion order. *)
Definition DocGroups : Type := list (string * Group).

(** One entry of [documents]. *)
Record PromptDocument := {
  pd_id : string;
  pd_text : string;
  pd_metadata : GroupMetadata
}.

Definition group_chunk (result : SearchResult) : GroupChunk :=
  {| gc_content := content (chunk result);
     gc_page_number := page_number (chunk result) + 1;
     gc_score := score result |}.

Definition group_metadata (result : SearchResult) : GroupMetadata :=
  {| gm_doc_id := chunk_doc_id (chunk result);
     gm_title := title (document result);
     gm_source := default EmptyString (metadata (chunk result) !! "source");
     gm_doc_type := doc_type (document result);
     gm_upload_date := match upload_date (document result) with
                       | Some t => isoformat t
                       | None => EmptyString
                       end |}.

(** [doc_id in doc_groups] *)
Definition has_group (doc_id0 : string) (doc_groups : DocGroups) : bool :=
  existsb (fun kv => String.eqb kv.1 doc_id0) doc_groups.

(** [doc_groups[doc_id]['chunks'].append(gc)] *)
Fixpoint append_chunk (doc_id0 : string) (gc : GroupChunk)
    (doc_groups : DocGroups) : DocGroups :=
  match doc_groups with
  | [] => []
  | (k, g) :: rest =>
      if String.eqb k doc_id0
      then (k, {| g_chunks := g_chunks g ++ [gc];
                  g_metadata := g_metadata g |}) :: rest
      else (k, g) :: append_chunk doc_id0 gc rest
  end.

(** The loop that groups the results by document. *)
Fixpoint fill_doc_groups (search_results : list SearchResult)
    (doc_groups : DocGroups) : DocGroups :=
  match search_results with
  | [] => doc_groups
  | result :: rest =>
      let doc_id0 := chunk_doc_id (chunk result) in
      let doc_groups' :=
        if has_group doc_id0 doc_groups then doc_groups
        else doc_groups ++ [(doc_id0, {| g_chunks := [];
                                         g_metadata := group_metadata result |})]
      in
      fill_doc_groups rest (append_chunk doc_id0 (group_chunk result) doc_groups')
  end.

(** The text of a group: its chunks, highest scores first, joined by a
    blank line and cut at 10000 characters. *)
Definition group_text (chunks0 : list GroupChunk) : string :=
  let sorted_chunks := Py.sorted_reverse gc_score Py.float_lt chunks0 in
  let full_text := Py.join blank_line (map gc_content sorted_chunks) in
  Py.slice_to 10000 full_text.

(** The loop that makes [documents] of [doc_groups.items()]. *)
Definition prompt_document (item : string * Group) : PromptDocument :=
  {| pd_id := item.1;
     pd_text := group_text (g_chunks item.2);
     pd_metadata := g_metadata item.2 |}.

Definition prepare_documents (search_results : list SearchResult)
  : list PromptDocument :=
  map prompt_document (fill_doc_groups search_results []).

(** [doc_groups.get(doc_id)] *)
Definition group_of (doc_id0 : string) (doc_groups : DocGroups)
  : option Group :=
  snd <$> List.find (fun kv => String.eqb kv.1 doc_id0) doc_groups.

(** The results of one document, in the order of the results. *)
Definition results_of (doc_id0 : string) (search_results : list SearchResult)
  : list SearchResult :=
  List.filter (fun r => String.eqb (chunk_doc_id (chunk r)) doc_id0)
              search_results.

(** A group with more chunks. *)
Definition extend_group (g : Group) (more : list GroupChunk) : Group :=
  {| g_chunks := g_chunks g ++ more; g_metadata := g_metadata g |}.

(** A result whose chunk belongs to the document [doc_id0]. *)
Definition chunk_hit (doc_id0 : string) (score0 : Q) (text : string)
  : SearchResult :=
  {| chunk := {| chunk_id := "c"; chunk_doc_id := doc_id0; content := text;
                 page_number := 0; chunk_index := 0; metadata := ∅;
                 embedding := None |};
     score := score0;
     document := document (hit doc_id0 score0 text) |}.

(** Three results of two documents, the best result last. *)
Definition mixed_hits : list SearchResult :=
  [chunk_hit "A" (5 # 10) "second of A"; chunk_hit "B" (7 # 10) "only of B";
   chunk_hit "A" (9 # 10) "first of A"].

(** What the summarizer is given for document A of [mixed_hits]. *)
Definition mixed_document_A : PromptDocument :=
  {| pd_id := "A";
     pd_text := "first of A" +:+ blank_line +:+ "second of A";
     pd_metadata := group_metadata (chunk_hit "A" (5 # 10) "second of A") |}.

(** ** The card of a result *)

(** A text of 600 letters, in two lines. *)
Definition long_content : string :=
  string_of_list_ascii (repeat "a"%char 300 ++ [Py.LF] ++ repeat "b"%char 299).

Definition long_hit : SearchResult := chunk_hit "A" (9 # 10) long_content.

(** * Facts about the built-ins *)

Example str_examples :
  Py.str 0 = "0" ∧ Py.str 42 = "42" ∧ Py.str (-7) = "-7" ∧ Py.str 1000 = "1000".
Proof. repeat split; reflexivity. Qed.

Example int_examples :
  Py.int " 12 " = Some 12 ∧ Py.int "-3" = Some (-3) ∧ Py.int "1_000" = Some 1000
  ∧ Py.int "1__0" = None ∧ Py.int EmptyString = None ∧ Py.int "+" = None
  ∧ Py.int "4x" = None.
Proof. repeat split; reflexivity. Qed.

Example split_examples :
  Py.split "  a bc  d " = ["a"; "bc"; "d"] ∧ Py.split "   " = [] ∧ Py.split EmptyString = [].
Proof. repeat split; reflexivity. Qed.

Example strip_examples :
  Py.strip "  a b  " = "a b" ∧ Py.strip "   " = EmptyString ∧ Py.strip "x" = "x".
Proof. repeat split; reflexivity. Qed.

Module PyFacts.

Section SortedFacts.
Context {A K : Type} (key : A → K) (lt : K → K → bool).

Hypothesis lt_asym : ∀ a b, lt a b = true → lt b a = false.
Hypothesis ge_trans :
  ∀ a b c, lt a b = false → lt b c = false → lt a c = false.

Lemma insert_stable_perm x l : Py.insert_stable key lt x l ≡ₚ x :: l.
Proof.
  induction l as [|y r IH]; simpl; [done|].
  destruct (lt (key y) (key x)); [|done].
  rewrite IH. apply Permutation_swap.
Qed.

Lemma sorted_perm l : Py.sorted key lt l ≡ₚ l.
Proof.
  induction l as [|x r IH]; simpl; [done|].
  by rewrite insert_stable_perm, IH.
Qed.

Lemma insert_stable_sorted x l :
  StronglySorted (Py.key_le key lt) l → StronglySorted (Py.key_le key lt) (Py.insert_stable key lt x l).
Proof.
  induction 1 as [|y r Hr IH Hy]; simpl.
  - repeat constructor.
  - destruct (lt (key y) (key x)) eqn:E.
    + constructor; [done|].
      rewrite insert_stable_perm. constructor; [|done].
      by apply lt_asym.
    + constructor; [by constructor|].
      constructor; [done|].
      eapply Forall_impl; [exact Hy|].
      intros z Hz. unfold Py.key_le in *. eauto.
Qed.

Lemma sorted_sorted l : StronglySorted (Py.key_le key lt) (Py.sorted key lt l).
Proof.
  induction l; simpl; [constructor|by apply insert_stable_sorted].
Qed.

Lemma sorted_reverse_perm l : Py.sorted_reverse key lt l ≡ₚ l.
Proof.
  unfold Py.sorted_reverse.
  by rewrite <- Permutation_rev, sorted_perm, <- Permutation_rev.
Qed.

Lemma StronglySorted_snoc (R : A → A → Prop) l x :
  StronglySorted R l → Forall (fun y => R y x) l →
  StronglySorted R (l ++ [x]).
Proof.
  induction 1 as [|y r Hr IH Hy]; simpl; intros Hx.
  - repeat constructor.
  - apply Forall_cons in Hx as [Hyx Hx].
    constructor; [by apply IH|].
    apply Forall_app. split; [done|by constructor].
Qed.

Lemma StronglySorted_rev (R : A → A → Prop) l :
  StronglySorted R l → StronglySorted (flip R) (rev l).
Proof.
  induction 1 as [|x l Hl IH Hx]; simpl; [constructor|].
  apply StronglySorted_snoc; [done|].
  apply Forall_forall. intros y Hy.
  rewrite Forall_forall in Hx. apply Hx.
  by apply list_elem_of_In, in_rev, list_elem_of_In.
Qed.

Lemma sorted_reverse_sorted l :
  StronglySorted (flip (Py.key_le key lt)) (Py.sorted_reverse key lt l).
Proof. apply StronglySorted_rev, sorted_sorted. Qed.

End SortedFacts.

Lemma tuple_lt_asym a b : Py.tuple_lt a b = true → Py.tuple_lt b a = false.
Proof. unfold Py.tuple_lt. destruct a, b; simpl. lia. Qed.

Lemma tuple_ge_trans a b c :
  Py.tuple_lt a b = false → Py.tuple_lt b c = false → Py.tuple_lt a c = false.
Proof. unfold Py.tuple_lt. destruct a, b, c; simpl. lia. Qed.

Lemma tuple_le_antisym a b :
  Py.tuple_lt a b = false → Py.tuple_lt b a = false → a = b.
Proof.
  unfold Py.tuple_lt. destruct a, b; simpl. intros. f_equal; lia.
Qed.

End PyFacts.

(** * Document.get_full_text *)

Lemma add_chunks_chunks d cs : chunks (add_chunks d cs) = chunks d ++ cs.
Proof.
  unfold add_chunks. revert d. induction cs as [|c cs IH]; intros d; simpl.
  - by rewrite app_nil_r.
  - rewrite IH. simpl. by rewrite <- app_assoc.
Qed.

Lemma add_chunks_raw_text d cs : raw_text (add_chunks d cs) = raw_text d.
Proof.
  unfold add_chunks. revert d.
  induction cs as [|c cs IH]; intros d; simpl; [done|].
  by rewrite IH.
Qed.

(** The contents, in sorted order, depend on the chunks only up to their
    order, when the key of a chunk determines its content. *)
Lemma sorted_contents_unique (cs l : list DocumentChunk) :
  key_determines_content cs → l ≡ₚ cs → StronglySorted by_sort_key l →
  map content (Py.sorted sort_key Py.tuple_lt cs) = map content l.
Proof.
  intros Hkey Hperm Hl.
  set (f := fun c : DocumentChunk => (sort_key c, content c)).
  set (R := fun p q : Z * Z * string => Py.tuple_lt q.1 p.1 = false).
  assert (f <$> Py.sorted sort_key Py.tuple_lt cs = f <$> l) as Heq.
  { apply (StronglySorted_unique_strong R).
    - intros p q Hp Hq Hpq Hqp.
      apply list_elem_of_fmap in Hp as (a & -> & Ha).
      apply list_elem_of_fmap in Hq as (b & -> & Hb).
      rewrite (PyFacts.sorted_perm sort_key Py.tuple_lt) in Ha.
      rewrite Hperm in Hb.
      assert (sort_key b = sort_key a) as Hk
        by (by apply PyFacts.tuple_le_antisym).
      unfold f. rewrite Hk. f_equal. symmetry. by apply Hkey.
    - eapply StronglySorted_fmap; [|apply PyFacts.sorted_sorted].
      + by intros a b Hab.
      + apply PyFacts.tuple_lt_asym.
      + apply PyFacts.tuple_ge_trans.
    - eapply StronglySorted_fmap; [|exact Hl]. by intros a b Hab.
    - apply fmap_Permutation.
      by rewrite (PyFacts.sorted_perm sort_key Py.tuple_lt), Hperm. }
  apply (f_equal (fmap snd)) in Heq.
  by rewrite <- !list_fmap_compose in Heq.
Qed.

Lemma joined_chunks_perm cs cs' :
  key_determines_content cs → cs ≡ₚ cs' →
  joined_chunks cs = joined_chunks cs'.
Proof.
  intros Hkey Hperm. unfold joined_chunks. f_equal.
  apply sorted_contents_unique; [done| |].
  - by rewrite (PyFacts.sorted_perm sort_key Py.tuple_lt).
  - apply PyFacts.sorted_sorted;
      [apply PyFacts.tuple_lt_asym|apply PyFacts.tuple_ge_trans].
Qed.

(** C2, as amended.  When no two chunks with the same
    (page_number, chunk_index) differ in content, [get_full_text] does not
    depend on the order in which the chunks were added; and when [raw_text]
    is unset or empty it is the contents of the chunks, arranged in any
    order that is sorted by (page_number, chunk_index), joined by a blank
    line. *)
Theorem get_full_text_insertion_order (d : Document) (cs cs' : list DocumentChunk) :
  cs ≡ₚ cs' →
  key_determines_content (chunks d ++ cs) →
  get_full_text (add_chunks d cs) = get_full_text (add_chunks d cs')
  ∧ ((∀ t, raw_text d = Some t → t = EmptyString) →
     ∀ l, l ≡ₚ chunks d ++ cs → StronglySorted by_sort_key l →
          get_full_text (add_chunks d cs)
          = Py.join blank_line (map content l)).
Proof.
  intros Hperm Hkey. split.
  - unfold get_full_text. rewrite !add_chunks_raw_text, !add_chunks_chunks.
    rewrite (joined_chunks_perm (chunks d ++ cs) (chunks d ++ cs'));
      [done|done|by rewrite Hperm].
  - intros Hraw l Hl Hsorted.
    unfold get_full_text. rewrite add_chunks_raw_text, add_chunks_chunks.
    assert (joined_chunks (chunks d ++ cs) = Py.join blank_line (map content l))
      as Hj.
    { unfold joined_chunks. f_equal. by apply sorted_contents_unique. }
    destruct (raw_text d) as [t|] eqn:E; [|done].
    by rewrite (Hraw t eq_refl).
Qed.

Lemma get_full_text_insertion_order_witness :
  get_full_text (add_chunks (example_document None)
                   [example_chunk 1 0 "b"; example_chunk 0 1 "a"])
  = get_full_text (add_chunks (example_document None)
                     [example_chunk 0 1 "a"; example_chunk 1 0 "b"]).
Proof.
  refine (proj1 (get_full_text_insertion_order (example_document None)
           [example_chunk 1 0 "b"; example_chunk 0 1 "a"]
           [example_chunk 0 1 "a"; example_chunk 1 0 "b"] _ _)).
  - apply Permutation_swap.
  - intros c1 c2 H1 H2. simpl in H1, H2.
    apply elem_of_cons in H1 as [->|H1];
      [|apply elem_of_cons in H1 as [->|H1]; [|by apply elem_of_nil in H1]];
    (apply elem_of_cons in H2 as [->|H2];
      [|apply elem_of_cons in H2 as [->|H2]; [|by apply elem_of_nil in H2]]);
    vm_compute; congruence.
Defined.

(** C2, as stated, fails: two chunks that share their
    (page_number, chunk_index) come out in the order they were added, and
    a document with a [raw_text] does not return the joined chunks. *)
Lemma get_full_text_insertion_order_counterexample :
  ¬ order_independent (example_document None)
      [example_chunk 0 0 "a"; example_chunk 0 0 "b"]
      [example_chunk 0 0 "b"; example_chunk 0 0 "a"]
  ∧ ¬ order_independent (example_document (Some "raw"))
        [example_chunk 0 0 "a"] [example_chunk 0 0 "a"].
Proof.
  split; intros H.
  - destruct (H (Permutation_swap _ _ _)) as [Heq _]. discriminate Heq.
  - destruct (H (Permutation_refl _)) as [_ Heq]. discriminate Heq.
Qed.

(** C9.  A document with a non-empty [raw_text] returns it, whatever its
    chunks are; the joined chunks are returned only when [raw_text] is
    unset or empty. *)
Theorem get_full_text_raw_text (md : DocumentMetadata)
    (cs : list DocumentChunk) (raw : option string) :
  let d := {| doc_metadata := md; chunks := cs; raw_text := raw |} in
  (∀ t, raw = Some t → t ≠ EmptyString → get_full_text d = t)
  ∧ (raw = None ∨ raw = Some EmptyString → get_full_text d = joined_chunks cs).
Proof.
  simpl. split.
  - intros t -> Ht. unfold get_full_text; simpl. by destruct t.
  - intros [->| ->]; reflexivity.
Qed.

Lemma get_full_text_raw_text_witness :
  get_full_text {| doc_metadata := example_metadata;
                   chunks := [example_chunk 0 0 "a"];
                   raw_text := Some "raw" |} = "raw".
Proof.
  refine (proj1 (get_full_text_raw_text example_metadata
                   [example_chunk 0 0 "a"] (Some "raw")) "raw" _ _);
    [reflexivity|discriminate].
Defined.

(** * Reasoning in the monad *)

#[local] Arguments mbind : simpl never.

Lemma outcome_bind {A B} (m : M A) (k : A → M B) :
  outcome (m ≫= k) = match outcome m with
                     | Returned a => outcome (k a)
                     | Raised e => Raised e
                     end.
Proof.
  destruct m as [tr [a|e]]; simpl; [|done].
  unfold mbind, M_bind, bind. by destruct (k a).
Qed.

Lemma trace_bind {A B} (m : M A) (k : A → M B) :
  trace (m ≫= k) = trace m ++ match outcome m with
                              | Returned a => trace (k a)
                              | Raised e => []
                              end.
Proof.
  destruct m as [tr [a|e]]; simpl; [|by rewrite app_nil_r].
  unfold mbind, M_bind, bind. by destruct (k a).
Qed.

Lemma outcome_try_except {A} (body : M A) (handler : Exception → M A) :
  outcome (try_except body handler)
  = match outcome body with
    | Returned a => Returned a
    | Raised e => outcome (handler e)
    end.
Proof.
  destruct body as [tr [a|e]]; simpl; [done|]. by destruct (handler e).
Qed.

Lemma trace_try_except {A} (body : M A) (handler : Exception → M A) :
  trace (try_except body handler)
  = trace body ++ match outcome body with
                  | Returned a => []
                  | Raised e => trace (handler e)
                  end.
Proof.
  destruct body as [tr [a|e]]; simpl; [by rewrite app_nil_r|].
  by destruct (handler e).
Qed.

Lemma outcome_mret {A} (a : A) : outcome (mret a : M A) = Returned a.
Proof. done. Qed.

Lemma trace_mret {A} (a : A) : trace (mret a : M A) = [].
Proof. done. Qed.

(** A [try] whose handler returns never raises. *)
Lemma try_except_returns {A} (body : M A) (handler : Exception → M A) :
  (∀ e, ∃ a, outcome (handler e) = Returned a) →
  ∃ a, outcome (try_except body handler) = Returned a.
Proof.
  intros H. rewrite outcome_try_except.
  destruct (outcome body) as [a|e]; eauto.
Qed.

Lemma processor_returns mime processor f :
  supported_mime_types mime = Some processor →
  ∃ text_chunks, outcome (processor f) = Returned text_chunks.
Proof.
  unfold supported_mime_types. intros H.
  repeat match type of H with
         | (if ?b then _ else _) = _ => destruct b
         end; simplify_eq;
    apply try_except_returns; intros e; eexists;
    rewrite outcome_bind; reflexivity.
Qed.

(** * process_document *)

Lemma or_octet_stream_truthy m : Py.truthy (or_octet_stream m) = true.
Proof. destruct m as [[|c s]|]; reflexivity. Qed.

Lemma outcome_get_document_type f :
  outcome (get_document_type f)
  = Returned (match mime_guess f with
              | Returned m => (Some (or_octet_stream m), extension f)
              | Raised e => (None, None)
              end).
Proof.
  unfold get_document_type. rewrite outcome_try_except, outcome_bind.
  unfold lift; simpl. by destruct (mime_guess f).
Qed.

(** What the body of [process_document] comes to. *)
Lemma outcome_process_document_body f now :
  outcome (process_document_body f now)
  = if file_exists f then
      match mime_guess f with
      | Raised e => Raised (failure_exception f UndeterminedType)
      | Returned m =>
          let mime_type := or_octet_stream m in
          match supported_mime_types mime_type with
          | None => Raised (failure_exception f (UnsupportedType mime_type))
          | Some processor =>
              match outcome (processor f) with
              | Returned [] => Raised (failure_exception f NoTextExtracted)
              | Returned text_chunks =>
                  Returned (assemble f (extension f) now text_chunks)
              | Raised e => Raised e
              end
          end
      end
    else Raised (failure_exception f FileNotFound).
Proof.
  unfold process_document_body. rewrite outcome_bind.
  destruct (file_exists f); [|done]. simpl.
  rewrite outcome_bind, outcome_get_document_type.
  destruct (mime_guess f) as [m|e]; simpl; [|done].
  rewrite or_octet_stream_truthy, outcome_bind. simpl.
  destruct (supported_mime_types (or_octet_stream m)) as [processor|]; [|done].
  rewrite outcome_bind.
  by destruct (processor f) as [tr [[|seg segs]|e]].
Qed.

Lemma append_cancel_l (s a b : string) : s +:+ a = s +:+ b → a = b.
Proof. induction s as [|c s IH]; simpl; [done|]. intros [=]. auto. Qed.

Lemma failure_message_inj f r1 r2 :
  failure_message f r1 = failure_message f r2 → r1 = r2.
Proof.
  destruct r1, r2; simpl; intros H; try discriminate H; try done.
  f_equal. by apply (append_cancel_l "Unsupported file type: ").
Qed.

Lemma process_document_body_fails f now r :
  fails f r →
  outcome (process_document_body f now) = Raised (failure_exception f r).
Proof.
  rewrite outcome_process_document_body.
  destruct 1 as [He|e He Hm|m He Hm Hs|m processor He Hm Hs Hp];
    rewrite He; [done|rewrite Hm; done|..]; rewrite Hm; simpl; rewrite Hs;
    [done|by rewrite Hp].
Qed.

Lemma process_document_handles f now e :
  outcome (process_document_body f now) = Raised e →
  outcome (process_document f now) = Returned None
  ∧ last (trace (process_document f now))
    = Some (Log ERROR ("Error processing document " +:+ file_path f +:+ ": "
                       +:+ exc_msg e)).
Proof.
  intros H. unfold process_document.
  rewrite outcome_try_except, trace_try_except, outcome_bind, H.
  split; [done|]. simpl. by rewrite last_snoc.
Qed.

(** C6.  [process_document] never raises; in each of the four failure
    cases it returns [None]; the cases differ only in the record that is
    logged last. *)
Theorem process_document_failures (f : FileView) (now : datetime) :
  (∃ r, outcome (process_document f now) = Returned r)
  ∧ (∀ reason, fails f reason →
       outcome (process_document f now) = Returned None
       ∧ last (trace (process_document f now)) = Some (failure_log f reason))
  ∧ (∀ r1 r2, failure_log f r1 = failure_log f r2 → r1 = r2).
Proof.
  split; [|split].
  - apply try_except_returns. intros e. eexists.
    rewrite outcome_bind. reflexivity.
  - intros reason Hfails.
    apply (process_document_handles f now (failure_exception f reason)).
    by apply process_document_body_fails.
  - unfold failure_log. intros r1 r2 [= H].
    apply (failure_message_inj f).
    by do 3 apply append_cancel_l in H.
Qed.

Lemma process_document_failures_witness :
  outcome (process_document missing_file epoch) = Returned None
  ∧ last (trace (process_document missing_file epoch))
    = Some (failure_log missing_file FileNotFound).
Proof.
  refine (proj1 (proj2 (process_document_failures missing_file epoch))
            FileNotFound _).
  apply fails_not_found. reflexivity.
Defined.

(** ** The derived counts *)

Lemma length_split_from cur s :
  length (Py.split_from cur s)
  = (count_tokens_from (match cur with [] => true | _ => false end) s
     + match cur with [] => 0 | _ => 1 end)%nat.
Proof.
  revert cur. induction s as [|c r IH]; intros cur; simpl.
  - by destruct cur.
  - destruct (Py.isspace c).
    + rewrite length_app, IH. destruct cur; simpl; lia.
    + rewrite IH. destruct cur; simpl; lia.
Qed.

Lemma length_split s : length (Py.split s) = count_tokens s.
Proof. unfold Py.split, count_tokens. rewrite length_split_from. lia. Qed.

Lemma fold_left_add (l : list Z) (a : Z) :
  fold_left Z.add l a = a + foldr Z.add 0 l.
Proof.
  revert a. induction l as [|x l IH]; intros a; simpl; [lia|].
  rewrite IH. lia.
Qed.

Lemma fold_left_max (l : list Z) (a : Z) :
  (fold_left Z.max l a = a ∨ fold_left Z.max l a ∈ l)
  ∧ a ≤ fold_left Z.max l a
  ∧ Forall (fun x => x ≤ fold_left Z.max l a) l.
Proof.
  revert a. induction l as [|x l IH]; intros a; simpl.
  - split; [by left|]. split; [lia|constructor].
  - destruct (IH (Z.max a x)) as (Hin & Hle & Hall).
    split; [|split; [lia|constructor; [lia|done]]].
    destruct Hin as [Hin|Hin]; [|right; by right].
    destruct (Z.max_spec a x) as [[? Hm]|[? Hm]]; rewrite Hm in Hin |- *.
    + right. rewrite Hin. left.
    + by left.
Qed.

Lemma attach_chunks_chunks f md i text_chunks d :
  map (fun c => (page_number c, content c))
      (chunks (attach_chunks f md i text_chunks d))
  = map (fun c => (page_number c, content c)) (chunks d) ++ text_chunks.
Proof.
  revert i d. induction text_chunks as [|[p t] rest IH]; intros i d; simpl.
  - by rewrite app_nil_r.
  - rewrite IH. simpl. rewrite map_app. simpl. by rewrite <- app_assoc.
Qed.

Lemma page_count_set_counts d :
  page_count_spec (chunks d) (page_count (doc_metadata (set_counts d)) - 
                              match chunks d with [] => 1 | _ => 0 end).
Proof.
  unfold page_count_spec. simpl.
  destruct (chunks d) as [|c cs] eqn:E; simpl; [lia|].
  destruct (fold_left_max (map page_number cs) (page_number c))
    as (Hin & Hle & Hall).
  set (m := fold_left Z.max (map page_number cs) (page_number c)) in *.
  assert (∃ c0, c0 ∈ c :: cs ∧ page_number c0 = m) as (c0 & Hc0 & Hm).
  { destruct Hin as [Hin|Hin].
    - exists c. split; [left|done].
    - apply list_elem_of_fmap in Hin as (c0 & -> & ?).
      exists c0. split; [by right|done]. }
  exists c0. split; [done|]. split; [|lia].
  intros c' Hc'. rewrite Hm.
  apply elem_of_cons in Hc' as [->|Hc']; [done|].
  rewrite Forall_forall in Hall. apply Hall.
  apply list_elem_of_fmap. eauto.
Qed.

Lemma word_count_set_counts d :
  word_count (doc_metadata (set_counts d)) = word_count_spec (chunks d).
Proof.
  simpl. unfold Py.sum, word_count_spec. rewrite fold_left_add.
  induction (chunks d) as [|c cs IH]; simpl; [done|].
  rewrite length_split. simpl in IH. lia.
Qed.

(** C1.  A document that [process_document] returns was assembled from
    the segments that the processor of its MIME type extracted: it has
    one chunk per segment, with the page and the text of the segment, in
    this order; its page count is one more than the greatest page number
    of its chunks (0 if there were none); its word count is the sum of
    the numbers of whitespace-separated tokens of its chunks. *)
Theorem process_document_counts (f : FileView) (now : datetime) (doc : Document) :
  outcome (process_document f now) = Returned (Some doc) →
  ∃ m processor text_chunks,
    mime_guess f = Returned m
    ∧ supported_mime_types (or_octet_stream m) = Some processor
    ∧ outcome (processor f) = Returned text_chunks
    ∧ map (fun c => (page_number c, content c)) (chunks doc) = text_chunks
    ∧ length (chunks doc) = length text_chunks
    ∧ page_count_spec (chunks doc) (page_count (doc_metadata doc))
    ∧ word_count (doc_metadata doc) = word_count_spec (chunks doc).
Proof.
  unfold process_document.
  rewrite outcome_try_except, outcome_bind, outcome_process_document_body.
  destruct (file_exists f); [|discriminate].
  destruct (mime_guess f) as [m|e]; [|discriminate]. simpl.
  destruct (supported_mime_types (or_octet_stream m)) as [processor|] eqn:Hs;
    [|discriminate].
  destruct (outcome (processor f)) as [[|seg segs]|e] eqn:Hp; try discriminate.
  intros [= <-]. exists m, processor, (seg :: segs).
  assert (map (fun c => (page_number c, content c))
              (chunks (assemble f (extension f) now (seg :: segs)))
          = seg :: segs) as Hchunks.
  { unfold assemble.
    change (chunks (set_counts ?d)) with (chunks d).
    by rewrite attach_chunks_chunks. }
  repeat split; try done.
  - apply (f_equal length) in Hchunks. by rewrite length_map in Hchunks.
  - unfold assemble in *.
    set (d := attach_chunks _ _ _ _ _) in *.
    change (chunks (set_counts d)) with (chunks d) in *.
    pose proof (page_count_set_counts d) as H.
    destruct (chunks d); [discriminate Hchunks|].
    by rewrite Z.sub_0_r in H.
  - unfold assemble.
    change (chunks (set_counts ?d)) with (chunks d).
    apply word_count_set_counts.
Qed.

Lemma process_document_counts_witness :
  outcome (process_document notes_file epoch) = Returned (Some notes_document)
  ∧ ∃ m processor text_chunks,
      mime_guess notes_file = Returned m
      ∧ supported_mime_types (or_octet_stream m) = Some processor
      ∧ outcome (processor notes_file) = Returned text_chunks
      ∧ map (fun c => (page_number c, content c)) (chunks notes_document)
        = text_chunks
      ∧ length (chunks notes_document) = length text_chunks
      ∧ page_count_spec (chunks notes_document)
          (page_count (doc_metadata notes_document))
      ∧ word_count (doc_metadata notes_document)
        = word_count_spec (chunks notes_document).
Proof.
  split; [reflexivity|].
  apply (process_document_counts notes_file epoch notes_document).
  reflexivity.
Defined.

Example notes_document_counts :
  length (chunks notes_document) = 1%nat
  ∧ page_count (doc_metadata notes_document) = 1
  ∧ word_count (doc_metadata notes_document) = 4.
Proof. repeat split; reflexivity. Qed.

(** Whenever none of the four failures occurs, a document is returned. *)
Lemma process_document_succeeds f now m processor seg segs :
  file_exists f = true → mime_guess f = Returned m →
  supported_mime_types (or_octet_stream m) = Some processor →
  outcome (processor f) = Returned (seg :: segs) →
  outcome (process_document f now)
  = Returned (Some (assemble f (extension f) now (seg :: segs))).
Proof.
  intros He Hm Hs Hp. unfold process_document.
  rewrite outcome_try_except, outcome_bind, outcome_process_document_body.
  rewrite He, Hm. simpl. by rewrite Hs, Hp.
Qed.

(** * _process_pdf *)

Lemma collect_pages_no_ocr i pages chunks :
  existsb is_ocr_call (trace (collect_pages page_extract_text i pages chunks))
  = false.
Proof.
  revert i chunks. induction pages as [|p rest IH]; intros i chunks; simpl.
  - done.
  - rewrite trace_bind. simpl. destruct p as [text|e]; simpl; [|done].
    apply IH.
Qed.

Lemma pdf_direct_phase_no_ocr v :
  existsb is_ocr_call (trace (pdf_direct_phase v)) = false.
Proof.
  unfold pdf_direct_phase. rewrite trace_bind. simpl.
  destruct (reader_pages v) as [pages|e]; simpl; [|done].
  apply collect_pages_no_ocr.
Qed.

Lemma pdf_ocr_phase_trace v :
  ∃ tr, trace (pdf_ocr_phase v) = Called convert_from_path :: tr.
Proof. unfold pdf_ocr_phase. rewrite trace_bind. simpl. eauto. Qed.

(** The two ways through [_process_pdf] once [pdf2image] is imported. *)
Lemma process_pdf_cases f :
  pdf2image_import (as_pdf f) = Returned tt →
  match outcome (pdf_direct_phase (as_pdf f)) with
  | Returned (c :: cs) =>
      _process_pdf f = (trace (pdf_direct_phase (as_pdf f)), Returned (c :: cs))
  | _ =>
      outcome (_process_pdf f) = Returned (ocr_chunks (as_pdf f))
      ∧ ∃ tr1 tr2, trace (_process_pdf f)
                   = tr1 ++ Called convert_from_path :: tr2
  end.
Proof.
  intros Himport. unfold _process_pdf, ocr_chunks. rewrite Himport.
  destruct (pdf_ocr_phase_trace (as_pdf f)) as [tr' Htr'].
  destruct (pdf_direct_phase (as_pdf f)) as [tr [[|c cs]|e]];
    destruct (pdf_ocr_phase (as_pdf f)) as [tro [cs'|e']];
    simpl in *; subst; rewrite ?app_nil_r, <- ?app_assoc; simpl;
    try done; (split; [done|]); eauto.
  all: by eexists (tr ++ [_]), _; rewrite <- !app_assoc.
Qed.

Lemma collect_pages_complete reader i pages chunks :
  Forall (fun p => ∃ text, p = Returned text) pages →
  outcome (collect_pages reader i pages chunks)
  = Returned (chunks ++ nonblank_pages i pages).
Proof.
  intros H. revert i chunks.
  induction H as [|p rest [text ->] _ IH]; intros i chunks; simpl.
  - by rewrite app_nil_r.
  - rewrite outcome_bind. simpl. rewrite IH. unfold keep_nonblank.
    destruct (Py.truthy (Py.strip text)); [|done].
    by rewrite <- app_assoc.
Qed.

(** C4, as amended.  Where [pdf2image] can be imported, the OCR fallback
    runs exactly when the direct phase raises or ends with no non-blank
    page.  A direct phase that ends with at least one non-blank page has
    its pages returned and no OCR call is made; when the fallback runs,
    only what OCR read is returned.  A direct phase on which no page
    raises ends with the non-blank pages, in page order. *)
Theorem process_pdf_all_or_nothing (f : FileView) :
  pdf2image_import (as_pdf f) = Returned tt →
  let direct := outcome (pdf_direct_phase (as_pdf f)) in
  (ocr_ran (_process_pdf f) = true
   ↔ direct = Returned [] ∨ ∃ e, direct = Raised e)
  ∧ (∀ chunks, direct = Returned chunks → chunks ≠ [] →
       outcome (_process_pdf f) = Returned chunks
       ∧ ocr_ran (_process_pdf f) = false)
  ∧ (ocr_ran (_process_pdf f) = true →
       outcome (_process_pdf f) = Returned (ocr_chunks (as_pdf f)))
  ∧ (∀ pages, reader_pages (as_pdf f) = Returned pages →
       Forall (fun p => ∃ text, p = Returned text) pages →
       direct = Returned (nonblank_pages 0 pages)).
Proof.
  intros Himport direct.
  pose proof (process_pdf_cases f Himport) as Hcases.
  pose proof (pdf_direct_phase_no_ocr (as_pdf f)) as Hno.
  assert (match direct with
          | Returned (c :: cs) =>
              outcome (_process_pdf f) = direct
              ∧ ocr_ran (_process_pdf f) = false
          | _ => outcome (_process_pdf f) = Returned (ocr_chunks (as_pdf f))
                 ∧ ocr_ran (_process_pdf f) = true
          end) as H.
  { subst direct.
    destruct (outcome (pdf_direct_phase (as_pdf f))) as [[|c cs]|e].
    - destruct Hcases as (Ho & tr1 & tr2 & Ht). split; [done|].
      unfold ocr_ran. rewrite Ht, existsb_app. simpl. apply orb_true_r.
    - unfold ocr_ran. by rewrite Hcases.
    - destruct Hcases as (Ho & tr1 & tr2 & Ht). split; [done|].
      unfold ocr_ran. rewrite Ht, existsb_app. simpl. apply orb_true_r. }
  assert (∀ pages, reader_pages (as_pdf f) = Returned pages →
            Forall (fun p => ∃ text, p = Returned text) pages →
            direct = Returned (nonblank_pages 0 pages)) as Hpages.
  { intros pages Hpages Hall. subst direct. unfold pdf_direct_phase.
    rewrite outcome_bind, Hpages. simpl.
    by rewrite collect_pages_complete. }
  clearbody direct. clear Hcases Hno.
  repeat split.
  - destruct direct as [[|c cs]|e]; eauto.
    destruct H as [_ H]. congruence.
  - intros [->|[e ->]]; by destruct H.
  - destruct direct as [[|c cs]|e]; simplify_eq. by destruct H.
  - destruct direct as [[|c cs]|e]; simplify_eq. by destruct H.
  - destruct direct as [[|c cs]|e]; destruct H; congruence.
  - done.
Qed.

Lemma process_pdf_all_or_nothing_witness :
  outcome (_process_pdf text_pdf) = Returned [(0, "hello"); (1, "world")]
  ∧ ocr_ran (_process_pdf text_pdf) = false.
Proof.
  refine (proj1 (proj2 (process_pdf_all_or_nothing text_pdf _))
            [(0, "hello"); (1, "world")] _ _).
  - reflexivity.
  - reflexivity.
  - discriminate.
Defined.

(** C4, as stated, fails.  On [torn_pdf] the direct extraction reads a
    non-blank first page and raises on the second: the fallback runs and
    the page read directly is not what is returned.  On
    [blank_pdf_no_pdf2image] the direct extraction has no non-blank page
    to give and the fallback does not run. *)
Lemma process_pdf_all_or_nothing_counterexample :
  ¬ ocr_only_without_direct_pages torn_pdf
  ∧ ¬ ocr_only_without_direct_pages blank_pdf_no_pdf2image.
Proof.
  split; intros [Hiff Hret].
  - assert (direct_nonblank_pages torn_pdf = []) as H
      by (by apply Hiff). discriminate H.
  - assert (ocr_ran (_process_pdf blank_pdf_no_pdf2image) = true) as H
      by (by apply Hiff). discriminate H.
Qed.

Example torn_pdf_is_read_by_ocr :
  direct_nonblank_pages torn_pdf = [(0, "hello")]
  ∧ ocr_ran (_process_pdf torn_pdf) = true
  ∧ outcome (_process_pdf torn_pdf) = Returned [(0, "HELLO"); (1, "WORLD")].
Proof. repeat split; reflexivity. Qed.

(** * The result ranker *)

Lemma has_key_spec k docs_map : has_key k docs_map = true ↔ k ∈ keys docs_map.
Proof.
  unfold has_key, keys. rewrite existsb_exists, list_elem_of_fmap.
  split.
  - intros ([k' r] & Hin & Heq). apply String.eqb_eq in Heq.
    exists (k', r). split; [by symmetry|by apply list_elem_of_In].
  - intros ([k' r] & -> & Hin). exists (k', r).
    split; [by apply list_elem_of_In|apply String.eqb_refl].
Qed.

Lemma has_key_false k docs_map : has_key k docs_map = false ↔ k ∉ keys docs_map.
Proof. rewrite <- has_key_spec. by destruct (has_key k docs_map). Qed.

Lemma keys_snoc docs_map k r : keys (docs_map ++ [(k, r)]) = keys docs_map ++ [k].
Proof. unfold keys. by rewrite map_app. Qed.

Lemma fill_docs_map_NoDup search_results docs_map :
  NoDup (keys docs_map) → NoDup (keys (fill_docs_map search_results docs_map)).
Proof.
  revert docs_map.
  induction search_results as [|res rest IH]; intros docs_map Hnd; simpl;
    [done|].
  apply IH. destruct (has_key _ docs_map) eqn:E; [done|].
  rewrite keys_snoc. apply NoDup_app. split; [done|].
  apply has_key_false in E.
  split; [|apply NoDup_singleton].
  intros k Hk ->%list_elem_of_singleton. done.
Qed.

Lemma fill_docs_map_keys search_results docs_map k :
  k ∈ keys (fill_docs_map search_results docs_map)
  ↔ k ∈ keys docs_map
    ∨ k ∈ map (fun res => doc_id (document res)) search_results.
Proof.
  revert docs_map.
  induction search_results as [|res rest IH]; intros docs_map; simpl.
  - rewrite elem_of_nil. tauto.
  - rewrite IH, elem_of_cons.
    destruct (has_key _ docs_map) eqn:E.
    + apply has_key_spec in E. split; [tauto|].
      intros [?|[->|?]]; tauto.
    + rewrite keys_snoc, elem_of_app, list_elem_of_singleton. tauto.
Qed.

Lemma fill_docs_map_entries search_results docs_map k r :
  (k, r) ∈ fill_docs_map search_results docs_map →
  (k, r) ∈ docs_map
  ∨ (has_key k docs_map = false
     ∧ ∃ res, first_of k search_results = Some res ∧ r = display_record res).
Proof.
  revert docs_map.
  induction search_results as [|res rest IH]; intros docs_map; simpl;
    [by left|].
  intros [Hin|(Hk & res' & Hfind & ->)]%IH.
  - destruct (has_key (doc_id (document res)) docs_map) eqn:E; [by left|].
    apply elem_of_app in Hin as [Hin|Hin]; [by left|].
    apply list_elem_of_singleton in Hin as [= -> ->].
    right. split; [done|]. exists res. split; [|done].
    unfold first_of. simpl. by rewrite String.eqb_refl.
  - right.
    assert (has_key k docs_map = false
            ∧ String.eqb (doc_id (document res)) k = false) as [Hk' Hne].
    { destruct (has_key (doc_id (document res)) docs_map) eqn:E.
      - split; [done|]. apply String.eqb_neq. intros <-. congruence.
      - unfold has_key in Hk. rewrite existsb_app in Hk. simpl in Hk.
        apply orb_false_elim in Hk as [Hk1 Hk2].
        split; [done|]. by rewrite orb_false_r in Hk2. }
    split; [done|]. exists res'. split; [|done].
    unfold first_of in *. simpl. by rewrite Hne.
Qed.

Lemma float_lt_false a b : Py.float_lt a b = false ↔ (b <= a)%Q.
Proof.
  unfold Py.float_lt. rewrite negb_false_iff. apply Qle_bool_iff.
Qed.

Lemma float_lt_true a b : Py.float_lt a b = true ↔ (a < b)%Q.
Proof.
  unfold Py.float_lt. rewrite negb_true_iff.
  rewrite <- not_true_iff_false, Qle_bool_iff. split.
  - apply Qnot_le_lt.
  - apply Qlt_not_le.
Qed.

Lemma float_lt_asym a b : Py.float_lt a b = true → Py.float_lt b a = false.
Proof. rewrite float_lt_true, float_lt_false. apply Qlt_le_weak. Qed.

Lemma float_ge_trans a b c :
  Py.float_lt a b = false → Py.float_lt b c = false → Py.float_lt a c = false.
Proof. rewrite !float_lt_false. intros H1 H2. by eapply Qle_trans. Qed.

Lemma StronglySorted_mono {A} (R1 R2 : A → A → Prop) l :
  (∀ a b, R1 a b → R2 a b) → StronglySorted R1 l → StronglySorted R2 l.
Proof.
  intros Hmono. induction 1 as [|x l Hl IH Hx]; constructor; [done|].
  eapply Forall_impl; [exact Hx|]. auto.
Qed.

Lemma documents_list_perm search_results :
  documents_list search_results ≡ₚ values (fill_docs_map search_results []).
Proof. apply PyFacts.sorted_reverse_perm. Qed.

Lemma fill_docs_map_ids search_results :
  map id (values (fill_docs_map search_results []))
  = keys (fill_docs_map search_results []).
Proof.
  unfold values, keys. rewrite map_map. apply map_ext_in.
  intros [k r] Hin. simpl.
  apply list_elem_of_In, fill_docs_map_entries in Hin
    as [Hin|(_ & res & Hfind & ->)]; [by apply elem_of_nil in Hin|].
  unfold first_of in Hfind. apply find_some in Hfind as [_ Heq].
  by apply String.eqb_eq in Heq.
Qed.

(** C5.  [documents_list] has one record per document of the results, the
    record of the first result of that document, and is in descending
    order of relevance; the scenario of the specification comes out as
    stated. *)
Theorem documents_list_ranked (search_results : list SearchResult) :
  let out := documents_list search_results in
  NoDup (map id out)
  ∧ (∀ d, d ∈ map id out
          ↔ d ∈ map (fun res => doc_id (document res)) search_results)
  ∧ (∀ r, r ∈ out →
          ∃ res, first_of (id r) search_results = Some res
                 ∧ r = display_record res)
  ∧ StronglySorted (fun a b => (relevance b <= relevance a)%Q) out
  ∧ documents_list example_hits
    = [display_record (hit "A" (9 # 10) "first of A");
       display_record (hit "B" (7 # 10) "only of B")].
Proof.
  intros out.
  assert (map id out ≡ₚ keys (fill_docs_map search_results [])) as Hids.
  { rewrite <- fill_docs_map_ids. apply Permutation_map.
    apply documents_list_perm. }
  split; [|split; [|split; [|split]]].
  - rewrite Hids. apply fill_docs_map_NoDup. constructor.
  - intros d. rewrite Hids, fill_docs_map_keys, elem_of_nil. tauto.
  - intros r Hr. subst out. rewrite documents_list_perm in Hr.
    apply list_elem_of_fmap in Hr as ([k r'] & -> & Hin). simpl.
    apply fill_docs_map_entries in Hin
      as [Hin|(_ & res & Hfind & ->)]; [by apply elem_of_nil in Hin|].
    exists res. split; [|done].
    assert (doc_id (document res) = k) as Hk.
    { unfold first_of in Hfind. apply find_some in Hfind as [_ Heq].
      by apply String.eqb_eq in Heq. }
    simpl. by rewrite Hk.
  - eapply StronglySorted_mono;
      [|apply (PyFacts.sorted_reverse_sorted relevance Py.float_lt);
        [apply float_lt_asym|apply float_ge_trans]].
    intros a b Hab. by apply float_lt_false.
  - reflexivity.
Qed.

Lemma documents_list_ranked_witness :
  ∃ res, first_of "B" example_hits = Some res
         ∧ display_record (hit "B" (7 # 10) "only of B") = display_record res.
Proof.
  refine (proj1 (proj2 (proj2 (documents_list_ranked example_hits)))
            (display_record (hit "B" (7 # 10) "only of B")) _).
  right. left.
Defined.

(** * The answer snippet *)

Lemma append_cons c r s : String c r +:+ s = String c (r +:+ s).
Proof. reflexivity. Qed.

Lemma length_lstrip s : (String.length (Py.lstrip s) <= String.length s)%nat.
Proof.
  induction s as [|c r IH]; simpl; [lia|].
  destruct (Py.isspace c); simpl; lia.
Qed.

Lemma length_rstrip s : (String.length (Py.rstrip s) <= String.length s)%nat.
Proof.
  induction s as [|c r IH]; simpl; [lia|].
  destruct (Py.rstrip r); [destruct (Py.isspace c)|]; simpl in *; lia.
Qed.

Lemma length_strip s : (String.length (Py.strip s) <= String.length s)%nat.
Proof.
  unfold Py.strip.
  pose proof (length_rstrip (Py.lstrip s)). pose proof (length_lstrip s). lia.
Qed.

Lemma length_replace_char old new s :
  String.length (Py.replace_char old new s) = String.length s.
Proof. induction s as [|c r IH]; simpl; [done|]. by rewrite IH. Qed.

Lemma take_all n s : (String.length s <= n)%nat → Py.take n s = s.
Proof.
  revert n. induction s as [|c r IH]; intros n H; destruct n; simpl in *;
    try done; [lia|].
  rewrite IH; [done|lia].
Qed.

Lemma length_take n s : String.length (Py.take n s) = Nat.min n (String.length s).
Proof.
  revert n. induction s as [|c r IH]; intros n; destruct n; simpl; try done.
  by rewrite IH.
Qed.

Lemma take_prefix n s : ∃ rest, s = Py.take n s +:+ rest.
Proof.
  revert n. induction s as [|c r IH]; intros n.
  - exists EmptyString. by destruct n.
  - destruct n; simpl; [by eexists|].
    destruct (IH n) as [rest Hrest]. exists rest.
    rewrite append_cons. by f_equal.
Qed.

Lemma append_empty_r s : s +:+ EmptyString = s.
Proof. induction s as [|c r IH]; [done|]. by rewrite append_cons, IH. Qed.

Lemma replace_char_gone old new s c :
  old ≠ new → c ∈ list_ascii_of_string (Py.replace_char old new s) → c ≠ old.
Proof.
  intros Hne. induction s as [|a r IH]; simpl.
  - by intros ?%elem_of_nil.
  - intros [->|Hin]%elem_of_cons; [|by apply IH].
    destruct (Ascii.eqb a old) eqn:E; [congruence|].
    by apply Ascii.eqb_neq.
Qed.

(** C7, as amended.  The snippet starts with the shown text (the content
    stripped, newlines replaced by spaces, so of the length of the stripped
    content and free of newlines) cut at 500 characters.  A content of at
    most 500 characters is shown whole and without ellipsis; a shown text
    of more than 500 characters is cut to 500 and followed by the
    ellipsis. *)
Theorem answer_snippet_spec (content : string) :
  let s := snippet_text content in
  (String.length s = String.length (Py.strip content)
   ∧ ∀ c, c ∈ list_ascii_of_string s → c ≠ Py.LF)
  ∧ (∃ rest tail, s = Py.take 500 s +:+ rest
                  ∧ answer_snippet content = Py.take 500 s +:+ tail
                  ∧ (String.length (Py.take 500 s) <= 500)%nat)
  ∧ (Py.len content ≤ 500 → answer_snippet content = s)
  ∧ (500 < Py.len s →
     answer_snippet content = Py.take 500 s +:+ "..."
     ∧ String.length (Py.take 500 s) = 500%nat).
Proof.
  intros s. unfold answer_snippet, Py.slice_to.
  change (0 <=? 500) with true. change (Z.to_nat 500) with 500%nat.
  fold (snippet_text content). fold s.
  assert (String.length s = String.length (Py.strip content)) as Hlen
    by apply length_replace_char.
  pose proof (length_strip content) as Hstrip.
  split; [|split; [|split]].
  - split; [done|]. intros c Hc.
    by apply (replace_char_gone Py.LF Py.SP (Py.strip content)).
  - destruct (take_prefix 500 s) as [rest Hrest].
    exists rest. eexists. split; [done|]. split; [done|].
    rewrite length_take. lia.
  - unfold Py.len. intros Hle.
    destruct (500 <? Z.of_nat (String.length content)) eqn:E; [lia|].
    rewrite append_empty_r. apply take_all. lia.
  - unfold Py.len. intros Hlt.
    destruct (500 <? Z.of_nat (String.length content)) eqn:E; [|lia].
    split; [done|]. rewrite length_take. lia.
Qed.

Lemma answer_snippet_spec_witness :
  answer_snippet two_lines = "kafka streams".
Proof.
  refine (proj1 (proj2 (proj2 (answer_snippet_spec two_lines))) _).
  vm_compute. discriminate.
Defined.

(** C7, as stated, fails: the whitespace around the content is not part
    of the snippet. *)
Lemma answer_snippet_spec_counterexample :
  answer_snippet " a" ≠ snippet_as_stated " a".
Proof. vm_compute. discriminate. Qed.

(** The ellipsis is decided on the length of the content before it is
    stripped: a content that only its surrounding whitespace brings over
    500 characters is shown whole and yet followed by the ellipsis. *)
Example ellipsis_without_cut :
  Py.len padded_content = 501
  ∧ String.length (snippet_text padded_content) = 499%nat
  ∧ answer_snippet padded_content = snippet_text padded_content +:+ "...".
Proof. repeat split; vm_compute; reflexivity. Qed.

(** * The theme post-filter *)

Lemma startswith_spec t s :
  Py.startswith t s = true ↔ ∃ after, s = t +:+ after.
Proof.
  revert s. induction t as [|a t IH]; intros s; simpl.
  - split; [by exists s|done].
  - destruct s as [|b s].
    + split; [done|]. by intros [after H].
    + rewrite andb_true_iff, IH, Ascii.eqb_eq. split.
      * intros [-> [after ->]]. by exists after.
      * intros [after H]. rewrite append_cons in H.
        injection H as -> ->. eauto.
Qed.

Lemma contains_spec t s :
  Py.contains t s = true ↔ ∃ before after, s = before +:+ t +:+ after.
Proof.
  induction s as [|c r IH]; simpl; rewrite orb_true_iff, startswith_spec.
  - split.
    + intros [[after H]|?]; [|done]. by exists EmptyString, after.
    + intros ([|? ?] & after & H); [|done]. left. by exists after.
  - rewrite IH. split.
    + intros [[after H]|(before & after & ->)].
      * by exists EmptyString, after.
      * by exists (String c before), after.
    + intros ([|c' before] & after & H).
      * left. by exists after.
      * right. rewrite append_cons in H. injection H as -> ->. eauto.
Qed.

Lemma any_contains_spec vocabulary theme :
  Py.any (fun w => Py.contains w (Py.lower (name theme))) vocabulary = true
  ↔ mentions vocabulary theme.
Proof.
  unfold Py.any, mentions. rewrite existsb_exists. split.
  - intros (w & Hin & (before & after & H)%contains_spec).
    exists w, before, after. split; [by apply list_elem_of_In|done].
  - intros (w & before & after & Hin & H). exists w.
    split; [by apply list_elem_of_In|]. apply contains_spec. eauto.
Qed.

Lemma kept_spec theme :
  kept theme = true
  ↔ mentions data_keywords theme ∧ ¬ mentions ai_terms theme.
Proof.
  unfold kept.
  rewrite andb_true_iff, negb_true_iff, <- not_true_iff_false.
  rewrite !any_contains_spec. tauto.
Qed.

Lemma fill_final_themes_cons theme rest final_themes :
  fill_final_themes (theme :: rest) final_themes
  = fill_final_themes rest
      (if kept theme then final_themes ++ [theme] else final_themes).
Proof.
  unfold kept.
  change (fill_final_themes (theme :: rest) final_themes)
    with (let name_lower := Py.lower (name theme) in
          if Py.any (fun term => Py.contains term name_lower) ai_terms
          then fill_final_themes rest final_themes
          else if Py.any (fun kw => Py.contains kw name_lower) data_keywords
          then fill_final_themes rest (final_themes ++ [theme])
          else fill_final_themes rest final_themes).
  cbv zeta.
  destruct (Py.any _ ai_terms); [done|].
  by destruct (Py.any _ data_keywords).
Qed.

Lemma fill_final_themes_filter filtered_themes final_themes :
  fill_final_themes filtered_themes final_themes
  = final_themes ++ List.filter kept filtered_themes.
Proof.
  revert final_themes.
  induction filtered_themes as [|theme rest IH]; intros final_themes.
  - by rewrite app_nil_r.
  - rewrite fill_final_themes_cons, IH.
    change (List.filter kept (theme :: rest))
      with (if kept theme then theme :: List.filter kept rest
            else List.filter kept rest).
    destruct (kept theme); [|done]. by rewrite <- app_assoc.
Qed.

(** C8.  A theme that [extract_themes] returns has, letter case ignored, a
    word of the data vocabulary in its name and no term of the AI/ML
    vocabulary; a theme that fails either condition is not returned; of
    the themes that reach the post-filter, no other is dropped. *)
Theorem extract_themes_post_filter (max_themes : Z) (min_theme_confidence : Q)
    (llm : list SearchResult → option string → list Theme)
    (search_results : list SearchResult) (query : option string)
    (theme : Theme) :
  let out := extract_themes max_themes min_theme_confidence llm
               search_results query in
  (theme ∈ out → mentions data_keywords theme ∧ ¬ mentions ai_terms theme)
  ∧ (¬ mentions data_keywords theme ∨ mentions ai_terms theme → theme ∉ out)
  ∧ (search_results ≠ [] →
     (theme ∈ out
      ↔ theme ∈ candidate_themes max_themes min_theme_confidence
                  (llm search_results query)
        ∧ mentions data_keywords theme ∧ ¬ mentions ai_terms theme)).
Proof.
  intros out.
  assert (theme ∈ out → kept theme = true) as Hkept.
  { subst out. unfold extract_themes.
    destruct search_results; [by intros ?%elem_of_nil|].
    rewrite fill_final_themes_filter. simpl.
    intros Hin%list_elem_of_In%filter_In. tauto. }
  split; [|split].
  - intros Hin. by apply kept_spec, Hkept.
  - intros Hfail Hin. apply Hkept, kept_spec in Hin. tauto.
  - intros Hne. subst out. unfold extract_themes, candidate_themes.
    destruct search_results; [done|].
    rewrite fill_final_themes_filter. simpl.
    rewrite list_elem_of_In, filter_In, <- list_elem_of_In, kept_spec. tauto.
Qed.

Lemma extract_themes_post_filter_witness :
  mentions data_keywords (theme_named "Kafka Stream Processing" (9 # 10))
  ∧ ¬ mentions ai_terms (theme_named "Kafka Stream Processing" (9 # 10)).
Proof.
  refine (proj1 (extract_themes_post_filter 5 (7 # 10) example_summarizer
                   example_hits None
                   (theme_named "Kafka Stream Processing" (9 # 10))) _).
  vm_compute. left.
Defined.

Example extract_themes_example :
  extract_themes 5 (7 # 10) example_summarizer example_hits None
  = [theme_named "Kafka Stream Processing" (9 # 10);
     theme_named "Data Warehouse" (95 # 100)].
Proof. vm_compute. reflexivity. Qed.

(** * [int(str(n))] *)

Lemma digits_le_spec fuel n :
  (n < 2 ^ N.of_nat fuel)%N →
  value_le (Py.digits_le (S fuel) n) = n
  ∧ Forall (fun d => (d < 10)%N) (Py.digits_le (S fuel) n)
  ∧ Py.digits_le (S fuel) n ≠ [].
Proof.
  revert n. induction fuel as [|fuel IH]; intros n Hn.
  - assert (n = 0%N) as -> by (simpl in Hn; lia).
    repeat split; [repeat constructor; lia|done].
  - change (Py.digits_le (S (S fuel)) n)
      with (if (n <? 10)%N then [n]
            else (n mod 10)%N :: Py.digits_le (S fuel) (n / 10)%N).
    destruct (N.ltb_spec n 10) as [Hlt|Hge].
    + repeat split; [simpl; lia|repeat constructor; lia|done].
    + destruct (IH (n / 10)%N) as (Hv & Hall & _).
      { apply N.Div0.div_lt_upper_bound.
        rewrite Nat2N.inj_succ, N.pow_succ_r' in Hn. lia. }
      repeat split; [|constructor; [|done]|done].
      * change (value_le ((n mod 10)%N :: ?l))
          with (n mod 10 + 10 * value_le l)%N.
        rewrite Hv. pose proof (N.Div0.div_mod n 10). lia.
      * apply N.mod_lt. lia.
Qed.

Lemma digits_spec n :
  value_from 0 (Py.digits n) = Z.of_N n
  ∧ Forall (fun d => (d < 10)%N) (Py.digits n)
  ∧ Py.digits n ≠ [].
Proof.
  unfold Py.digits.
  destruct (digits_le_spec (N.to_nat (N.size n)) n) as (Hv & Hall & Hne).
  { rewrite N2Nat.id. apply N.size_gt. }
  set (ds := Py.digits_le _ n) in *. clearbody ds. subst n.
  repeat split.
  - clear. unfold value_from. induction ds as [|d ds IH]; simpl; [done|].
    rewrite fold_left_app, IH. simpl. lia.
  - apply Forall_forall. intros d Hd. rewrite Forall_forall in Hall.
    by apply Hall, list_elem_of_In, in_rev, list_elem_of_In.
  - intros Hrev. apply Hne. apply (f_equal (@rev N)) in Hrev.
    by rewrite rev_involutive in Hrev.
Qed.

Lemma digit_char_code d : (d < 10)%N → N_of_ascii (Py.digit_char d) = (48 + d)%N.
Proof. intros H. unfold Py.digit_char. apply N_ascii_embedding. lia. Qed.

Lemma digit_value_digit_char d :
  (d < 10)%N → Py.digit_value (Py.digit_char d) = Some (Z.of_N d).
Proof.
  intros H. unfold Py.digit_value. rewrite digit_char_code by done.
  destruct (N.leb_spec 48 (48 + d)); [|lia].
  destruct (N.leb_spec (48 + d) 57); [|lia].
  simpl. do 2 f_equal. lia.
Qed.

Lemma digit_char_not_space d : (d < 10)%N → Py.isspace (Py.digit_char d) = false.
Proof.
  intros H. unfold Py.isspace. rewrite digit_char_code by done.
  repeat match goal with
         | |- context [N.leb ?a ?b] => destruct (N.leb_spec a b); try lia
         | |- context [N.eqb ?a ?b] => destruct (N.eqb_spec a b); try lia
         end; reflexivity.
Qed.

Lemma digit_char_not_sign d :
  (d < 10)%N →
  Ascii.eqb (Py.digit_char d) "-" = false
  ∧ Ascii.eqb (Py.digit_char d) "+" = false.
Proof.
  intros H. split; apply Ascii.eqb_neq; intros Heq;
    apply (f_equal N_of_ascii) in Heq;
    rewrite digit_char_code in Heq by done; simpl in Heq; lia.
Qed.

Lemma parse_digits_str_of_digits ds acc after_digit :
  Forall (fun d => (d < 10)%N) ds →
  ds ≠ [] ∨ after_digit = true →
  Py.parse_digits acc after_digit (Py.str_of_digits ds)
  = Some (value_from acc ds).
Proof.
  intros Hall. revert acc after_digit.
  induction Hall as [|d ds Hd _ IH]; intros acc after_digit Hne; simpl.
  - destruct Hne as [?| ->]; done.
  - unfold Py.str_of_digits in *. simpl.
    rewrite digit_value_digit_char by done. apply IH. by right.
Qed.

Lemma strip_no_space s : no_space s → Py.strip s = s.
Proof.
  unfold no_space, Py.strip. intros H.
  assert (Py.lstrip s = s) as ->.
  { destruct s as [|c r]; [done|]. simpl in *.
    apply Forall_cons in H as [-> _]. done. }
  induction s as [|c r IH]; [done|]. simpl in *.
  apply Forall_cons in H as [Hc Hr]. rewrite (IH Hr).
  destruct r; [by rewrite Hc|done].
Qed.

Lemma str_of_digits_no_space ds :
  Forall (fun d => (d < 10)%N) ds → no_space (Py.str_of_digits ds).
Proof.
  unfold no_space, Py.str_of_digits.
  rewrite list_ascii_of_string_of_list_ascii.
  induction 1 as [|d ds Hd _ IH]; simpl; constructor; [|done].
  by apply digit_char_not_space.
Qed.

(** Reading back what [str] printed gives the number again. *)
Lemma int_str z : Py.int (Py.str z) = Some z.
Proof.
  unfold Py.str.
  destruct (Z.ltb_spec z 0) as [Hneg|Hpos].
  - destruct (digits_spec (Z.to_N (- z))) as (Hv & Hall & Hne).
    unfold Py.int. rewrite strip_no_space.
    + simpl. rewrite parse_digits_str_of_digits by (done || by left).
      rewrite Hv. simpl. f_equal. lia.
    + constructor; [done|]. by apply str_of_digits_no_space.
  - destruct (digits_spec (Z.to_N z)) as (Hv & Hall & Hne).
    unfold Py.int. rewrite strip_no_space by by apply str_of_digits_no_space.
    pose proof (parse_digits_str_of_digits _ 0 false Hall (or_introl Hne)) as Hp.
    destruct (Py.digits (Z.to_N z)) as [|d ds]; [done|].
    apply Forall_cons in Hall as [Hd _].
    destruct (digit_char_not_sign d Hd) as [Hminus Hplus].
    unfold Py.str_of_digits in *. simpl in *.
    rewrite Hminus, Hplus, Hp, Hv. f_equal. lia.
Qed.

(** * The vector store *)

(** In binary64 the score also stays between 0 and 1 where rounding,
    overflow and NaN come into play: at distance 0, at the smallest and
    the greatest positive numbers, at infinity, below 0 and at NaN. *)
Example similarity_binary64_extremes :
  similarity_binary64 0 = 1%float
  ∧ similarity_binary64 0x1p-1074 = 1%float
  ∧ PrimFloat.ltb 0 (similarity_binary64 0x1.fffffffffffffp+1023) = true
  ∧ PrimFloat.leb (similarity_binary64 0x1.fffffffffffffp+1023) 1 = true
  ∧ similarity_binary64 PrimFloat.infinity = 0%float
  ∧ similarity_binary64 (-3) = 1%float
  ∧ similarity_binary64 PrimFloat.nan = 1%float
  ∧ similarity_binary64 0.25 = 0x1.999999999999ap-1%float.
Proof. repeat split; reflexivity. Qed.

Lemma similarity_far d : (0 < d)%Q → similarity d = (1 / (1 + d))%Q.
Proof.
  intros H. unfold similarity. by apply float_lt_true in H as ->.
Qed.

Lemma similarity_near d : ¬ (0 < d)%Q → similarity d = 1%Q.
Proof.
  intros H. unfold similarity.
  destruct (Py.float_lt 0 d) eqn:E; [|done]. by apply float_lt_true in E.
Qed.

Lemma similarity_bounds d : (0 < similarity d)%Q ∧ (similarity d <= 1)%Q.
Proof.
  unfold similarity. destruct (Py.float_lt 0 d) eqn:E; [|done].
  apply float_lt_true in E.
  assert (0 < 1 + d)%Q as Hpos.
  { apply Qlt_trans with 1%Q; [done|].
    rewrite <- (Qplus_0_r 1) at 1. by apply Qplus_lt_r. }
  split.
  - unfold Qdiv. rewrite Qmult_1_l. by apply Qinv_lt_0_compat.
  - apply Qle_shift_div_r; [done|]. rewrite Qmult_1_l.
    apply Qlt_le_weak.
    rewrite <- (Qplus_0_r 1) at 1. by apply Qplus_lt_r.
Qed.

Section VectorStoreFacts.

Variable valid_iso : string → bool.

Lemma outcome_lift {A} (o : Outcome A) : outcome (lift o) = o.
Proof. done. Qed.

Lemma hit_result_score r i res :
  outcome (hit_result valid_iso r i) = Returned res →
  ∃ d, raw_distance r i = Some d ∧ score res = similarity d.
Proof.
  unfold hit_result, raw_distance, index.
  repeat (rewrite outcome_bind, outcome_lift;
          match goal with
          | |- context [match ?l !! i with _ => _ end] =>
              destruct (l !! i); [|discriminate]
          end).
  rewrite outcome_bind.
  destruct (r_distances r) as [ds|].
  - rewrite outcome_lift. destruct (ds !! i) as [d|]; [|discriminate].
    rewrite outcome_bind, outcome_lift.
    destruct (hit_metadata _ _); [|discriminate].
    rewrite outcome_bind. destruct (outcome (hit_chunk _ _ _)); [|discriminate].
    intros [= <-]. by exists d.
  - rewrite outcome_mret, outcome_bind, outcome_lift.
    destruct (hit_metadata _ _); [|discriminate].
    rewrite outcome_bind. destruct (outcome (hit_chunk _ _ _)); [|discriminate].
    intros [= <-]. by exists 1%Q.
Qed.

Lemma collect_results_spec r indices search_results results :
  outcome (collect_results valid_iso r indices search_results)
  = Returned results →
  ∃ new, results = search_results ++ new
         ∧ Forall2 (fun i res =>
                      outcome (hit_result valid_iso r i) = Returned res)
                   indices new.
Proof.
  revert search_results.
  induction indices as [|i rest IH]; intros search_results; simpl.
  - intros [= <-]. exists []. by rewrite app_nil_r.
  - rewrite outcome_bind.
    destruct (outcome (hit_result valid_iso r i)) as [res|e] eqn:E;
      [|discriminate].
    intros (new & -> & Hall)%IH. exists (res :: new).
    split; [by rewrite <- app_assoc|by constructor].
Qed.

End VectorStoreFacts.

(** C3.  The score of every result of [search] comes from the raw distance
    [d] of its hit: it is 1 / (1 + d) when d > 0 and 1 otherwise, and it
    lies between 0 and 1. *)
Theorem search_scores (valid_iso : string → bool)
    (collection_query :
       Collection → string → Z → gmap string string → Outcome QueryResult)
    (c : Collection) (query : string) (n_results : Z)
    (filter_conditions : gmap string string)
    (results : list SearchResult) (k : nat) (res : SearchResult) :
  outcome (search valid_iso collection_query c query n_results
             filter_conditions) = Returned results →
  results !! k = Some res →
  ∃ r d,
    collection_query c query n_results (chroma_filters filter_conditions)
    = Returned r
    ∧ raw_distance r k = Some d
    ∧ ((0 < d)%Q → score res = (1 / (1 + d))%Q)
    ∧ (¬ (0 < d)%Q → score res = 1%Q)
    ∧ (0 <= score res)%Q ∧ (score res <= 1)%Q.
Proof.
  unfold search. rewrite outcome_try_except, outcome_bind, outcome_lift.
  destruct (collection_query _ _ _ _) as [r|e]; simpl.
  - destruct (outcome (collect_results _ _ _ _)) as [rs|e] eqn:E; simpl.
    + intros [= <-] Hk.
      apply collect_results_spec in E as (new & -> & Hall). simpl in Hk.
      destruct (Forall2_lookup_r _ _ _ _ _ Hall Hk) as (i & Hi & Hres).
      apply lookup_seq in Hi as [-> _]. simpl in Hres.
      apply hit_result_score in Hres as (d & Hd & ->).
      exists r, d. split; [done|]. split; [done|].
      split; [apply similarity_far|]. split; [apply similarity_near|].
      destruct (similarity_bounds d). split; [by apply Qlt_le_weak|done].
    + intros [= <-] Hk. by rewrite lookup_nil in Hk.
  - intros [= <-] Hk. by rewrite lookup_nil in Hk.
Qed.

Lemma search_scores_witness :
  ∃ res, example_results !! 1%nat = Some res
         ∧ ∃ r d,
             example_engine ∅ "streams" 10 (chroma_filters ∅) = Returned r
             ∧ raw_distance r 1 = Some d
             ∧ ((0 < d)%Q → score res = (1 / (1 + d))%Q)
             ∧ (¬ (0 < d)%Q → score res = 1%Q)
             ∧ (0 <= score res)%Q ∧ (score res <= 1)%Q.
Proof.
  eexists. split; [reflexivity|].
  eapply (search_scores any_date example_engine ∅ "streams" 10 ∅
            example_results 1); reflexivity.
Defined.

Example example_scores :
  map score example_results = [1%Q; (1 / (1 + (1 # 4)))%Q].
Proof. reflexivity. Qed.

(** ** add_document *)

Section AddDocumentFacts.

Variable uuid4 : nat → string.

Lemma upsert_records_insert_all ids0 documents0 metadatas0 c :
  upsert_records ids0 documents0 metadatas0 c
  = insert_all (zip ids0 (zip documents0 metadatas0)) c.
Proof.
  revert documents0 metadatas0 c.
  induction ids0 as [|i ids0 IH]; intros [|d documents0] [|m metadatas0] c;
    simpl; done.
Qed.

Lemma insert_all_app r1 r2 c :
  insert_all (r1 ++ r2) c = insert_all r2 (insert_all r1 c).
Proof. apply fold_left_app. Qed.

Lemma batch_records_snoc b i d m :
  batch_wf b →
  batch_records {| ids := ids b ++ [i]; documents := documents b ++ [d];
                   metadatas := metadatas b ++ [m] |}
  = batch_records b ++ [(i, (d, m))].
Proof.
  intros [Hd Hm]. unfold batch_records. simpl.
  rewrite (zip_with_app pair (documents b) [d] (metadatas b) [m]) by lia.
  rewrite zip_with_app; [done|].
  rewrite length_zip_with. lia.
Qed.

Lemma add_document_loop_spec d todo k b c :
  batch_wf b →
  upsert (add_document_loop uuid4 d todo k b c).1
         (add_document_loop uuid4 d todo k b c).2
  = insert_all (batch_records b ++ new_records uuid4 d todo k) c.
Proof.
  revert k b c. induction todo as [|chunk rest IH]; intros k b c Hwf.
  - simpl. rewrite app_nil_r. apply upsert_records_insert_all.
  - change (add_document_loop uuid4 d (chunk :: rest) k b c)
      with (let b' := {| ids := ids b ++ [uuid4 k];
                         documents := documents b ++ [content chunk];
                         metadatas := metadatas b ++ [chunk_record d chunk] |} in
            if (100 <=? length (ids b'))%nat
            then add_document_loop uuid4 d rest (S k) empty_batch (upsert b' c)
            else add_document_loop uuid4 d rest (S k) b' c).
    cbv zeta.
    set (b' := {| ids := ids b ++ [uuid4 k];
                  documents := documents b ++ [content chunk];
                  metadatas := metadatas b ++ [chunk_record d chunk] |}).
    assert (batch_wf b') as Hwf'.
    { destruct Hwf as [Hd Hm]. split; simpl; rewrite !length_app; simpl; lia. }
    assert (batch_records b' = batch_records b
                               ++ [(uuid4 k, (content chunk, chunk_record d chunk))])
      as Hb' by by apply batch_records_snoc.
    simpl new_records.
    replace (batch_records b ++
             (uuid4 k, (content chunk, chunk_record d chunk))
             :: new_records uuid4 d rest (S k))
      with (batch_records b' ++ new_records uuid4 d rest (S k))
      by (by rewrite Hb', <- app_assoc).
    destruct (100 <=? length (ids b'))%nat.
    + rewrite IH by done. simpl.
      rewrite insert_all_app. f_equal.
      unfold upsert. apply upsert_records_insert_all.
    + by apply IH.
Qed.

(** [add_document] comes to inserting the record of every chunk, in the
    order of the chunks, whatever the batches were. *)
Lemma add_document_spec d c :
  add_document uuid4 d c
  = (insert_all (new_records uuid4 d (chunks d) 0) c, true).
Proof.
  unfold add_document.
  pose proof (add_document_loop_spec d (chunks d) 0 empty_batch c) as H.
  destruct (add_document_loop uuid4 d (chunks d) 0 empty_batch c) as [b c'].
  simpl in H. rewrite <- H by done. f_equal.
  destruct (ids b) eqn:E; [|done].
  unfold upsert. by rewrite E.
Qed.

Lemma insert_all_other records c i :
  i ∉ map fst records → insert_all records c !! i = c !! i.
Proof.
  revert c. induction records as [|[j r] records IH]; intros c Hi; [done|].
  simpl in *. apply not_elem_of_cons in Hi as [Hne Hi].
  rewrite IH by done. by apply lookup_insert_ne.
Qed.

Lemma insert_all_lookup records c j i r :
  NoDup (map fst records) → records !! j = Some (i, r) →
  insert_all records c !! i = Some r.
Proof.
  revert c j. induction records as [|[i' r'] records IH]; intros c j Hnd Hj;
    [done|].
  simpl in *. apply NoDup_cons in Hnd as [Hi' Hnd].
  destruct j as [|j]; simpl in Hj.
  - injection Hj as -> ->. rewrite insert_all_other by done.
    apply lookup_insert_eq.
  - by eapply IH.
Qed.

Lemma new_records_ids d todo k :
  map fst (new_records uuid4 d todo k) = map uuid4 (seq k (length todo)).
Proof.
  revert k. induction todo as [|chunk rest IH]; intros k; simpl; [done|].
  by rewrite IH.
Qed.

Lemma new_records_lookup d todo k j chunk :
  todo !! j = Some chunk →
  new_records uuid4 d todo k !! j
  = Some (uuid4 (k + j)%nat, (content chunk, chunk_record d chunk)).
Proof.
  revert k j. induction todo as [|ch rest IH]; intros k j Hj; [done|].
  destruct j as [|j]; simpl in *.
  - injection Hj as ->. by rewrite Nat.add_0_r.
  - replace (k + S j)%nat with (S k + j)%nat by lia. by apply IH.
Qed.

End AddDocumentFacts.

(** ** Page numbers through the index *)

Lemma chunk_record_page_number d chunk :
  metadata chunk !! "page_number" = None →
  chunk_record d chunk !! "page_number"
  = Some (Py.str (page_number chunk + 1)).
Proof.
  intros H. unfold chunk_record. rewrite lookup_union_r by done.
  by simplify_map_eq.
Qed.

Lemma chunk_record_chunk_index d chunk :
  metadata chunk !! "chunk_index" = None →
  chunk_record d chunk !! "chunk_index" = Some (Py.str (chunk_index chunk)).
Proof.
  intros H. unfold chunk_record. rewrite lookup_union_r by done.
  by simplify_map_eq.
Qed.

Lemma hit_chunk_page id0 content0 md p chunk' :
  md !! "page_number" = Some (Py.str (p + 1)) →
  outcome (hit_chunk id0 content0 md) = Returned chunk' →
  page_number chunk' = p.
Proof.
  intros Hmd. unfold hit_chunk, int_field.
  rewrite outcome_bind, outcome_lift, Hmd, int_str.
  rewrite outcome_bind, outcome_lift.
  destruct (md !! "chunk_index") as [s|]; [destruct (Py.int s)|];
    try discriminate; intros [= <-]; simpl; lia.
Qed.

(** C10, as amended.  For a chunk of the document that has no entry of its
    own under ["page_number"], and identifiers that are all different,
    [add_document] stores under the identifier of the chunk its content
    and a record that holds the text of its page number plus one, and any
    chunk that [search] rebuilds from this record has the page number of
    the chunk again. *)
Theorem page_number_round_trip (uuid4 : nat → string) (d : Document)
    (c : Collection) (j : nat) (chunk : DocumentChunk) :
  NoDup (map uuid4 (seq 0 (length (chunks d)))) →
  chunks d !! j = Some chunk →
  metadata chunk !! "page_number" = None →
  stored_page_round_trip uuid4 d c j chunk.
Proof.
  intros Hnd Hj Hmd. exists (chunk_record d chunk).
  split; [|split].
  - rewrite add_document_spec. simpl.
    apply (insert_all_lookup _ _ j).
    + by rewrite new_records_ids.
    + by apply (new_records_lookup uuid4 d (chunks d) 0 j chunk).
  - by apply chunk_record_page_number.
  - intros id0 content0 chunk'. apply hit_chunk_page.
    by apply chunk_record_page_number.
Qed.

Lemma page_number_round_trip_witness :
  stored_page_round_trip counter_uuid notes_document ∅ 0 notes_chunk.
Proof.
  apply page_number_round_trip.
  - vm_compute. apply NoDup_singleton.
  - reflexivity.
  - reflexivity.
Defined.

(** C10, as stated, fails: the entry that a chunk has under
    ["page_number"] is stored in place of its page number. *)
Lemma page_number_round_trip_counterexample :
  ¬ stored_page_round_trip counter_uuid relabelled_document ∅ 0
      relabelled_chunk.
Proof.
  intros (md & Hmd & Hpage & _).
  vm_compute in Hmd. injection Hmd as <-.
  vm_compute in Hpage. discriminate Hpage.
Qed.

Example relabelled_chunk_comes_back_on_page_4 :
  page_number relabelled_chunk = 0
  ∧ chunk_record relabelled_document relabelled_chunk !! "page_number"
    = Some "5"
  ∧ (page_number <$> Some relabelled_chunk) = Some 0
  ∧ match outcome (hit_chunk "0" "appendix"
                     (chunk_record relabelled_document relabelled_chunk)) with
    | Returned chunk' => page_number chunk' = 4
    | Raised _ => False
    end.
Proof. repeat split; vm_compute; reflexivity. Qed.

(** * What the processors extract *)

Lemma chars_append a b :
  list_ascii_of_string (a +:+ b)
  = list_ascii_of_string a ++ list_ascii_of_string b.
Proof.
  induction a as [|c a IH]; [done|]. rewrite append_cons. simpl.
  by rewrite IH.
Qed.

Lemma lstrip_all_space s :
  forallb Py.isspace (list_ascii_of_string (Py.lstrip s))
  = forallb Py.isspace (list_ascii_of_string s).
Proof.
  induction s as [|c r IH]; [done|]. simpl.
  destruct (Py.isspace c) eqn:E; simpl; [done|]. by rewrite E.
Qed.

Lemma rstrip_truthy s :
  Py.truthy (Py.rstrip s) = negb (forallb Py.isspace (list_ascii_of_string s)).
Proof.
  induction s as [|c r IH]; [done|]. simpl.
  destruct (Py.rstrip r); simpl in *.
  - apply (f_equal negb) in IH. rewrite negb_involutive in IH. simpl in IH.
    rewrite <- IH, andb_true_r. by destruct (Py.isspace c).
  - apply (f_equal negb) in IH. rewrite negb_involutive in IH. simpl in IH.
    by rewrite <- IH, andb_false_r.
Qed.

(** [text.strip()] is true exactly when some character of the text is not
    whitespace. *)
Lemma truthy_strip s :
  Py.truthy (Py.strip s) = negb (forallb Py.isspace (list_ascii_of_string s)).
Proof. unfold Py.strip. by rewrite rstrip_truthy, lstrip_all_space. Qed.

Lemma nonblank_append_l a b : nonblank a → nonblank (a +:+ b).
Proof.
  unfold nonblank. rewrite !truthy_strip, chars_append, forallb_app.
  rewrite !negb_true_iff. by intros ->.
Qed.

Lemma nonblank_append_r a b : nonblank b → nonblank (a +:+ b).
Proof.
  unfold nonblank. rewrite !truthy_strip, chars_append, forallb_app.
  rewrite !negb_true_iff. intros ->. apply andb_false_r.
Qed.

Lemma nonblank_join sep parts p :
  p ∈ parts → nonblank p → nonblank (Py.join sep parts).
Proof.
  intros Hin Hp. induction parts as [|q rest IH]; [by apply elem_of_nil in Hin|].
  apply elem_of_cons in Hin as [<-|Hin].
  - destruct rest; [done|]. by apply nonblank_append_l.
  - destruct rest as [|q' rest]; [by apply elem_of_nil in Hin|].
    change (Py.join sep (q :: q' :: rest))
      with (q +:+ sep +:+ Py.join sep (q' :: rest)).
    apply nonblank_append_r, nonblank_append_r. by apply IH.
Qed.


Lemma well_extracted_snoc from segs i text :
  well_extracted from segs →
  Forall (fun seg : Z * string => seg.1 < i) segs →
  from ≤ i → nonblank text →
  well_extracted from (segs ++ [(i, text)]).
Proof.
  intros [Hall Hinc] Hlt Hi Ht. split.
  - apply Forall_app. split; [done|]. by repeat constructor.
  - apply StronglySorted_app. split; [|split; [done|repeat constructor]].
    intros a b Ha ->%list_elem_of_singleton. rewrite Forall_forall in Hlt.
    by apply Hlt.
Qed.

Lemma collect_pages_well_extracted reader from i pages chunks res :
  well_extracted from chunks →
  Forall (fun seg : Z * string => seg.1 < i) chunks →
  from ≤ i →
  outcome (collect_pages reader i pages chunks) = Returned res →
  well_extracted from res.
Proof.
  revert i chunks.
  induction pages as [|page rest IH]; intros i chunks Hwe Hlt Hi; simpl.
  - by intros [= <-].
  - rewrite outcome_bind. destruct page as [text|e]; simpl; [|done].
    apply IH; [| |lia].
    + unfold keep_nonblank.
      destruct (Py.truthy (Py.strip text)) eqn:E; [|done].
      by apply well_extracted_snoc.
    + unfold keep_nonblank.
      destruct (Py.truthy (Py.strip text)).
      * apply Forall_app. split; [|repeat constructor; simpl; lia].
        eapply Forall_impl; [exact Hlt|]. simpl. lia.
      * eapply Forall_impl; [exact Hlt|]. simpl. lia.
Qed.

Lemma well_extracted_nil from : well_extracted from [].
Proof. split; constructor. Qed.

Lemma well_extracted_one text : nonblank text → well_extracted 0 [(0, text)].
Proof.
  intros H. split; [|repeat constructor]. by repeat constructor.
Qed.

Lemma process_pdf_outcome f segs :
  outcome (_process_pdf f) = Returned segs →
  segs = []
  ∨ outcome (pdf_direct_phase (as_pdf f)) = Returned segs
  ∨ outcome (pdf_ocr_phase (as_pdf f)) = Returned segs.
Proof.
  unfold _process_pdf.
  destruct (pdf2image_import (as_pdf f)) as [[]|e];
    [|intros [= <-]; by left].
  destruct (pdf_direct_phase (as_pdf f)) as [tr [[|c cs]|e]];
    destruct (pdf_ocr_phase (as_pdf f)) as [tro [cs'|e']];
    simpl; intros [= <-]; auto.
Qed.

Lemma collect_slides_well_extracted i slides slides_text :
  well_extracted 0 slides_text →
  Forall (fun seg : Z * string => seg.1 < i) slides_text →
  0 ≤ i →
  well_extracted 0 (collect_slides i slides slides_text).
Proof.
  revert i slides_text.
  induction slides as [|shapes rest IH]; intros i slides_text Hwe Hlt Hi;
    [done|].
  change (collect_slides i (shapes :: rest) slides_text)
    with (collect_slides (i + 1) rest
            (match slide_texts shapes with
             | [] => slides_text
             | _ => slides_text ++ [(i, Py.join newline (slide_texts shapes))]
             end)).
  assert (∀ t, t ∈ slide_texts shapes → nonblank t) as Hnb.
  { intros t Ht. unfold slide_texts in Ht.
    apply list_elem_of_omap in Ht as ([t'|] & _ & Ht'); [|done].
    destruct (Py.truthy (Py.strip t')) eqn:E; [|done]. by simplify_eq. }
  destruct (slide_texts shapes) as [|t ts] eqn:E.
  - apply IH; [done| |lia]. eapply Forall_impl; [exact Hlt|]. simpl. lia.
  - apply IH; [| |lia].
    + apply well_extracted_snoc; try done.
      apply (nonblank_join _ _ t); [left|apply Hnb; left].
    + apply Forall_app. split; [|repeat constructor; simpl; lia].
      eapply Forall_impl; [exact Hlt|]. simpl. lia.
Qed.

Lemma supported_processor_cases mime_type processor :
  supported_mime_types mime_type = Some processor →
  processor = _process_pdf ∨ processor = _process_docx
  ∨ processor = _process_pptx ∨ processor = _process_text
  ∨ processor = _process_image.
Proof.
  unfold supported_mime_types. intros Hs.
  repeat match type of Hs with
         | (if ?b then _ else _) = _ => destruct b
         end; simplify_eq; auto 10.
Qed.

Lemma process_pdf_well_extracted f segs :
  outcome (_process_pdf f) = Returned segs → well_extracted 0 segs.
Proof.
  intros [->|[Hp|Hp]]%process_pdf_outcome.
  - apply well_extracted_nil.
  - unfold pdf_direct_phase in Hp. rewrite outcome_bind in Hp.
    destruct (reader_pages (as_pdf f)) as [pages|e]; [|done]. simpl in Hp.
    eapply collect_pages_well_extracted; [| | |exact Hp];
      [apply well_extracted_nil|constructor|done].
  - unfold pdf_ocr_phase in Hp. rewrite outcome_bind in Hp.
    destruct (rendered_pages (as_pdf f)) as [pages|e]; [|done]. simpl in Hp.
    eapply collect_pages_well_extracted; [| | |exact Hp];
      [apply well_extracted_nil|constructor|done].
Qed.

Lemma process_docx_well_extracted f segs :
  outcome (_process_docx f) = Returned segs → well_extracted 0 segs.
Proof.
  unfold _process_docx. rewrite outcome_try_except, outcome_bind, outcome_lift.
  destruct (as_docx f) as [paragraphs|e]; simpl;
    [|intros [= <-]; apply well_extracted_nil].
  destruct (List.filter _ paragraphs) as [|p ps] eqn:E;
    intros [= <-]; [apply well_extracted_nil|].
  apply well_extracted_one.
  change (nonblank (Py.join newline (p :: ps))).
  apply (nonblank_join _ _ p); [left|].
  assert (In p (List.filter (fun t => Py.truthy (Py.strip t)) paragraphs))
    as Hin by (rewrite E; left; done).
  apply filter_In in Hin. tauto.
Qed.

Lemma process_pptx_well_extracted f segs :
  outcome (_process_pptx f) = Returned segs → well_extracted 0 segs.
Proof.
  unfold _process_pptx. rewrite outcome_try_except, outcome_bind, outcome_lift.
  destruct (as_pptx f) as [slides|e]; simpl;
    intros [= <-]; [|apply well_extracted_nil].
  apply collect_slides_well_extracted;
    [apply well_extracted_nil|constructor|done].
Qed.

Lemma process_text_well_extracted f segs :
  outcome (_process_text f) = Returned segs → well_extracted 0 segs.
Proof.
  unfold _process_text. rewrite outcome_try_except, outcome_bind, outcome_lift.
  destruct (as_text f) as [text|e]; simpl;
    [|intros [= <-]; apply well_extracted_nil].
  destruct (Py.truthy (Py.strip text)) eqn:E; intros [= <-];
    [by apply well_extracted_one|apply well_extracted_nil].
Qed.

Lemma process_image_well_extracted f segs :
  outcome (_process_image f) = Returned segs → well_extracted 0 segs.
Proof.
  unfold _process_image. rewrite outcome_try_except, outcome_bind, outcome_lift.
  destruct (as_image f) as [[text|]|e]; simpl;
    try (intros [= <-]; apply well_extracted_nil).
  destruct (Py.truthy (Py.strip text)) eqn:E; intros [= <-];
    [by apply well_extracted_one|apply well_extracted_nil].
Qed.

(** X1.  Whatever a processor of a supported type returns, every segment
    has a text with a character that is not whitespace, pages are counted
    from 0, and the segments are in page order with no page twice. *)
Theorem processors_extract_nonblank_pages (mime_type : string)
    (processor : FileView → M TextChunks) (f : FileView) (segs : TextChunks) :
  supported_mime_types mime_type = Some processor →
  outcome (processor f) = Returned segs →
  Forall (fun seg : Z * string => 0 ≤ seg.1 ∧ nonblank seg.2) segs
  ∧ pages_increasing segs.
Proof.
  intros Hs Hp. change (well_extracted 0 segs).
  destruct (supported_processor_cases _ _ Hs) as [->|[->|[->|[->| ->]]]].
  - by apply (process_pdf_well_extracted f).
  - by apply (process_docx_well_extracted f).
  - by apply (process_pptx_well_extracted f).
  - by apply (process_text_well_extracted f).
  - by apply (process_image_well_extracted f).
Qed.

Lemma processors_extract_nonblank_pages_witness :
  Forall (fun seg : Z * string => 0 ≤ seg.1 ∧ nonblank seg.2)
    [(0, "Kafka" +:+ newline +:+ "topics and partitions");
     (2, "Data warehouse")]
  ∧ pages_increasing
      [(0, "Kafka" +:+ newline +:+ "topics and partitions");
       (2, "Data warehouse")].
Proof.
  apply (processors_extract_nonblank_pages
           "application/vnd.openxmlformats-officedocument.presentationml.presentation"
           deck_processor deck_file); reflexivity.
Defined.

(** * The assembled document *)

Lemma str_inj a b : Py.str a = Py.str b → a = b.
Proof.
  intros H. apply (f_equal Py.int) in H. rewrite !int_str in H. congruence.
Qed.

(** A document that [process_document] returns is the assembly of the
    segments that the processor of its type extracted, at least one. *)
Lemma process_document_inv f now doc :
  outcome (process_document f now) = Returned (Some doc) →
  ∃ m processor seg segs,
    mime_guess f = Returned m
    ∧ supported_mime_types (or_octet_stream m) = Some processor
    ∧ outcome (processor f) = Returned (seg :: segs)
    ∧ doc = assemble f (extension f) now (seg :: segs).
Proof.
  unfold process_document.
  rewrite outcome_try_except, outcome_bind, outcome_process_document_body.
  destruct (file_exists f); [|discriminate].
  destruct (mime_guess f) as [m|e]; [|discriminate]. simpl.
  destruct (supported_mime_types (or_octet_stream m)) as [processor|] eqn:Hs;
    [|discriminate].
  destruct (outcome (processor f)) as [[|seg segs]|e] eqn:Hp; try discriminate.
  intros [= <-]. by exists m, processor, seg, segs.
Qed.

Lemma attach_chunks_imap f md i text_chunks d :
  chunks (attach_chunks f md i text_chunks d)
  = chunks d
    ++ imap (fun j seg => make_chunk f md (i + Z.of_nat j) seg) text_chunks.
Proof.
  revert i d. induction text_chunks as [|seg rest IH]; intros i d; simpl.
  - by rewrite app_nil_r.
  - rewrite IH. simpl. rewrite <- app_assoc. simpl. do 2 f_equal.
    + f_equal. lia.
    + apply imap_ext. intros j seg' _. simpl. f_equal. lia.
Qed.

Lemma assemble_chunks f ext now text_chunks :
  chunks (assemble f ext now text_chunks)
  = imap (fun j seg => make_chunk f (new_metadata f ext now) (Z.of_nat j) seg)
         text_chunks.
Proof.
  unfold assemble. change (chunks (set_counts ?d)) with (chunks d).
  rewrite attach_chunks_imap. simpl. apply imap_ext. intros j seg _.
  f_equal.
Qed.

Lemma attach_chunks_rest f md i text_chunks d :
  doc_metadata (attach_chunks f md i text_chunks d) = doc_metadata d
  ∧ raw_text (attach_chunks f md i text_chunks d) = raw_text d.
Proof.
  revert i d. induction text_chunks as [|seg rest IH]; intros i d; [done|].
  simpl. by destruct (IH (i + 1) (add_chunk d (make_chunk f md i seg)))
    as [-> ->].
Qed.

Lemma chunk_id_of_inj f : Inj (=) (=) (chunk_id_of f).
Proof.
  intros a b H. unfold chunk_id_of in H.
  do 2 apply append_cancel_l in H. apply str_inj in H. lia.
Qed.

(** X2.  In a document that [process_document] returns, the document is
    named after the stem of the file and has no [raw_text]; the chunk at
    position [j] has index [j], the identifier "<stem>_chunk_<j>", the
    file name as its source and its page number plus one as its page;
    no two chunks have the same identifier. *)
Theorem assembled_chunk_identity (f : FileView) (now : datetime)
    (doc : Document) :
  outcome (process_document f now) = Returned (Some doc) →
  doc_id (doc_metadata doc) = file_stem f
  ∧ title (doc_metadata doc) = file_stem f
  ∧ upload_date (doc_metadata doc) = Some now
  ∧ raw_text doc = None
  ∧ (∀ j chunk, chunks doc !! j = Some chunk →
       chunk_index chunk = Z.of_nat j
       ∧ chunk_id chunk = chunk_id_of f j
       ∧ chunk_doc_id chunk = file_stem f
       ∧ metadata chunk !! "source" = Some (file_name f)
       ∧ metadata chunk !! "page" = Some (Py.str (page_number chunk + 1))
       ∧ embedding chunk = None)
  ∧ NoDup (map chunk_id (chunks doc)).
Proof.
  intros (m & processor & seg & segs & _ & _ & _ & ->)%process_document_inv.
  assert (doc_metadata (assemble f (extension f) now (seg :: segs))
          = doc_metadata
              (set_counts
                 {| doc_metadata := new_metadata f (extension f) now;
                    chunks := chunks (assemble f (extension f) now (seg :: segs));
                    raw_text := None |})) as Hmd.
  { unfold assemble. unfold set_counts at 1.
    change (chunks (set_counts ?d)) with (chunks d).
    by destruct (attach_chunks_rest f (new_metadata f (extension f) now) 0
                   (seg :: segs)
                   {| doc_metadata := new_metadata f (extension f) now;
                      chunks := []; raw_text := None |}) as [-> _]. }
  rewrite Hmd. do 3 (split; [reflexivity|]).
  split; [unfold assemble; apply attach_chunks_rest|]. split.
  - intros j chunk H. rewrite assemble_chunks in H.
    apply list_lookup_imap_Some in H as (s & _ & ->).
    repeat split; simpl; by simplify_map_eq.
  - rewrite assemble_chunks.
    set (l := seg :: segs).
    assert (map chunk_id
              (imap (fun j s =>
                       make_chunk f (new_metadata f (extension f) now)
                         (Z.of_nat j) s) l)
            = chunk_id_of f <$> seq 0 (length l)) as ->.
    { clearbody l. clear. set (md := new_metadata f (extension f) now).
      assert (∀ k, map chunk_id
                (imap (fun j s => make_chunk f md (Z.of_nat (k + j)) s) l)
              = chunk_id_of f <$> seq k (length l)) as Hgen.
      { induction l as [|s l IH]; intros k; [done|]. simpl. f_equal.
        - unfold chunk_id_of. by rewrite Nat.add_0_r.
        - etransitivity; [|apply (IH (S k))]. f_equal. apply imap_ext.
          intros j s' _. simpl. do 2 f_equal. lia. }
      apply (Hgen 0%nat). }
    apply NoDup_fmap_2; [apply chunk_id_of_inj|apply NoDup_seq].
Qed.

Lemma assembled_chunk_identity_witness :
  doc_id (doc_metadata deck_document) = "deck"
  ∧ title (doc_metadata deck_document) = "deck"
  ∧ upload_date (doc_metadata deck_document) = Some epoch
  ∧ raw_text deck_document = None
  ∧ (∀ j chunk, chunks deck_document !! j = Some chunk →
       chunk_index chunk = Z.of_nat j
       ∧ chunk_id chunk = chunk_id_of deck_file j
       ∧ chunk_doc_id chunk = "deck"
       ∧ metadata chunk !! "source" = Some "deck.pptx"
       ∧ metadata chunk !! "page" = Some (Py.str (page_number chunk + 1))
       ∧ embedding chunk = None)
  ∧ NoDup (map chunk_id (chunks deck_document)).
Proof.
  apply (assembled_chunk_identity deck_file epoch deck_document).
  reflexivity.
Defined.

Lemma sorted_of_sorted {A K} (key : A → K) (lt : K → K → bool) (l : list A) :
  StronglySorted (Py.key_le key lt) l → Py.sorted key lt l = l.
Proof.
  induction 1 as [|x r Hr IH Hx]; [done|]. simpl. rewrite IH.
  destruct r as [|y r]; [done|]. simpl.
  apply Forall_cons in Hx as [Hxy _]. unfold Py.key_le in Hxy.
  by rewrite Hxy.
Qed.

Lemma StronglySorted_map_inv {A B} (g : A → B) (R : B → B → Prop) l :
  StronglySorted R (map g l) → StronglySorted (fun a b => R (g a) (g b)) l.
Proof.
  induction l as [|x l IH]; simpl; [constructor|].
  intros [Hl Hx]%StronglySorted_inv. constructor; [by apply IH|].
  apply Forall_forall. intros y Hy. rewrite Forall_forall in Hx.
  apply Hx. apply list_elem_of_fmap. eauto.
Qed.

(** The chunks of a returned document stand in strictly increasing page
    order and have non-blank contents. *)
Lemma processed_chunks_well_extracted f now doc :
  outcome (process_document f now) = Returned (Some doc) →
  chunks doc ≠ []
  ∧ StronglySorted (fun a b => page_number a < page_number b) (chunks doc)
  ∧ Forall (fun c => 0 ≤ page_number c ∧ nonblank (content c)) (chunks doc).
Proof.
  intros (m & processor & seg & segs & _ & Hs & Hp & ->)%process_document_inv.
  assert (well_extracted 0 (seg :: segs)) as [Hall Hinc].
  { destruct (supported_processor_cases _ _ Hs) as [->|[->|[->|[->| ->]]]];
      eauto using process_pdf_well_extracted, process_docx_well_extracted,
                  process_pptx_well_extracted, process_text_well_extracted,
                  process_image_well_extracted. }
  assert (map (fun c => (page_number c, content c))
              (chunks (assemble f (extension f) now (seg :: segs)))
          = seg :: segs) as Hchunks.
  { unfold assemble. change (chunks (set_counts ?d)) with (chunks d).
    by rewrite attach_chunks_chunks. }
  set (cs := chunks (assemble f (extension f) now (seg :: segs))) in *.
  clearbody cs. rewrite <- Hchunks in Hall, Hinc.
  split; [by destruct cs|]. split.
  - exact (StronglySorted_map_inv
             (fun c : DocumentChunk => (page_number c, content c))
             (fun a b : Z * string => a.1 < b.1) cs Hinc).
  - apply Forall_forall. intros c Hc. rewrite Forall_forall in Hall.
    apply (Hall (page_number c, content c)). apply list_elem_of_fmap. eauto.
Qed.

(** X3.  The full text of a document that [process_document] returns is
    the contents of its chunks in the order they were extracted, joined by
    a blank line: sorting by (page_number, chunk_index) changes nothing. *)
Theorem processed_full_text (f : FileView) (now : datetime) (doc : Document) :
  outcome (process_document f now) = Returned (Some doc) →
  Py.sorted sort_key Py.tuple_lt (chunks doc) = chunks doc
  ∧ get_full_text doc = Py.join blank_line (map content (chunks doc)).
Proof.
  intros H.
  destruct (processed_chunks_well_extracted f now doc H) as (_ & Hinc & _).
  assert (Py.sorted sort_key Py.tuple_lt (chunks doc) = chunks doc) as Hsorted.
  { apply sorted_of_sorted.
    eapply StronglySorted_mono; [|exact Hinc].
    intros a b Hab. unfold Py.key_le, sort_key, Py.tuple_lt.
    simpl in *. apply orb_false_iff. split; [apply Z.ltb_ge; lia|].
    apply andb_false_iff. left. apply Z.eqb_neq. lia. }
  split; [done|].
  apply process_document_inv in H as (m & processor & seg & segs & _ & _ & _ & ->).
  unfold get_full_text.
  assert (raw_text (assemble f (extension f) now (seg :: segs)) = None) as ->
    by (unfold assemble; apply attach_chunks_rest).
  unfold joined_chunks. by rewrite Hsorted.
Qed.

Lemma processed_full_text_witness :
  Py.sorted sort_key Py.tuple_lt (chunks deck_document) = chunks deck_document
  ∧ get_full_text deck_document
    = Py.join blank_line (map content (chunks deck_document)).
Proof.
  apply (processed_full_text deck_file epoch deck_document). reflexivity.
Defined.

Lemma count_tokens_nonblank s : nonblank s → (1 <= count_tokens s)%nat.
Proof.
  unfold nonblank, count_tokens. rewrite truthy_strip, negb_true_iff.
  induction s as [|c r IH]; simpl; [done|].
  destruct (Py.isspace c); simpl; [exact IH|lia].
Qed.

Lemma last_cons_default {A} (x y : A) (r : list A) :
  List.last (y :: r) x = List.last r y.
Proof.
  revert x y. induction r as [|z r IH]; intros x y; [done|].
  change (List.last (y :: z :: r) x) with (List.last (z :: r) x).
  by rewrite (IH x z), (IH y z).
Qed.

Lemma increasing_max_last (x : Z) (r : list Z) :
  StronglySorted Z.lt (x :: r) →
  fold_left Z.max r x = List.last r x
  ∧ x + Z.of_nat (length r) ≤ List.last r x.
Proof.
  revert x. induction r as [|y r IH]; intros x Hs; [simpl; lia|].
  apply StronglySorted_inv in Hs as [Hr Hx].
  apply Forall_cons in Hx as [Hxy _].
  destruct (IH y Hr) as [Hmax Hlen].
  rewrite last_cons_default. simpl fold_left. simpl length.
  replace (Z.max x y) with y by lia. rewrite Hmax. lia.
Qed.

(** X4.  In a document that [process_document] returns, [page_count] is
    the page number of the last chunk plus one; it is at least the number
    of chunks, and so is [word_count]; there is at least one chunk. *)
Theorem processed_counts_bounds (f : FileView) (now : datetime)
    (doc : Document) :
  outcome (process_document f now) = Returned (Some doc) →
  ∃ last_chunk,
    last (chunks doc) = Some last_chunk
    ∧ page_count (doc_metadata doc) = page_number last_chunk + 1
    ∧ 1 ≤ Z.of_nat (length (chunks doc))
    ∧ Z.of_nat (length (chunks doc)) ≤ page_count (doc_metadata doc)
    ∧ Z.of_nat (length (chunks doc)) ≤ word_count (doc_metadata doc).
Proof.
  intros H.
  destruct (processed_chunks_well_extracted f now doc H) as (Hne & Hinc & Hall).
  apply process_document_inv in H
    as (m & processor & seg & segs & _ & _ & _ & ->).
  unfold assemble in *.
  set (d := attach_chunks _ _ _ _ _) in *.
  change (chunks (set_counts d)) with (chunks d) in *.
  assert (word_count (doc_metadata (set_counts d)) = word_count_spec (chunks d))
    as Hwc by apply word_count_set_counts.
  assert (page_count (doc_metadata (set_counts d))
          = Py.max_default (map page_number (chunks d)) 0 + 1) as Hpc
    by reflexivity.
  rewrite Hwc, Hpc. clear Hwc Hpc. clearbody d.
  destruct (chunks d) as [|c cs] eqn:E; [done|]. clear E Hne.
  assert (StronglySorted Z.lt (map page_number (c :: cs))) as Hpages.
  { eapply (StronglySorted_fmap page_number); [|exact Hinc]. done. }
  destruct (increasing_max_last (page_number c) (map page_number cs) Hpages)
    as [Hmax Hlen].
  exists (List.last cs c).
  assert (List.last (map page_number cs) (page_number c)
          = page_number (List.last cs c)) as Hlast.
  { clear. revert c. induction cs as [|c' cs IH]; intros c; [done|].
    simpl map. rewrite !last_cons_default. apply IH. }
  assert (0 ≤ page_number c) as Hc0.
  { apply Forall_cons in Hall as [[? _] _]. done. }
  split; [|split; [|split; [|split]]].
  - clear. revert c. induction cs as [|c' cs IH]; intros c; [done|].
    change (last (c :: c' :: cs)) with (last (c' :: cs)).
    by rewrite IH, last_cons_default.
  - simpl. by rewrite Hmax, Hlast.
  - simpl. lia.
  - simpl Py.max_default. rewrite Hmax. rewrite length_map in Hlen.
    simpl length. lia.
  - clear -Hall. induction Hall as [|c' cs' [_ Hnb] _ IH]; [done|].
    simpl. apply count_tokens_nonblank in Hnb. simpl in IH. lia.
Qed.

Lemma processed_counts_bounds_witness :
  ∃ last_chunk,
    last (chunks deck_document) = Some last_chunk
    ∧ page_count (doc_metadata deck_document) = page_number last_chunk + 1
    ∧ 1 ≤ Z.of_nat (length (chunks deck_document))
    ∧ Z.of_nat (length (chunks deck_document))
      ≤ page_count (doc_metadata deck_document)
    ∧ Z.of_nat (length (chunks deck_document))
      ≤ word_count (doc_metadata deck_document).
Proof.
  apply (processed_counts_bounds deck_file epoch deck_document). reflexivity.
Defined.

Example deck_document_counts :
  page_count (doc_metadata deck_document) = 3
  ∧ word_count (doc_metadata deck_document) = 6
  ∧ length (chunks deck_document) = 2%nat.
Proof. repeat split; reflexivity. Qed.

(** * Scores and distances *)

(** X5.  A hit that is farther away never scores higher: the score does
    not increase with the distance. *)
Theorem similarity_antitone (d1 d2 : Q) :
  (d1 <= d2)%Q → (similarity d2 <= similarity d1)%Q.
Proof.
  intros Hle. unfold similarity.
  destruct (Py.float_lt 0 d1) eqn:E1; destruct (Py.float_lt 0 d2) eqn:E2.
  - apply float_lt_true in E1, E2.
    assert (0 < 1 + d1)%Q as H1.
    { apply Qlt_trans with 1%Q; [done|].
      rewrite <- (Qplus_0_r 1) at 1. by apply Qplus_lt_r. }
    assert (0 < 1 + d2)%Q as H2.
    { apply Qlt_trans with 1%Q; [done|].
      rewrite <- (Qplus_0_r 1) at 1. by apply Qplus_lt_r. }
    apply Qle_shift_div_r; [done|].
    unfold Qdiv. rewrite Qmult_1_l, Qmult_comm.
    apply Qle_shift_div_l; [done|]. rewrite Qmult_1_l.
    by apply Qplus_le_r.
  - apply float_lt_true in E1. apply float_lt_false in E2.
    exfalso. apply (Qlt_irrefl 0).
    eapply Qlt_le_trans; [exact E1|]. by eapply Qle_trans.
  - destruct (similarity_bounds d2) as [_ H]. unfold similarity in H.
    by rewrite E2 in H.
  - apply Qle_refl.
Qed.

Lemma similarity_antitone_witness :
  (similarity (1 # 2) <= similarity (1 # 4))%Q.
Proof. apply similarity_antitone. vm_compute. discriminate. Defined.

(** * What search rebuilds *)

Lemma hit_chunk_fields id0 content0 md ch :
  outcome (hit_chunk id0 content0 md) = Returned ch →
  chunk_id ch = id0 ∧ content ch = content0 ∧ metadata ch = md
  ∧ chunk_doc_id ch = default EmptyString (md !! "doc_id")
  ∧ int_field md "page_number" 1 = Returned (page_number ch + 1)
  ∧ int_field md "chunk_index" 0 = Returned (chunk_index ch).
Proof.
  unfold hit_chunk. rewrite outcome_bind, outcome_lift.
  destruct (int_field md "page_number" 1) as [p|e]; [|done].
  rewrite outcome_bind, outcome_lift.
  destruct (int_field md "chunk_index" 0) as [i|e]; [|done].
  intros [= <-]. simpl. repeat split. f_equal. lia.
Qed.

Lemma hit_result_fields valid_iso r i res :
  outcome (hit_result valid_iso r i) = Returned res →
  r_ids r !! i = Some (chunk_id (chunk res))
  ∧ r_documents r !! i = Some (content (chunk res))
  ∧ r_metadatas r !! i = Some (metadata (chunk res))
  ∧ hit_metadata valid_iso (metadata (chunk res)) = Returned (document res).
Proof.
  unfold hit_result, index.
  repeat (rewrite outcome_bind, outcome_lift;
          match goal with
          | |- context [match ?l !! i with _ => _ end] =>
              destruct (l !! i); [|discriminate]
          end).
  rewrite outcome_bind.
  assert (∀ d : Q,
    match hit_metadata valid_iso g with
    | Returned a =>
        outcome (hit_chunk s s0 g ≫= fun ch =>
                 mret {| chunk := ch; score := similarity d; document := a |})
    | Raised e => Raised e
    end = Returned res →
    Some s = Some (chunk_id (chunk res))
    ∧ Some s0 = Some (content (chunk res))
    ∧ Some g = Some (metadata (chunk res))
    ∧ hit_metadata valid_iso (metadata (chunk res)) = Returned (document res))
    as Hrest.
  { intros d. destruct (hit_metadata valid_iso g) as [md|e] eqn:Emd; [|done].
    rewrite outcome_bind.
    destruct (outcome (hit_chunk s s0 g)) as [ch|e] eqn:Ech; [|done].
    apply hit_chunk_fields in Ech as (<- & <- & <- & _).
    intros [= <-]. simpl. by rewrite Emd. }
  destruct (r_distances r) as [ds|].
  - rewrite outcome_lift. destruct (ds !! i) as [d|]; [|discriminate].
    rewrite outcome_bind, outcome_lift. apply Hrest.
  - rewrite outcome_mret, outcome_bind, outcome_lift. apply Hrest.
Qed.

(** X6.  [search] never raises, and what it returns is all or nothing:
    either the empty list, or one result for every hit of the engine, in
    the order of the hits, each carrying the id, the text and the metadata
    record of its hit. *)
Theorem search_all_or_nothing (valid_iso : string → bool)
    (collection_query :
       Collection → string → Z → gmap string string → Outcome QueryResult)
    (c : Collection) (query : string) (n_results : Z)
    (filter_conditions : gmap string string) :
  ∃ results,
    outcome (search valid_iso collection_query c query n_results
               filter_conditions) = Returned results
    ∧ (results = []
       ∨ ∃ r, collection_query c query n_results
                (chroma_filters filter_conditions) = Returned r
              ∧ length results = length (r_ids r)
              ∧ ∀ k res, results !! k = Some res →
                  r_ids r !! k = Some (chunk_id (chunk res))
                  ∧ r_documents r !! k = Some (content (chunk res))
                  ∧ r_metadatas r !! k = Some (metadata (chunk res))).
Proof.
  unfold search. rewrite outcome_try_except, outcome_bind, outcome_lift.
  destruct (collection_query _ _ _ _) as [r|e]; simpl; [|eauto].
  destruct (outcome (collect_results _ _ _ _)) as [rs|e] eqn:E; simpl;
    [|eauto].
  exists rs. split; [done|]. right. exists r. split; [done|].
  apply collect_results_spec in E as (new & -> & Hall). simpl.
  split.
  - apply Forall2_length in Hall. by rewrite length_seq in Hall.
  - intros k res Hk.
    destruct (Forall2_lookup_r _ _ _ _ _ Hall Hk) as (i & Hi & Hres).
    apply lookup_seq in Hi as [-> _]. simpl in Hres.
    apply hit_result_fields in Hres. tauto.
Qed.

Lemma DocumentType_round_trip t :
  DocumentType_of_value (DocumentType_value t) = Some t.
Proof. by destruct t. Qed.

Lemma chunk_record_lookup d chunk k :
  metadata chunk !! k = None →
  chunk_record d chunk !! k
  = ({[ "doc_id" := doc_id (doc_metadata d);
        "title" := title (doc_metadata d);
        "doc_type" := DocumentType_value (doc_type (doc_metadata d));
        "page_number" := Py.str (page_number chunk + 1);
        "chunk_index" := Py.str (chunk_index chunk);
        "source" := title (doc_metadata d);
        "upload_date" := match upload_date (doc_metadata d) with
                         | Some t => isoformat t
                         | None => EmptyString
                         end ]} : gmap string string) !! k.
Proof. intros H. unfold chunk_record. by rewrite lookup_union_r. Qed.

(** X7.  Of a chunk whose own metadata has none of the keys of
    [RECORD_KEYS], in a document with an upload date whose ISO text
    [fromisoformat] accepts, the record that [add_document] stores is
    rebuilt by [search] into a chunk with the same content, page number
    and chunk index and the doc_id of the document, and into metadata with
    the doc_id, title, type and upload date of the document. *)
Theorem stored_record_round_trip (valid_iso : string → bool) (d : Document)
    (chunk : DocumentChunk) (t : datetime) (id0 : string) :
  (∀ k, k ∈ RECORD_KEYS → metadata chunk !! k = None) →
  upload_date (doc_metadata d) = Some t →
  valid_iso (isoformat t) = true →
  ∃ ch md,
    outcome (hit_chunk id0 (content chunk) (chunk_record d chunk))
    = Returned ch
    ∧ hit_metadata valid_iso (chunk_record d chunk) = Returned md
    ∧ content ch = content chunk
    ∧ page_number ch = page_number chunk
    ∧ chunk_index ch = chunk_index chunk
    ∧ chunk_doc_id ch = doc_id (doc_metadata d)
    ∧ doc_id md = doc_id (doc_metadata d)
    ∧ title md = title (doc_metadata d)
    ∧ doc_type md = doc_type (doc_metadata d)
    ∧ upload_date md = Some t.
Proof.
  intros Hkeys Hdate Hvalid.
  assert (∀ k, k ∈ RECORD_KEYS → metadata chunk !! k = None) as Hk by done.
  pose proof (chunk_record_lookup d chunk "doc_id"
                (Hk "doc_id" ltac:(unfold RECORD_KEYS; set_solver))) as Hid.
  pose proof (chunk_record_lookup d chunk "title"
                (Hk "title" ltac:(unfold RECORD_KEYS; set_solver))) as Htitle.
  pose proof (chunk_record_lookup d chunk "doc_type"
                (Hk "doc_type" ltac:(unfold RECORD_KEYS; set_solver))) as Htype.
  pose proof (chunk_record_lookup d chunk "page_number"
                (Hk "page_number" ltac:(unfold RECORD_KEYS; set_solver))) as Hpage.
  pose proof (chunk_record_lookup d chunk "chunk_index"
                (Hk "chunk_index" ltac:(unfold RECORD_KEYS; set_solver))) as Hidx.
  pose proof (chunk_record_lookup d chunk "upload_date"
                (Hk "upload_date" ltac:(unfold RECORD_KEYS; set_solver))) as Hup.
  rewrite Hdate in Hup.
  simplify_map_eq.
  assert (outcome (hit_chunk id0 (content chunk) (chunk_record d chunk))
          = Returned
              {| chunk_id := id0;
                 chunk_doc_id := doc_id (doc_metadata d);
                 content := content chunk;
                 page_number := page_number chunk + 1 - 1;
                 chunk_index := chunk_index chunk;
                 metadata := chunk_record d chunk;
                 embedding := None |}) as Hch.
  { unfold hit_chunk, int_field. rewrite Hid, Hpage, Hidx.
    rewrite outcome_bind, outcome_lift, int_str.
    by rewrite outcome_bind, outcome_lift, int_str. }
  assert (∃ md, hit_metadata valid_iso (chunk_record d chunk) = Returned md
                ∧ doc_id md = doc_id (doc_metadata d)
                ∧ title md = title (doc_metadata d)
                ∧ doc_type md = doc_type (doc_metadata d)
                ∧ upload_date md = Some t) as (md & Hmd & ? & ? & ? & ?).
  { unfold hit_metadata. rewrite Hid, Htitle, Htype, Hup. simpl.
    rewrite DocumentType_round_trip, Hvalid. eexists. split; [done|].
    simpl. repeat split. by destruct t. }
  eexists _, md. split; [exact Hch|]. simpl.
  repeat split; try done. lia.
Qed.

Lemma stored_record_round_trip_witness :
  ∃ ch md,
    outcome (hit_chunk "0" (content notes_chunk)
               (chunk_record notes_document notes_chunk))
    = Returned ch
    ∧ hit_metadata epoch_only (chunk_record notes_document notes_chunk)
      = Returned md
    ∧ content ch = content notes_chunk
    ∧ page_number ch = page_number notes_chunk
    ∧ chunk_index ch = chunk_index notes_chunk
    ∧ chunk_doc_id ch = doc_id (doc_metadata notes_document)
    ∧ doc_id md = doc_id (doc_metadata notes_document)
    ∧ title md = title (doc_metadata notes_document)
    ∧ doc_type md = doc_type (doc_metadata notes_document)
    ∧ upload_date md = Some epoch.
Proof.
  apply (stored_record_round_trip epoch_only notes_document notes_chunk epoch).
  - intros k Hk. unfold RECORD_KEYS in Hk.
    repeat (apply elem_of_cons in Hk as [->|Hk]; [reflexivity|]).
    by apply elem_of_nil in Hk.
  - reflexivity.
  - reflexivity.
Defined.

(** * The collection under add and delete *)










(** * The best hit of a document *)

Lemma StronglySorted_drop_middle {A} (R : A → A → Prop) l1 x l2 :
  StronglySorted R (l1 ++ x :: l2) → StronglySorted R (l1 ++ l2).
Proof.
  rewrite !StronglySorted_app. intros (H12 & H1 & H2).
  apply StronglySorted_inv in H2 as [H2 _].
  split; [|done]. intros a b Ha Hb. apply H12; [done|by right].
Qed.

Lemma fill_docs_map_descending search_results docs_map :
  StronglySorted (fun a b => (relevance b <= relevance a)%Q)
    (values docs_map ++ map display_record search_results) →
  StronglySorted (fun a b => (relevance b <= relevance a)%Q)
    (values (fill_docs_map search_results docs_map)).
Proof.
  revert docs_map.
  induction search_results as [|res rest IH]; intros docs_map; simpl.
  - by rewrite app_nil_r.
  - intros H. apply IH.
    destruct (has_key (doc_id (document res)) docs_map).
    + by eapply StronglySorted_drop_middle.
    + unfold values in *. rewrite map_app. simpl. by rewrite <- app_assoc.
Qed.

Lemma sorted_reverse_of_descending {A K} (key : A → K) (lt : K → K → bool) l :
  StronglySorted (flip (Py.key_le key lt)) l → Py.sorted_reverse key lt l = l.
Proof.
  intros H. unfold Py.sorted_reverse.
  rewrite sorted_of_sorted; [apply rev_involutive|].
  apply PyFacts.StronglySorted_rev in H.
  eapply StronglySorted_mono; [|exact H]. done.
Qed.

Lemma find_first {A} (p : A → bool) l x :
  List.find p l = Some x →
  ∃ l1 l2, l = l1 ++ x :: l2 ∧ Forall (fun y => p y = false) l1.
Proof.
  induction l as [|y l IH]; simpl; [done|].
  destruct (p y) eqn:E.
  - intros [= ->]. by exists [], l.
  - intros (l1 & l2 & -> & Hl1)%IH. exists (y :: l1), l2.
    split; [done|by constructor].
Qed.

(** X10.  When the results come in descending order of score,
    [documents_list] lists the documents in the order of their first
    result, and the relevance of every record is the best score among the
    results of its document. *)
Theorem documents_list_best_hit (search_results : list SearchResult) :
  by_descending_score search_results →
  documents_list search_results = values (fill_docs_map search_results [])
  ∧ ∀ r res, r ∈ documents_list search_results → res ∈ search_results →
             doc_id (document res) = id r → (score res <= relevance r)%Q.
Proof.
  intros Hdesc.
  assert (documents_list search_results
          = values (fill_docs_map search_results [])) as Heq.
  { apply sorted_reverse_of_descending.
    eapply StronglySorted_mono;
      [|apply fill_docs_map_descending; simpl;
        apply (StronglySorted_fmap display_record
                 (fun a b => (score b <= score a)%Q)); [|exact Hdesc]; done].
    intros a b Hab. unfold flip, Py.key_le. by apply float_lt_false. }
  split; [done|].
  intros r res Hr Hres Hid. rewrite Heq in Hr.
  apply list_elem_of_fmap in Hr as ([k r'] & -> & Hin). simpl in *.
  apply fill_docs_map_entries in Hin
    as [Hin|(_ & first & Hfind & ->)]; [by apply elem_of_nil in Hin|].
  simpl in Hid. unfold first_of in Hfind.
  pose proof (find_some _ _ Hfind) as [_ Hk%String.eqb_eq].
  apply find_first in Hfind as (l1 & l2 & -> & Hl1). simpl.
  apply StronglySorted_app in Hdesc as (_ & _ & H2).
  apply StronglySorted_inv in H2 as [_ H2].
  apply elem_of_app in Hres as [Hres|Hres].
  - rewrite Forall_forall in Hl1. apply Hl1 in Hres.
    apply String.eqb_neq in Hres. congruence.
  - apply elem_of_cons in Hres as [->|Hres]; [apply Qle_refl|].
    rewrite Forall_forall in H2. by apply H2.
Qed.

Lemma documents_list_best_hit_witness :
  documents_list example_hits = values (fill_docs_map example_hits [])
  ∧ ∀ r res, r ∈ documents_list example_hits → res ∈ example_hits →
             doc_id (document res) = id r → (score res <= relevance r)%Q.
Proof.
  apply documents_list_best_hit. unfold by_descending_score, example_hits.
  repeat constructor; vm_compute; discriminate.
Defined.

(** * The themes returned *)

Lemma filter_sublist {A} (p : A → bool) (l : list A) :
  sublist (List.filter p l) l.
Proof.
  induction l as [|x l IH]; simpl; [constructor|].
  destruct (p x); by constructor.
Qed.

Lemma list_slice_to_sublist {A} (n : Z) (l : list A) :
  sublist (Py.list_slice_to n l) l.
Proof. unfold Py.list_slice_to. destruct (0 <=? n); apply sublist_take. Qed.

(** X11.  Without search results [extract_themes] returns no theme.
    Otherwise the themes returned are themes
    of the summarizer, in its order, each of a confidence of at least
    [min_theme_confidence], and, for a [max_themes] of 0 or more, at most
    [max_themes] of them. *)
Theorem extract_themes_bounds (max_themes : Z) (min_theme_confidence : Q)
    (llm : list SearchResult → option string → list Theme)
    (search_results : list SearchResult) (query : option string) :
  let out := extract_themes max_themes min_theme_confidence llm
               search_results query in
  (search_results = [] → out = [])
  ∧ sublist out (llm search_results query)
  ∧ (∀ theme, theme ∈ out →
       (min_theme_confidence <= confidence theme)%Q)
  ∧ (0 ≤ max_themes → Z.of_nat (length out) ≤ max_themes).
Proof.
  intros out. subst out. unfold extract_themes.
  destruct search_results as [|res rest].
  - split; [done|]. split; [apply sublist_nil_l|]. split.
    + by intros theme ?%elem_of_nil.
    + simpl. lia.
  - rewrite fill_final_themes_filter. simpl app.
    set (themes := llm (res :: rest) query).
    set (confident :=
           List.filter (fun theme =>
                          Py.float_ge (confidence theme) min_theme_confidence)
                       themes).
    assert (sublist (List.filter kept (Py.list_slice_to max_themes confident))
                    (Py.list_slice_to max_themes confident)) as H1
      by apply filter_sublist.
    assert (sublist (Py.list_slice_to max_themes confident) confident) as H2
      by apply list_slice_to_sublist.
    assert (sublist confident themes) as H3 by apply filter_sublist.
    split; [done|]. split; [|split].
    + by do 2 (etransitivity; [eassumption|]).
    + intros theme Hin.
      assert (theme ∈ confident) as Hc.
      { eapply elem_of_sublist; [exact Hin|]. by etransitivity. }
      apply list_elem_of_In, filter_In in Hc as [_ Hc].
      by apply Qle_bool_iff in Hc.
    + intros Hmax. apply sublist_length in H1.
      unfold Py.list_slice_to in *.
      destruct (Z.leb_spec 0 max_themes); [|lia].
      pose proof (firstn_le_length (Z.to_nat max_themes) confident). lia.
Qed.

Lemma extract_themes_bounds_witness :
  Z.of_nat (length (extract_themes 5 (7 # 10) example_summarizer
                      example_hits None)) ≤ 5.
Proof.
  refine (proj2 (proj2 (proj2 (extract_themes_bounds 5 (7 # 10)
                                 example_summarizer example_hits None))) _).
  lia.
Defined.

(** * The failure of a file *)

(** Whatever the body of [process_document] raises is the exception of one
    of the four failures. *)
Lemma process_document_body_raises f now e :
  outcome (process_document_body f now) = Raised e →
  ∃ r, fails f r ∧ e = failure_exception f r.
Proof.
  rewrite outcome_process_document_body.
  destruct (file_exists f) eqn:He.
  - destruct (mime_guess f) as [m|e'] eqn:Hm.
    + simpl.
      destruct (supported_mime_types (or_octet_stream m)) as [processor|]
        eqn:Hs.
      * destruct (processor_returns _ _ f Hs) as [segs Hp]. rewrite Hp.
        destruct segs; [|done]. intros [= <-].
        exists NoTextExtracted. split; [|done].
        by eapply fails_no_text.
      * intros [= <-]. exists (UnsupportedType (or_octet_stream m)).
        split; [|done]. by apply fails_unsupported.
    + intros [= <-]. exists UndeterminedType. split; [|done].
      by eapply fails_undetermined.
  - intros [= <-]. exists FileNotFound. split; [|done].
    by apply fails_not_found.
Qed.

(** X12.  [process_document] gives up with "Could not determine file
    type" exactly on an existing file whose type detection raises: a file
    whose type is merely not guessed counts as application/octet-stream
    and is turned down as unsupported. *)
Theorem undetermined_type_only_on_error (f : FileView) (now : datetime) :
  (outcome (process_document f now) = Returned None
   ∧ last (trace (process_document f now))
     = Some (failure_log f UndeterminedType)
   ↔ file_exists f = true ∧ ∃ e, mime_guess f = Raised e)
  ∧ (file_exists f = true →
     mime_guess f = Returned None ∨ mime_guess f = Returned (Some EmptyString) →
     outcome (process_document f now) = Returned None
     ∧ last (trace (process_document f now))
       = Some (failure_log f (UnsupportedType "application/octet-stream"))).
Proof.
  split; [split|].
  - intros [Hout Hlast].
    destruct (outcome (process_document_body f now)) as [doc|e] eqn:E.
    { unfold process_document in Hout.
      rewrite outcome_try_except, outcome_bind, E in Hout. discriminate Hout. }
    destruct (process_document_body_raises f now e E) as (r & Hr & ->).
    destruct (process_document_handles f now _ E) as [_ Hlog].
    rewrite Hlog in Hlast. unfold failure_log in Hlast.
    injection Hlast as Hmsg.
    do 3 apply append_cancel_l in Hmsg.
    apply (failure_message_inj f r UndeterminedType) in Hmsg. subst r.
    inversion Hr; subst. eauto.
  - intros [He [e Hm]].
    apply (process_document_handles f now
             (failure_exception f UndeterminedType)).
    apply process_document_body_fails. by eapply fails_undetermined.
  - intros He Hm.
    apply (process_document_handles f now
             (failure_exception f (UnsupportedType
                                     "application/octet-stream"))).
    destruct Hm as [Hm|Hm].
    + apply (process_document_body_fails f now
               (UnsupportedType (or_octet_stream None))).
      by apply fails_unsupported.
    + apply (process_document_body_fails f now
               (UnsupportedType (or_octet_stream (Some EmptyString)))).
      by apply fails_unsupported.
Qed.

Lemma undetermined_type_only_on_error_witness :
  outcome (process_document unreadable_file epoch) = Returned None
  ∧ last (trace (process_document unreadable_file epoch))
    = Some (failure_log unreadable_file UndeterminedType).
Proof.
  refine (proj2 (proj1 (undetermined_type_only_on_error unreadable_file epoch))
            _).
  split; [reflexivity|]. eexists. reflexivity.
Defined.

(** * Records that search cannot read *)

Lemma hit_result_unreadable valid_iso r i md :
  r_metadatas r !! i = Some md → unreadable_record valid_iso md →
  ∃ e, outcome (hit_result valid_iso r i) = Raised e.
Proof.
  intros Hmd Hbad. unfold hit_result, index.
  rewrite outcome_bind, outcome_lift.
  destruct (r_ids r !! i) as [id0|]; [|eauto].
  rewrite outcome_bind, outcome_lift.
  destruct (r_documents r !! i) as [content0|]; [|eauto].
  rewrite outcome_bind, outcome_lift, Hmd, outcome_bind.
  assert (∀ d : Q, ∃ e,
    match hit_metadata valid_iso md with
    | Returned a =>
        outcome (hit_chunk id0 content0 md ≫= fun ch =>
                 mret {| chunk := ch; score := similarity d; document := a |})
    | Raised e => Raised e
    end = Raised e) as Hrest.
  { intros d. destruct (hit_metadata valid_iso md) as [a|e] eqn:Ea; [|eauto].
    rewrite outcome_bind. unfold hit_chunk.
    rewrite outcome_bind, outcome_lift.
    unfold hit_metadata in Ea. unfold int_field.
    destruct Hbad as [(s & -> & ->)|[(s & Hs & Hint)|[Ht|Hv]]]; [eauto| | |].
    - destruct (md !! "page_number") as [p|];
        [destruct (Py.int p); [|eauto]|];
        rewrite outcome_bind, outcome_lift, Hs, Hint; eauto.
    - by rewrite Ht in Ea.
    - destruct (DocumentType_of_value _); [|done]. by rewrite Hv in Ea. }
  destruct (r_distances r) as [ds|].
  - rewrite outcome_lift. destruct (ds !! i) as [d|]; [|eauto].
    rewrite outcome_bind, outcome_lift. apply Hrest.
  - rewrite outcome_mret, outcome_bind, outcome_lift. apply Hrest.
Qed.

Lemma collect_results_raises valid_iso r indices search_results i e :
  i ∈ indices → outcome (hit_result valid_iso r i) = Raised e →
  ∃ e', outcome (collect_results valid_iso r indices search_results)
        = Raised e'.
Proof.
  intros Hin Hraise. revert search_results.
  induction indices as [|j rest IH]; intros search_results;
    [by apply elem_of_nil in Hin|].
  simpl. rewrite outcome_bind.
  apply elem_of_cons in Hin as [<-|Hin].
  - rewrite Hraise. eauto.
  - destruct (outcome (hit_result valid_iso r j)); [by apply IH|eauto].
Qed.

(** X13.  One hit with a record that cannot be read empties the whole
    answer: [search] returns [[]] and ends by logging an error.  The
    record that [add_document] stores for a document without upload date
    is such a record whenever [fromisoformat] rejects the empty text. *)
Theorem search_unreadable_record (valid_iso : string → bool)
    (collection_query :
       Collection → string → Z → gmap string string → Outcome QueryResult)
    (c : Collection) (query : string) (n_results : Z)
    (filter_conditions : gmap string string)
    (r : QueryResult) (i : nat) (md : gmap string string) :
  collection_query c query n_results (chroma_filters filter_conditions)
  = Returned r →
  (i < length (r_ids r))%nat →
  r_metadatas r !! i = Some md →
  unreadable_record valid_iso md →
  outcome (search valid_iso collection_query c query n_results
             filter_conditions) = Returned []
  ∧ (∃ msg, last (trace (search valid_iso collection_query c query n_results
                           filter_conditions)) = Some (Log ERROR msg))
  ∧ ∀ d chunk,
      upload_date (doc_metadata d) = None →
      metadata chunk !! "upload_date" = None →
      valid_iso EmptyString = false →
      unreadable_record valid_iso (chunk_record d chunk).
Proof.
  intros Hq Hi Hmd Hbad.
  destruct (hit_result_unreadable valid_iso r i md Hmd Hbad) as [e He].
  destruct (collect_results_raises valid_iso r (seq 0 (length (r_ids r))) []
              i e) as [e' He']; [|done|].
  { apply elem_of_seq. lia. }
  unfold search.
  rewrite outcome_try_except, trace_try_except, !outcome_bind, outcome_lift, Hq.
  simpl. rewrite He'. split; [done|]. split.
  - eexists. simpl. by rewrite last_snoc.
  - intros d chunk Hdate Hown Hv. right. right. right.
    rewrite chunk_record_lookup by done. rewrite Hdate.
    by simplify_map_eq.
Qed.

Lemma search_unreadable_record_witness :
  outcome (search epoch_only undated_engine ∅ "streams" 10 ∅) = Returned [].
Proof.
  refine (proj1 (search_unreadable_record epoch_only undated_engine ∅
                   "streams" 10 ∅ _ 1
                   (chunk_record undated_document notes_chunk) _ _ _ _)).
  - reflexivity.
  - simpl. lia.
  - reflexivity.
  - right. right. right. reflexivity.
Defined.

(** * The documents handed to the summarizer *)

Lemma append_chunk_keys k gc doc_groups :
  map fst (append_chunk k gc doc_groups) = map fst doc_groups.
Proof.
  induction doc_groups as [|[k' g] rest IH]; simpl; [done|].
  destruct (String.eqb k' k); simpl; [done|]. by rewrite IH.
Qed.

Lemma group_of_append_chunk k gc doc_groups k' :
  group_of k' (append_chunk k gc doc_groups)
  = if String.eqb k' k
    then (fun g => extend_group g [gc]) <$> group_of k' doc_groups
    else group_of k' doc_groups.
Proof.
  unfold group_of.
  induction doc_groups as [|[j g] rest IH]; simpl; [by destruct (String.eqb k' k)|].
  destruct (String.eqb j k) eqn:Ejk; simpl.
  - apply String.eqb_eq in Ejk as ->.
    destruct (String.eqb k k') eqn:E.
    + apply String.eqb_eq in E as ->. by rewrite String.eqb_refl.
    + rewrite String.eqb_sym, E. done.
  - destruct (String.eqb j k') eqn:Ejk'.
    + apply String.eqb_eq in Ejk' as ->. by rewrite Ejk.
    + exact IH.
Qed.

Lemma has_group_group_of k doc_groups :
  has_group k doc_groups
  = match group_of k doc_groups with Some _ => true | None => false end.
Proof.
  unfold has_group, group_of.
  induction doc_groups as [|[j g] rest IH]; simpl; [done|].
  by destruct (String.eqb j k).
Qed.

Lemma group_of_snoc k doc_groups j g :
  group_of k (doc_groups ++ [(j, g)])
  = match group_of k doc_groups with
    | Some g' => Some g'
    | None => if String.eqb j k then Some g else None
    end.
Proof.
  unfold group_of.
  induction doc_groups as [|[j' g'] rest IH]; simpl.
  - by destruct (String.eqb j k).
  - by destruct (String.eqb j' k).
Qed.

Lemma extend_group_nil g : extend_group g [] = g.
Proof. destruct g. unfold extend_group. simpl. by rewrite app_nil_r. Qed.

Lemma extend_group_extend g l1 l2 :
  extend_group (extend_group g l1) l2 = extend_group g (l1 ++ l2).
Proof. unfold extend_group. simpl. by rewrite app_assoc. Qed.

(** The group of a document after the loop: what it was, with the results
    of the document added in their order; a new group takes its metadata
    from the first result of the document. *)
Lemma fill_doc_groups_group_of search_results doc_groups k :
  group_of k (fill_doc_groups search_results doc_groups)
  = match group_of k doc_groups with
    | Some g =>
        Some (extend_group g (map group_chunk (results_of k search_results)))
    | None =>
        match List.find (fun r => String.eqb (chunk_doc_id (chunk r)) k)
                        search_results with
        | Some first =>
            Some {| g_chunks := map group_chunk (results_of k search_results);
                    g_metadata := group_metadata first |}
        | None => None
        end
    end.
Proof.
  revert doc_groups.
  induction search_results as [|result rest IH]; intros doc_groups.
  - simpl. destruct (group_of k doc_groups); [|done].
    by rewrite extend_group_nil.
  - change (fill_doc_groups (result :: rest) doc_groups)
      with (fill_doc_groups rest
              (append_chunk (chunk_doc_id (chunk result)) (group_chunk result)
                 (if has_group (chunk_doc_id (chunk result)) doc_groups
                  then doc_groups
                  else doc_groups
                       ++ [(chunk_doc_id (chunk result),
                            {| g_chunks := [];
                               g_metadata := group_metadata result |})]))).
    rewrite IH, group_of_append_chunk. clear IH.
    set (k0 := chunk_doc_id (chunk result)).
    unfold results_of. simpl List.filter. simpl List.find. fold k0.
    fold (results_of k rest).
    rewrite has_group_group_of.
    destruct (String.eqb k k0) eqn:E.
    + apply String.eqb_eq in E as <-. rewrite String.eqb_refl.
      destruct (group_of k doc_groups) as [g|] eqn:Eg.
      * rewrite Eg. simpl. by rewrite extend_group_extend.
      * rewrite group_of_snoc, Eg, String.eqb_refl. simpl.
        by rewrite extend_group_extend.
    + rewrite String.eqb_sym, E.
      assert (group_of k
                (if match group_of k0 doc_groups with
                    | Some _ => true | None => false end
                 then doc_groups
                 else doc_groups
                      ++ [(k0, {| g_chunks := [];
                                  g_metadata := group_metadata result |})])
              = group_of k doc_groups) as ->; [|done].
      destruct (group_of k0 doc_groups); [done|].
      rewrite group_of_snoc. destruct (group_of k doc_groups); [done|].
      by rewrite String.eqb_sym, E.
Qed.

Lemma has_group_keys k doc_groups :
  has_group k doc_groups = true ↔ k ∈ map fst doc_groups.
Proof.
  unfold has_group. rewrite existsb_exists, list_elem_of_fmap. split.
  - intros ([k' g] & Hin & Heq). apply String.eqb_eq in Heq.
    exists (k', g). split; [by symmetry|by apply list_elem_of_In].
  - intros ([k' g] & -> & Hin). exists (k', g).
    split; [by apply list_elem_of_In|apply String.eqb_refl].
Qed.

Lemma fill_doc_groups_keys search_results doc_groups :
  NoDup (map fst doc_groups) →
  NoDup (map fst (fill_doc_groups search_results doc_groups))
  ∧ ∀ k, k ∈ map fst (fill_doc_groups search_results doc_groups)
         ↔ k ∈ map fst doc_groups
           ∨ k ∈ map (fun r => chunk_doc_id (chunk r)) search_results.
Proof.
  revert doc_groups.
  induction search_results as [|result rest IH]; intros doc_groups Hnd.
  - split; [done|]. intros k. simpl. rewrite elem_of_nil. tauto.
  - change (fill_doc_groups (result :: rest) doc_groups)
      with (fill_doc_groups rest
              (append_chunk (chunk_doc_id (chunk result)) (group_chunk result)
                 (if has_group (chunk_doc_id (chunk result)) doc_groups
                  then doc_groups
                  else doc_groups
                       ++ [(chunk_doc_id (chunk result),
                            {| g_chunks := [];
                               g_metadata := group_metadata result |})]))).
    set (k0 := chunk_doc_id (chunk result)).
    destruct (has_group k0 doc_groups) eqn:E.
    + destruct (IH (append_chunk k0 (group_chunk result) doc_groups))
        as [Hnd' Hin']; [by rewrite append_chunk_keys|].
      split; [done|]. intros k. rewrite Hin', append_chunk_keys.
      simpl. rewrite elem_of_cons. apply has_group_keys in E.
      fold k0. split; [tauto|]. intros [?|[->|?]]; tauto.
    + assert (k0 ∉ map fst doc_groups) as Hk0.
      { rewrite <- has_group_keys. by rewrite E. }
      destruct (IH (append_chunk k0 (group_chunk result)
                      (doc_groups ++ [(k0, {| g_chunks := [];
                                              g_metadata := group_metadata result |})])))
        as [Hnd' Hin'].
      { rewrite append_chunk_keys, map_app. simpl.
        apply NoDup_app. split; [done|]. split; [|apply NoDup_singleton].
        intros k Hk ->%list_elem_of_singleton. done. }
      split; [done|]. intros k.
      rewrite Hin', append_chunk_keys, map_app. simpl.
      rewrite elem_of_app, list_elem_of_singleton, elem_of_cons. fold k0.
      tauto.
Qed.

Lemma group_of_elem k g doc_groups :
  NoDup (map fst doc_groups) → (k, g) ∈ doc_groups →
  group_of k doc_groups = Some g.
Proof.
  unfold group_of.
  induction doc_groups as [|[j g'] rest IH]; intros Hnd Hin;
    [by apply elem_of_nil in Hin|].
  simpl in *. apply NoDup_cons in Hnd as [Hj Hnd].
  apply elem_of_cons in Hin as [[= -> ->]|Hin].
  - by rewrite String.eqb_refl.
  - destruct (String.eqb j k) eqn:E; [|by apply IH].
    apply String.eqb_eq in E as ->. exfalso. apply Hj.
    apply list_elem_of_fmap. by exists (k, g).
Qed.

Lemma length_slice_to n s :
  0 ≤ n → Z.of_nat (String.length (Py.slice_to n s)) ≤ n.
Proof.
  intros Hn. unfold Py.slice_to.
  destruct (Z.leb_spec 0 n); [|lia]. rewrite length_take. lia.
Qed.

(** X14.  The documents handed to the summarizer: there is one for every
    doc_id among the chunks of the results and no other, none twice; the
    text of a document is made of the results of this document alone,
    highest scores first, joined by a blank line and cut at 10000
    characters; its metadata are those of the first result of the
    document. *)
Theorem prepare_documents_groups (search_results : list SearchResult) :
  let documents := prepare_documents search_results in
  NoDup (map pd_id documents)
  ∧ (∀ k, k ∈ map pd_id documents
          ↔ k ∈ map (fun r => chunk_doc_id (chunk r)) search_results)
  ∧ ∀ doc, doc ∈ documents →
      Z.of_nat (String.length (pd_text doc)) ≤ 10000
      ∧ pd_text doc
        = group_text (map group_chunk (results_of (pd_id doc) search_results))
      ∧ ∃ first,
          List.find (fun r => String.eqb (chunk_doc_id (chunk r)) (pd_id doc))
                    search_results = Some first
          ∧ pd_metadata doc = group_metadata first.
Proof.
  intros documents. subst documents. unfold prepare_documents.
  destruct (fill_doc_groups_keys search_results [] (NoDup_nil_2 (A:=string)))
    as [Hnd Hkeys].
  assert (map pd_id (map prompt_document (fill_doc_groups search_results []))
          = map fst (fill_doc_groups search_results [])) as Hids
    by (rewrite map_map; done).
  rewrite Hids. split; [done|]. split.
  - intros k. rewrite Hkeys. simpl. rewrite elem_of_nil. tauto.
  - intros doc ([k g] & -> & Hin)%list_elem_of_fmap. simpl.
    split; [by apply length_slice_to|].
    pose proof (group_of_elem k g _ Hnd Hin) as Hg.
    rewrite fill_doc_groups_group_of in Hg. simpl in Hg.
    destruct (List.find _ search_results) as [first|]; [|done].
    injection Hg as <-. simpl. eauto.
Qed.

Lemma prepare_documents_groups_witness :
  Z.of_nat (String.length (pd_text mixed_document_A)) ≤ 10000
  ∧ pd_text mixed_document_A
    = group_text (map group_chunk
                    (results_of (pd_id mixed_document_A) mixed_hits))
  ∧ ∃ first,
      List.find (fun r => String.eqb (chunk_doc_id (chunk r))
                                     (pd_id mixed_document_A))
                mixed_hits = Some first
      ∧ pd_metadata mixed_document_A = group_metadata first.
Proof.
  apply (proj2 (proj2 (prepare_documents_groups mixed_hits)) mixed_document_A).
  vm_compute. left.
Defined.

(** * The card of a result *)

Lemma length_append a b :
  String.length (a +:+ b) = (String.length a + String.length b)%nat.
Proof.
  induction a as [|c a IH]; [done|]. rewrite append_cons. simpl. by rewrite IH.
Qed.

Lemma take_chars n s c :
  c ∈ list_ascii_of_string (Py.take n s) → c ∈ list_ascii_of_string s.
Proof.
  revert n. induction s as [|a r IH]; intros n; destruct n; simpl;
    try (by intros ?%elem_of_nil).
  intros [->|H]%elem_of_cons; [left|right; by eapply IH].
Qed.

(** X15.  The card of a result shows the doc_id and the score of the
    result, a file name that is never empty, and as its answer a single
    line (no newline character) of at most 503 characters. *)
Theorem display_record_card (res : SearchResult) :
  let card := display_record res in
  id card = doc_id (document res)
  ∧ relevance card = score res
  ∧ filename card ≠ EmptyString
  ∧ (title (document res) ≠ EmptyString → filename card = title (document res))
  ∧ (String.length (answer card) <= 503)%nat
  ∧ ∀ c, c ∈ list_ascii_of_string (answer card) → c ≠ Py.LF.
Proof.
  simpl. split; [done|]. split; [done|]. split; [|split; [|split]].
  - by destruct (title (document res)).
  - by destruct (title (document res)).
  - unfold answer_snippet, Py.slice_to.
    change (0 <=? 500) with true. change (Z.to_nat 500) with 500%nat.
    rewrite length_append, length_take.
    pose proof (Nat.le_min_l 500
                  (String.length
                     (Py.replace_char Py.LF Py.SP
                        (Py.strip (content (chunk res)))))) as Hmin.
    destruct (500 <? Py.len (content (chunk res))).
    + change (String.length "...") with 3%nat. lia.
    + change (String.length EmptyString) with 0%nat. lia.
  - intros c. unfold answer_snippet, Py.slice_to.
    change (0 <=? 500) with true. change (Z.to_nat 500) with 500%nat.
    rewrite chars_append, elem_of_app. intros [Hc|Hc].
    + apply take_chars in Hc.
      by apply (replace_char_gone Py.LF Py.SP
                  (Py.strip (content (chunk res)))).
    + destruct (500 <? Py.len (content (chunk res))); simpl in Hc.
      * repeat (apply elem_of_cons in Hc as [->|Hc]; [done|]).
        by apply elem_of_nil in Hc.
      * by apply elem_of_nil in Hc.
Qed.

Lemma display_record_card_witness :
  filename (display_record long_hit) = "A".
Proof.
  refine (proj1 (proj2 (proj2 (proj2 (display_record_card long_hit)))) _).
  discriminate.
Defined.

Example long_hit_card :
  String.length (content (chunk long_hit)) = 600%nat
  ∧ String.length (answer (display_record long_hit)) = 503%nat.
Proof. split; vm_compute; reflexivity. Qed.

(** * From the file to the card *)

Lemma hit_chunk_of_record d chunk id0 :
  (∀ k, k ∈ RECORD_KEYS → metadata chunk !! k = None) →
  outcome (hit_chunk id0 (content chunk) (chunk_record d chunk))
  = Returned
      {| chunk_id := id0;
         chunk_doc_id := doc_id (doc_metadata d);
         content := content chunk;
         page_number := page_number chunk + 1 - 1;
         chunk_index := chunk_index chunk;
         metadata := chunk_record d chunk;
         embedding := None |}.
Proof.
  intros Hk. unfold hit_chunk, int_field.
  rewrite !chunk_record_lookup
    by (apply Hk; unfold RECORD_KEYS; set_solver).
  simplify_map_eq.
  rewrite outcome_bind, outcome_lift, int_str.
  by rewrite outcome_bind, outcome_lift, int_str.
Qed.

(** X16.  From the index to the card: of a chunk whose own metadata has
    none of the keys of [RECORD_KEYS], the result that [search] rebuilds
    from the stored record is shown with the citation
    "Page <page_number + 1>, Chunk <chunk_index + 1>" of the chunk, under
    the doc_id of its document, with the snippet of its content. *)
Theorem card_of_stored_chunk (valid_iso : string → bool) (d : Document)
    (stored : DocumentChunk) (r : QueryResult) (i : nat) (res : SearchResult) :
  (∀ k, k ∈ RECORD_KEYS → metadata stored !! k = None) →
  r_documents r !! i = Some (content stored) →
  r_metadatas r !! i = Some (chunk_record d stored) →
  outcome (hit_result valid_iso r i) = Returned res →
  citation (display_record res)
  = "Page " +:+ Py.str (page_number stored + 1)
    +:+ ", Chunk " +:+ Py.str (chunk_index stored + 1)
  ∧ id (display_record res) = doc_id (doc_metadata d)
  ∧ answer (display_record res) = answer_snippet (content stored).
Proof.
  intros Hk Hdoc Hmd Hres.
  pose proof (hit_result_fields valid_iso r i res Hres)
    as (Hid & Hcontent & Hmeta & Hdocument).
  rewrite Hdoc in Hcontent. injection Hcontent as Hcontent.
  rewrite Hmd in Hmeta. injection Hmeta as Hmeta.
  assert (page_number (chunk res) = page_number stored
          ∧ chunk_index (chunk res) = chunk_index stored) as [Hp Hi].
  { unfold hit_result, index in Hres.
    rewrite outcome_bind, outcome_lift in Hres.
    destruct (r_ids r !! i) as [id0|]; [|done].
    rewrite outcome_bind, outcome_lift, Hdoc in Hres.
    rewrite outcome_bind, outcome_lift, Hmd in Hres.
    rewrite outcome_bind in Hres.
    match type of Hres with
    | match ?o with _ => _ end = _ => destruct o as [dist|e]; [|done]
    end.
    rewrite outcome_bind, outcome_lift in Hres.
    destruct (hit_metadata valid_iso (chunk_record d stored)); [|done].
    rewrite outcome_bind, (hit_chunk_of_record d stored id0 Hk) in Hres.
    injection Hres as <-. simpl. split; [lia|done]. }
  assert (doc_id (document res) = doc_id (doc_metadata d)) as Hdid.
  { rewrite <- Hmeta in Hdocument. unfold hit_metadata in Hdocument.
    rewrite !chunk_record_lookup in Hdocument
      by (apply Hk; unfold RECORD_KEYS; set_solver).
    simplify_map_eq.
    destruct (DocumentType_of_value _); [|done].
    destruct (valid_iso _); [|done].
    by injection Hdocument as <-. }
  unfold display_record. simpl. by rewrite Hp, Hi, Hdid, <- Hcontent.
Qed.

Lemma card_of_stored_chunk_witness :
  ∃ res,
    outcome (hit_result epoch_only
               {| r_ids := [counter_uuid 0];
                  r_documents := [content notes_chunk];
                  r_metadatas := [chunk_record notes_document notes_chunk];
                  r_distances := Some [(1 # 4)%Q] |} 0) = Returned res
    ∧ citation (display_record res)
      = "Page " +:+ Py.str (page_number notes_chunk + 1)
        +:+ ", Chunk " +:+ Py.str (chunk_index notes_chunk + 1)
    ∧ id (display_record res) = doc_id (doc_metadata notes_document)
    ∧ answer (display_record res) = answer_snippet (content notes_chunk).
Proof.
  eexists. split; [reflexivity|].
  eapply (card_of_stored_chunk epoch_only notes_document notes_chunk
            {| r_ids := [counter_uuid 0];
               r_documents := [content notes_chunk];
               r_metadatas := [chunk_record notes_document notes_chunk];
               r_distances := Some [(1 # 4)%Q] |} 0).
  - intros k Hk. unfold RECORD_KEYS in Hk.
    repeat (apply elem_of_cons in Hk as [->|Hk]; [reflexivity|]).
    by apply elem_of_nil in Hk.
  - reflexivity.
  - reflexivity.
  - reflexivity.
Defined.
